(** * GPU resource wrappers and shape factories of the [graf] library

    A shallow embedding of the C++ classes [VertexBuffer], [IndexBuffer],
    [VertexArrayObject], [ShapeFactory] (with its five concrete factories)
    and [ShapeFactoryManager], together with the properties of the
    specification that concern them.

    Conventions of the embedding:
    - [int] and [unsigned int] are 32 bits wide, [size_t] is 64 bits wide;
      all three are carried by [Z] and every arithmetic operation writes
      its reduction out ([int_wrap], [uint_wrap], [size_wrap]).  Signed
      arithmetic is given its two's complement result.
    - A method is a function in the monad [M S], a state transformer over
      the part [S] of the program state the method can reach, whose result
      is a normal return, a thrown exception, or undefined behaviour
      (a null or out-of-bounds access).
    - The OpenGL context is a value: the list of calls issued so far and
      the two answers the driver gives back to the program (the object
      names it generates and the error code it reports). *)

From Stdlib Require Import ZArith List String Lia QArith Reals Lra.
From stdpp Require Import base option list gmap strings.

Local Open Scope Z_scope.

(** ** Machine integers *)

Definition int_wrap (z : Z) : Z := (z + 2 ^ 31) mod 2 ^ 32 - 2 ^ 31.
Definition uint_wrap (z : Z) : Z := z mod 2 ^ 32.
Definition size_wrap (z : Z) : Z := z mod 2 ^ 64.

Definition INT_MAX : Z := 2 ^ 31 - 1.
Definition INT_MIN : Z := - 2 ^ 31.
(** No [std::vector] has more than [PTRDIFF_MAX] elements. *)
Definition PTRDIFF_MAX : Z := 2 ^ 63 - 1.

Definition int_add (a b : Z) : Z := int_wrap (a + b).
Definition int_sub (a b : Z) : Z := int_wrap (a - b).
Definition int_mul (a b : Z) : Z := int_wrap (a * b).
(** [a / b] on [int]: truncation towards zero. *)
Definition int_div (a b : Z) : Z := int_wrap (Z.quot a b).

Definition uint_add (a b : Z) : Z := uint_wrap (a + b).
Definition size_add (a b : Z) : Z := size_wrap (a + b).

(** [v.size()] of a [std::vector]. *)
Definition vector_size {A : Type} (v : list A) : Z :=
  size_wrap (Z.of_nat (length v)).

(** ** Exceptions

    [BufferException] derives from [GrafException], which derives from
    [std::runtime_error]; the constructor of [BufferException] prefixes
    its message.  [StdException] stands for the exceptions of the standard
    library that are not [GrafException]s ([std::length_error]). *)

Inductive exn : Type :=
| GrafException (message : string)
| BufferException (message : string)
| StdException (message : string).

Definition what (e : exn) : string :=
  match e with
  | GrafException m => m
  | BufferException m => String.append "Buffer Error: " m
  | StdException m => m
  end.

(** [catch (const GrafException&)] also catches the derived class. *)
Definition is_GrafException (e : exn) : bool :=
  match e with
  | GrafException _ | BufferException _ => true
  | StdException _ => false
  end.

(** ** The monad of methods *)

Inductive result (A : Type) : Type :=
| Ok (a : A)
| Throw (e : exn)
| Undefined.
Arguments Ok {A} a.
Arguments Throw {A} e.
Arguments Undefined {A}.

Definition M (S A : Type) : Type := S -> result A * S.

Definition ret {S A} (a : A) : M S A := fun s => (Ok a, s).

Definition bind {S A B} (m : M S A) (k : A -> M S B) : M S B :=
  fun s =>
    match m s with
    | (Ok a, s') => k a s'
    | (Throw e, s') => (Throw e, s')
    | (Undefined, s') => (Undefined, s')
    end.

Definition throw {S A} (e : exn) : M S A := fun s => (Throw e, s).
Definition undefined {S A} : M S A := fun s => (Undefined, s).
Definition get {S} : M S S := fun s => (Ok s, s).
Definition put {S} (s : S) : M S unit := fun _ => (Ok tt, s).
Definition modify {S} (f : S -> S) : M S unit := fun s => (Ok tt, f s).

(** [try { m } catch (const E& e) { h e }], where [catches] tells which
    exceptions have type [E]. *)
Definition try_catch {S A} (catches : exn -> bool) (m : M S A)
    (h : exn -> M S A) : M S A :=
  fun s =>
    match m s with
    | (Throw e, s') => if catches e then h e s' else (Throw e, s')
    | r => r
    end.

(** Run [m] on the component of the state selected by [sel], and store
    the component back with [upd].  A component that does not exist (a
    null or dangling pointer) makes the access undefined. *)
Definition zoom {S T A} (sel : S -> option T) (upd : T -> S -> S)
    (m : M T A) : M S A :=
  fun s =>
    match sel s with
    | None => (Undefined, s)
    | Some t =>
        match m t with
        | (r, t') => (r, upd t' s)
        end
    end.

(** A method reaches the fields of its object ([this]) and the rest of
    the program state ([env]). *)
Definition this {T G A} (m : M T A) : M (T * G) A :=
  zoom (fun s => Some (fst s)) (fun t s => (t, snd s)) m.
Definition env {T G A} (m : M G A) : M (T * G) A :=
  zoom (fun s => Some (snd s)) (fun g s => (fst s, g)) m.

(** The same for a block with two local variables. *)
Definition on_fst {T G A} (m : M T A) : M (T * G) A := this m.
Definition on_snd {T G A} (m : M G A) : M (T * G) A := env m.

(** A block with a local variable [init], which is returned with the
    result of the block when the block ends. *)
Definition local {S T A} (init : T) (m : M T A) : M S (A * T) :=
  fun s =>
    match m init with
    | (Ok a, t) => (Ok (a, t), s)
    | (Throw e, _) => (Throw e, s)
    | (Undefined, _) => (Undefined, s)
    end.

Declare Scope cxx_scope.
Delimit Scope cxx_scope with cxx.
Notation "'let*' x ':=' m 'in' k" := (bind m (fun x => k))
  (at level 10, x name, m at level 100, k at level 200) : cxx_scope.
Notation "m ';;;' k" := (bind m (fun _ => k))
  (at level 100, k at level 200, right associativity) : cxx_scope.
Local Open Scope cxx_scope.

(** ** Vertices

    [glm::vec3], [glm::vec2] and [Vertex] over a type [F] of floating
    point values. *)

Module glm.
Record vec3 (F : Type) : Type := mk_vec3 { x : F; y : F; z : F }.
Record vec2 (F : Type) : Type := mk_vec2 { s : F; t : F }.
Arguments mk_vec3 {F} _ _ _.
Arguments mk_vec2 {F} _ _.
Arguments x {F} _.
Arguments y {F} _.
Arguments z {F} _.
Arguments s {F} _.
Arguments t {F} _.
End glm.

Record Vertex (F : Type) : Type := mk_Vertex
  { position : glm.vec3 F; texture : glm.vec2 F }.
Arguments mk_Vertex {F} _ _.
Arguments position {F} _.
Arguments texture {F} _.

Abbreviation VertexList F := (list (Vertex F)).
Abbreviation IndexList := (list Z).

(** [v[n]] of a [std::vector] for a [size_t] index [n], read and write.
    [operator[]] does not check its index: out of bounds is undefined. *)
Definition vector_get {A} (n : Z) : M (list A) A :=
  fun v =>
    if decide (0 <= n < Z.of_nat (length v))
    then match v !! Z.to_nat n with
         | Some a => (Ok a, v)
         | None => (Undefined, v)
         end
    else (Undefined, v).

Definition vector_update {A} (n : Z) (f : A -> A) : M (list A) unit :=
  bind (vector_get n) (fun a => modify (fun v => <[Z.to_nat n := f a]> v)).

(** [a[k]] of a built-in array (passed as a pointer) for an [int] index. *)
Definition array_get {S A} (a : list A) (k : Z) : M S A :=
  if decide (0 <= k < Z.of_nat (length a))
  then match a !! Z.to_nat k with
       | Some v => ret v
       | None => undefined
       end
  else undefined.

(** ** The OpenGL context

    The enumerators are those of the OpenGL headers that the program
    uses; [Blob] is the type of the data a [const void*] points to, and a
    null pointer is [None]. *)

Inductive GLenum : Type :=
| GL_ARRAY_BUFFER | GL_ELEMENT_ARRAY_BUFFER | GL_STATIC_DRAW
| GL_TRIANGLES | GL_UNSIGNED_INT | GL_FLOAT.

Inductive GLerror : Type :=
| GL_NO_ERROR | GL_INVALID_ENUM | GL_INVALID_VALUE | GL_INVALID_OPERATION
| GL_OUT_OF_MEMORY | GL_OTHER_ERROR (code : Z).

Inductive GLCall (Blob : Type) : Type :=
| GenBuffers (name : Z)
| BindBuffer (target : GLenum) (buffer : Z)
| BufferData (target : GLenum) (size : Z) (data : option Blob) (usage : GLenum)
| DeleteBuffers (buffer : Z)
| GenVertexArrays (name : Z)
| BindVertexArray (array : Z)
| DeleteVertexArrays (array : Z)
| VertexAttribPointer (index size : Z) (type : GLenum) (normalized : bool)
    (stride : Z) (pointer : Z)
| EnableVertexAttribArray (index : Z)
| DrawElements (mode : GLenum) (count : Z) (type : GLenum) (indices : Z)
| GetError (code : GLerror).
Arguments GenBuffers {Blob} _.
Arguments BindBuffer {Blob} _ _.
Arguments BufferData {Blob} _ _ _ _.
Arguments DeleteBuffers {Blob} _.
Arguments GenVertexArrays {Blob} _.
Arguments BindVertexArray {Blob} _.
Arguments DeleteVertexArrays {Blob} _.
Arguments VertexAttribPointer {Blob} _ _ _ _ _ _.
Arguments EnableVertexAttribArray {Blob} _.
Arguments DrawElements {Blob} _ _ _ _.
Arguments GetError {Blob} _.

(** The calls issued so far, oldest first, and the driver: the name a
    [glGen*] call leaves in the variable it is given (a function of the
    history and of the old content of the variable, which a failing call
    leaves as it is), and the code [glGetError] reports. *)
Record GLContext (Blob : Type) : Type := mk_GLContext
  { issued : list (GLCall Blob);
    gen_name : list (GLCall Blob) -> Z -> Z;
    error_code : list (GLCall Blob) -> GLerror }.
Arguments mk_GLContext {Blob} _ _ _.
Arguments issued {Blob} _.
Arguments gen_name {Blob} _ _ _.
Arguments error_code {Blob} _ _.

Module GL.
Section Calls.
Context {Blob : Type}.

Definition issue (c : GLCall Blob) : M (GLContext Blob) unit :=
  modify (fun g => mk_GLContext (issued g ++ [c]) (gen_name g) (error_code g)).

(** [glGenBuffers(1, &id)]: returns the new content of [id]. *)
Definition glGenBuffers (id : Z) : M (GLContext Blob) Z :=
  let* g := get in
  let name := uint_wrap (gen_name g (issued g) id) in
  issue (GenBuffers name) ;;; ret name.

Definition glGenVertexArrays (id : Z) : M (GLContext Blob) Z :=
  let* g := get in
  let name := uint_wrap (gen_name g (issued g) id) in
  issue (GenVertexArrays name) ;;; ret name.

Definition glGetError : M (GLContext Blob) GLerror :=
  let* g := get in
  let code := error_code g (issued g) in
  issue (GetError code) ;;; ret code.

Definition glBindBuffer target buffer := issue (BindBuffer target buffer).
Definition glBufferData target size data usage :=
  issue (BufferData target size data usage).
Definition glDeleteBuffers buffer := issue (DeleteBuffers buffer).
Definition glBindVertexArray array := issue (BindVertexArray array).
Definition glDeleteVertexArrays array := issue (DeleteVertexArrays array).
Definition glVertexAttribPointer index size type normalized stride pointer :=
  issue (VertexAttribPointer index size type normalized stride pointer).
Definition glEnableVertexAttribArray index :=
  issue (EnableVertexAttribArray index).
Definition glDrawElements mode count type indices :=
  issue (DrawElements mode count type indices).
End Calls.
End GL.

(** ErrorCheck.hpp *)
Definition CheckGLError {Blob} (operation : string) : M (GLContext Blob) unit :=
  let* error := GL.glGetError in
  match error with
  | GL_NO_ERROR => ret tt
  | _ =>
      let errorMsg :=
        match error with
        | GL_INVALID_ENUM => "Invalid enum"
        | GL_INVALID_VALUE => "Invalid value"
        | GL_INVALID_OPERATION => "Invalid operation"
        | GL_OUT_OF_MEMORY => "Out of memory"
        | _ => "Unknown error"
        end%string in
      throw (GrafException
               (String.append operation (String.append " failed: " errorMsg)))
  end.

Definition is_null {A} (p : option A) : bool :=
  match p with None => true | Some _ => false end.

(** ** VertexBuffer (VertexBuffer.hpp, VertexBuffer.cpp) *)

Module VertexBuffer.
Record t : Type := mk { m_id : Z }.

Section Methods.
Context {Blob : Type}.
Abbreviation St := (t * GLContext Blob)%type.

Definition Create (data : option Blob) (size : Z) : M St unit :=
  if is_null data || (size <=? 0)
  then throw (BufferException "Invalid vertex buffer data or size")
  else
    let* b := this get in
    let* id := env (GL.glGenBuffers (m_id b)) in
    this (put (mk id)) ;;;
    if decide (id = 0)
    then throw (BufferException "Failed to generate vertex buffer")
    else
      env (GL.glBindBuffer GL_ARRAY_BUFFER id) ;;;
      env (GL.glBufferData GL_ARRAY_BUFFER size data GL_STATIC_DRAW) ;;;
      env (CheckGLError "Vertex Buffer Creation").

Definition Bind : M St unit :=
  let* b := this get in
  env (GL.glBindBuffer GL_ARRAY_BUFFER (m_id b)).

Definition Unbind : M St unit :=
  env (GL.glBindBuffer GL_ARRAY_BUFFER 0).

Definition Release : M St unit :=
  let* b := this get in
  if decide (m_id b <> 0)
  then env (GL.glDeleteBuffers (m_id b)) ;;; this (put (mk 0))
  else ret tt.
End Methods.
End VertexBuffer.

(** ** IndexBuffer (IndexBuffer.hpp, IndexBuffer.cpp) *)

Module IndexBuffer.
Record t : Type := mk { m_id : Z; m_IndexCount : Z }.

Section Methods.
Context {Blob : Type}.
Abbreviation St := (t * GLContext Blob)%type.

Definition Bind : M St unit :=
  let* b := this get in
  env (GL.glBindBuffer GL_ELEMENT_ARRAY_BUFFER (m_id b)).

Definition Create (data : option Blob) (size : Z) : M St unit :=
  if is_null data || (size <=? 0)
  then throw (BufferException "Invalid buffer data or size")
  else
    let* b := this get in
    let* id := env (GL.glGenBuffers (m_id b)) in
    this (put (mk id (m_IndexCount b))) ;;;
    if decide (id = 0)
    then throw (BufferException "Failed to generate index buffer")
    else
      env (GL.glBindBuffer GL_ELEMENT_ARRAY_BUFFER id) ;;;
      env (GL.glBufferData GL_ELEMENT_ARRAY_BUFFER size data GL_STATIC_DRAW) ;;;
      env (CheckGLError "Index Buffer Creation") ;;;
      this (modify (fun b => mk (m_id b) (int_div size 4))).

Definition getIndexCount : M St Z :=
  let* b := this get in ret (m_IndexCount b).

Definition Release : M St unit :=
  let* b := this get in
  if decide (m_id b <> 0)
  then
    env (GL.glDeleteBuffers (m_id b)) ;;;
    this (modify (fun b => mk 0 (m_IndexCount b)))
  else ret tt.

Definition Unbind : M St unit :=
  env (GL.glBindBuffer GL_ELEMENT_ARRAY_BUFFER 0).
End Methods.
End IndexBuffer.

(** ** Shared buffer objects

    A [std::shared_ptr] is [None] (null) or the location of an object in
    the store; every holder of the pointer reaches the same object. *)

Abbreviation shared_ptr := (option positive).

Record Buffers (Blob : Type) : Type := mk_Buffers
  { gl : GLContext Blob;
    vertex_buffers : gmap positive VertexBuffer.t;
    index_buffers : gmap positive IndexBuffer.t }.
Arguments mk_Buffers {Blob} _ _ _.
Arguments gl {Blob} _.
Arguments vertex_buffers {Blob} _.
Arguments index_buffers {Blob} _.

Section Deref.
Context {Blob : Type}.

(** A call of the OpenGL library. *)
Definition glcall {A} (m : M (GLContext Blob) A) : M (Buffers Blob) A :=
  zoom (fun h => Some (gl h))
       (fun g h => mk_Buffers g (vertex_buffers h) (index_buffers h)) m.

(** [p->method(...)] for a [shared_ptr<VertexBuffer>] [p]. *)
Definition call_vb {A} (p : shared_ptr)
    (method : M (VertexBuffer.t * GLContext Blob) A) : M (Buffers Blob) A :=
  match p with
  | None => undefined
  | Some l =>
      zoom (fun h => match vertex_buffers h !! l with
                     | Some b => Some (b, gl h)
                     | None => None
                     end)
           (fun bg h => mk_Buffers (snd bg) (<[l := fst bg]> (vertex_buffers h))
                          (index_buffers h))
           method
  end.

(** [p->method(...)] for a [shared_ptr<IndexBuffer>] [p]. *)
Definition call_ib {A} (p : shared_ptr)
    (method : M (IndexBuffer.t * GLContext Blob) A) : M (Buffers Blob) A :=
  match p with
  | None => undefined
  | Some l =>
      zoom (fun h => match index_buffers h !! l with
                     | Some b => Some (b, gl h)
                     | None => None
                     end)
           (fun bg h => mk_Buffers (snd bg) (vertex_buffers h)
                          (<[l := fst bg]> (index_buffers h)))
           method
  end.
End Deref.

(** ** VertexArrayObject (VertexArrayObject.hpp, VertexArrayObject.cpp) *)

Inductive VertexAttributeType : Type := Position | Color | Normal | Texture.

Abbreviation AttributeList := (list VertexAttributeType).

Module VertexArrayObject.
Record t : Type := mk
  { m_id : Z;
    mp_vb : shared_ptr;
    mp_ib : shared_ptr;
    m_stride : Z;
    m_attributes : AttributeList }.

(** [sizeof(float)] is 4; the product is converted to [int]. *)
Definition getTypeSize (type : VertexAttributeType) : Z :=
  match type with
  | Position | Normal => int_wrap (size_wrap (4 * 3))
  | Color => int_wrap (size_wrap (4 * 4))
  | Texture => int_wrap (size_wrap (4 * 2))
  end.

Section Methods.
Context {Blob : Type}.
Abbreviation St := (t * Buffers Blob)%type.

Definition gl_ {A} (m : M (GLContext Blob) A) : M St A := env (glcall m).

Definition Create : M St unit :=
  let* v := this get in
  let* id := gl_ (GL.glGenVertexArrays (m_id v)) in
  this (put (mk id (mp_vb v) (mp_ib v) (m_stride v) (m_attributes v))) ;;;
  if decide (id = 0)
  then throw (BufferException "Failed to generate Vertex Array Object")
  else
    gl_ (CheckGLError "VAO generation") ;;;
    this (modify (fun v => mk (m_id v) (mp_vb v) (mp_ib v) 0 (m_attributes v))).

Definition Bind : M St unit :=
  let* v := this get in
  gl_ (GL.glBindVertexArray (m_id v)).

Definition Unbind : M St unit :=
  gl_ (GL.glBindVertexArray 0) ;;;
  let* v := this get in
  env (call_ib (mp_ib v) IndexBuffer.Unbind) ;;;
  env (call_vb (mp_vb v) VertexBuffer.Unbind).

Definition SetVertexBuffer (p_vb : shared_ptr) : M St unit :=
  if is_null p_vb
  then throw (BufferException "Null vertex buffer")
  else
    this (modify (fun v => mk (m_id v) p_vb (mp_ib v) (m_stride v)
                             (m_attributes v))) ;;;
    try_catch is_GrafException
      (Bind ;;;
       (let* v := this get in env (call_vb (mp_vb v) VertexBuffer.Bind)) ;;;
       gl_ (CheckGLError "Vertex buffer binding"))
      (fun e =>
         Unbind ;;;
         throw (BufferException
                  (String.append "Failed to set vertex buffer: " (what e)))).

Definition Draw : M St unit :=
  let* v := this get in
  if is_null (mp_ib v)
  then throw (BufferException "No index buffer bound for drawing")
  else
    let* count := env (call_ib (mp_ib v) IndexBuffer.getIndexCount) in
    gl_ (GL.glDrawElements GL_TRIANGLES count GL_UNSIGNED_INT 0) ;;;
    gl_ (CheckGLError "Draw call").

Definition SetIndexBuffer (p_ib : shared_ptr) : M St unit :=
  if is_null p_ib
  then throw (BufferException "Null index buffer")
  else
    this (modify (fun v => mk (m_id v) (mp_vb v) p_ib (m_stride v)
                             (m_attributes v))) ;;;
    try_catch is_GrafException
      (Bind ;;;
       (let* v := this get in env (call_ib (mp_ib v) IndexBuffer.Bind)) ;;;
       gl_ (CheckGLError "Index buffer binding"))
      (fun e =>
         Unbind ;;;
         throw (BufferException
                  (String.append "Failed to set index buffer: " (what e)))).

Definition AddVertexAttribute (type : VertexAttributeType) : M St unit :=
  this (modify (fun v =>
    mk (m_id v) (mp_vb v) (mp_ib v)
       (uint_add (m_stride v) (uint_wrap (getTypeSize type)))
       (m_attributes v ++ [type]))).

(** The loop [for (int i = 0; i < m_attributes.size(); i++)], entered at
    [i] with the attributes from [i] on still to activate. *)
Fixpoint ActivateAttributes_loop (m_stride : Z) (i : Z) (location : Z)
    (attributes : AttributeList) : M St unit :=
  match attributes with
  | [] => ret tt
  | type :: rest =>
      let attributeSize := getTypeSize type in
      let elementCount := int_wrap (Z.quot (size_wrap attributeSize) 4) in
      gl_ (GL.glVertexAttribPointer (uint_wrap i) elementCount GL_FLOAT false
             (int_wrap m_stride) (size_wrap location)) ;;;
      gl_ (CheckGLError "Vertex attribute setup") ;;;
      gl_ (GL.glEnableVertexAttribArray (uint_wrap i)) ;;;
      gl_ (CheckGLError "Vertex attribute enable") ;;;
      ActivateAttributes_loop m_stride (int_add i 1)
        (int_add location attributeSize) rest
  end.

Definition ActivateAttributes : M St unit :=
  let* v := this get in
  match m_attributes v with
  | [] => throw (BufferException "No vertex attributes specified")
  | _ => ActivateAttributes_loop (m_stride v) 0 0 (m_attributes v)
  end.

Definition Release : M St unit :=
  let* v := this get in
  gl_ (GL.glDeleteVertexArrays (m_id v)) ;;;
  env (call_vb (mp_vb v) VertexBuffer.Release).
End Methods.
End VertexArrayObject.

(** ** Floating point values

    The program computes with [float] and [double]; the embedding keeps
    the operations it uses abstract.  [f_lit q] is the literal whose
    decimal notation denotes the rational [q], [f_of_int] the conversion
    of an [int] to [double], [f_narrow] the conversion of a [double] to
    [float]; [f_cos], [f_sin] and [f_radians] are [glm::cos], [glm::sin]
    and [glm::radians]. *)

Class FloatOps (F : Type) : Type := mk_FloatOps
  { f_lit : Q -> F;
    f_of_int : Z -> F;
    f_add : F -> F -> F;
    f_mul : F -> F -> F;
    f_cos : F -> F;
    f_sin : F -> F;
    f_radians : F -> F;
    f_narrow : F -> F }.

(** The data a buffer is created from: [vertices.data()] or
    [indices.data()]. *)
Inductive Data (F : Type) : Type :=
| VertexData (vertices : VertexList F)
| IndexData (indices : IndexList).
Arguments VertexData {F} _.
Arguments IndexData {F} _.

(** The shape types (ShapeFactoryManager.hpp).  A [ShapeTypes] value is
    the [int] under the enumeration: [main.cpp] obtains them by
    [static_cast] from the integers of the object file, so that values
    other than the five enumerators occur. *)
Module ShapeTypes.
Definition Circle : Z := 0.
Definition Square : Z := 1.
Definition Cube : Z := 2.
Definition Pyramid : Z := 3.
Definition Frustum : Z := 4.
End ShapeTypes.

(** The concrete factory classes; [CircleFactory] has the field
    [m_angles]. *)
Inductive Factory : Type :=
| SquareFactory
| CircleFactory (m_angles : Z)
| CubeFactory
| PyramidFactory
| FrustumFactory.

(** The program state: the buffers and the OpenGL context, and the store
    of vertex array objects. *)
Record World (F : Type) : Type := mk_World
  { buffers : Buffers (Data F);
    vertex_arrays : gmap positive VertexArrayObject.t }.
Arguments mk_World {F} _ _.
Arguments buffers {F} _.
Arguments vertex_arrays {F} _.

Section WorldAccess.
Context {F : Type}.

Definition in_buffers {A} (m : M (Buffers (Data F)) A) : M (World F) A :=
  zoom (fun w => Some (buffers w))
       (fun b w => mk_World b (vertex_arrays w)) m.

(** [p->method(...)] for a [shared_ptr<VertexArrayObject>] [p]. *)
Definition call_va {A} (p : shared_ptr)
    (method : M (VertexArrayObject.t * Buffers (Data F)) A) : M (World F) A :=
  match p with
  | None => undefined
  | Some l =>
      zoom (fun w => match vertex_arrays w !! l with
                     | Some v => Some (v, buffers w)
                     | None => None
                     end)
           (fun vb w => mk_World (snd vb) (<[l := fst vb]> (vertex_arrays w)))
           method
  end.

(** [std::make_shared<T>()]: a new object, value-initialised (the three
    classes have no constructor, so that their scalar fields are zero and
    their pointers null). *)
Definition make_shared_VertexArrayObject : M (World F) shared_ptr :=
  let* w := get in
  let l := fresh (dom (vertex_arrays w)) in
  put (mk_World (buffers w)
         (<[l := VertexArrayObject.mk 0 None None 0 []]> (vertex_arrays w))) ;;;
  ret (Some l).

Definition make_shared_VertexBuffer : M (World F) shared_ptr :=
  let* w := get in
  let b := buffers w in
  let l := fresh (dom (vertex_buffers b)) in
  put (mk_World
         (mk_Buffers (gl b) (<[l := VertexBuffer.mk 0]> (vertex_buffers b))
            (index_buffers b))
         (vertex_arrays w)) ;;;
  ret (Some l).

Definition make_shared_IndexBuffer : M (World F) shared_ptr :=
  let* w := get in
  let b := buffers w in
  let l := fresh (dom (index_buffers b)) in
  put (mk_World
         (mk_Buffers (gl b) (vertex_buffers b)
            (<[l := IndexBuffer.mk 0 0]> (index_buffers b)))
         (vertex_arrays w)) ;;;
  ret (Some l).
End WorldAccess.

(** ** ShapeFactory (ShapeFactory.hpp, ShapeFactory.cpp) *)

Definition vector_empty {A} (v : list A) : bool :=
  match v with [] => true | _ :: _ => false end.

Module ShapeFactory.
Section Helpers.
Context {F : Type}.

Definition SetTextureCoords (vertex : Vertex F) (s t : F) : Vertex F :=
  mk_Vertex (position vertex) (glm.mk_vec2 s t).

(** The loop [for (size_t i = 0; i < coords.size(); i++)], entered at
    index [i] with the coordinates from [i] on still to assign. *)
Fixpoint AssignTextureCoords_loop (offset : Z) (i : Z)
    (coords : list (F * F)) : M (VertexList F) unit :=
  match coords with
  | [] => ret tt
  | c :: rest =>
      vector_update (size_add (size_wrap offset) i)
        (fun v => SetTextureCoords v (fst c) (snd c)) ;;;
      AssignTextureCoords_loop offset (size_add i 1) rest
  end.

Definition AssignTextureCoords (offset : Z) (coords : list (F * F))
    : M (VertexList F) unit :=
  let* vertices := get in
  if decide (size_add (size_wrap offset) (vector_size coords) > vector_size vertices)
  then throw (GrafException "Texture coords size exceeds vertex list size")
  else AssignTextureCoords_loop offset 0 coords.

Fixpoint DefineFace_loop (offset : Z) (i : Z) (positions : list (glm.vec3 F))
    (vertexIndices : list Z) : M (VertexList F) unit :=
  match vertexIndices with
  | [] => ret tt
  | k :: rest =>
      let* p := array_get positions k in
      vector_update (size_add (size_wrap offset) i)
        (fun v => mk_Vertex p (texture v)) ;;;
      DefineFace_loop offset (size_add i 1) positions rest
  end.

Definition DefineFace (offset : Z) (positions : list (glm.vec3 F))
    (vertexIndices : list Z) (textureCoords : list (F * F))
    : M (VertexList F) unit :=
  let* vertices := get in
  if decide (size_add (size_wrap offset) (vector_size vertexIndices)
               > vector_size vertices)
  then throw (GrafException "Vertex indices exceed vertex list size")
  else
    DefineFace_loop offset 0 positions vertexIndices ;;;
    AssignTextureCoords offset textureCoords.
End Helpers.

(** The six indices pushed for face [i]; each is an [int] expression
    converted to the [unsigned int] element type of the list. *)
Definition face_indices (offset i : Z) : IndexList :=
  let base := int_add offset (int_mul i 4) in
  [ uint_wrap base;
    uint_wrap (int_add base 2);
    uint_wrap (int_add base 1);
    uint_wrap base;
    uint_wrap (int_add base 3);
    uint_wrap (int_add base 2) ].

(** The loop [for (int i = 0; i < faceCount; i++)], entered at [i] with
    [n] iterations left ([i] stays below [faceCount], so that [i++] does
    not overflow). *)
Fixpoint GenerateFaceIndices_loop (n : nat) (i : Z) (offset : Z)
    (indices : IndexList) : IndexList :=
  match n with
  | O => indices
  | S n' =>
      GenerateFaceIndices_loop n' (i + 1) offset
        (indices ++ face_indices offset i)
  end.

Definition GenerateFaceIndices (indices : IndexList) (faceCount : Z)
    (offset : Z) : IndexList :=
  GenerateFaceIndices_loop (Z.to_nat faceCount) 0 offset indices.

Section Data.
Context {F : Type} `{FloatOps F}.

Definition QUAD_TEXTURE_COORDS : list (F * F) :=
  [ (f_lit 0, f_lit 1); (f_lit 1, f_lit 1);
    (f_lit 1, f_lit 0); (f_lit 0, f_lit 0) ].

Definition TRIANGLE_TEXTURE_COORDS : list (F * F) :=
  [ (f_lit (1 # 2), f_lit 1); (f_lit 0, f_lit 0); (f_lit 1, f_lit 0) ].

(** A value-initialised [Vertex] and the vector [VertexList v(n)]. *)
Definition Vertex_zero : Vertex F :=
  mk_Vertex (glm.mk_vec3 (f_lit 0) (f_lit 0) (f_lit 0))
            (glm.mk_vec2 (f_lit 0) (f_lit 0)).

Definition VertexList_new (n : Z) : VertexList F :=
  replicate (Z.to_nat n) Vertex_zero.

(** [sizeof(Vertex)] is 20 and [sizeof(unsigned int)] is 4; the sizes
    are computed in [size_t] and converted to the [int] parameter. *)
Definition createVAOFromData (vertices : VertexList F) (indices : IndexList)
    : M (World F) shared_ptr :=
  let* p_va := make_shared_VertexArrayObject in
  let* p_vb := make_shared_VertexBuffer in
  let* p_ib := make_shared_IndexBuffer in
  if vector_empty vertices || vector_empty indices
  then throw (BufferException "Empty vertex or index data in createVAOFromData")
  else
    in_buffers (call_vb p_vb
      (VertexBuffer.Create (Some (VertexData vertices))
         (int_wrap (size_wrap (20 * vector_size vertices))))) ;;;
    in_buffers (call_ib p_ib
      (IndexBuffer.Create (Some (IndexData indices))
         (int_wrap (size_wrap (4 * vector_size indices))))) ;;;
    if is_null p_va || is_null p_vb || is_null p_ib
    then throw (BufferException "Null buffer in createVAOFromData")
    else
      try_catch (fun _ => true)
        (call_va p_va VertexArrayObject.Create ;;;
         call_va p_va (VertexArrayObject.SetVertexBuffer p_vb) ;;;
         call_va p_va (VertexArrayObject.SetIndexBuffer p_ib) ;;;
         call_va p_va (VertexArrayObject.AddVertexAttribute Position) ;;;
         call_va p_va (VertexArrayObject.AddVertexAttribute Texture) ;;;
         call_va p_va VertexArrayObject.ActivateAttributes ;;;
         call_va p_va VertexArrayObject.Unbind ;;;
         ret p_va)
        (fun e =>
           throw (BufferException (String.append "VAO setup failed: " (what e)))).
End Data.
End ShapeFactory.

(** ** The concrete factories *)

Section SetVertex.
Context {F : Type}.

(** [vertices[n].position = p; SetTextureCoords(vertices[n], s, t);] *)
Definition set_vertex (n : Z) (p : glm.vec3 F) (s t : F)
    : M (VertexList F) unit :=
  vector_update n (fun v => mk_Vertex p (texture v)) ;;;
  vector_update n (fun v => ShapeFactory.SetTextureCoords v s t).
End SetVertex.

(** SquareFactory.cpp *)
Module SquareFactory.
Section Methods.
Context {F : Type} `{FloatOps F}.

Definition geometry {S} : M S (VertexList F * IndexList) :=
  let indices := [0; 1; 2; 3; 4; 5] in
  let* r := local (ShapeFactory.VertexList_new 6)
    (set_vertex 0 (glm.mk_vec3 (f_lit (-1 # 2)) (f_lit (1 # 2)) (f_lit (-1)))
       (f_lit 0) (f_lit 1) ;;;
     set_vertex 1 (glm.mk_vec3 (f_lit (1 # 2)) (f_lit (1 # 2)) (f_lit (-1)))
       (f_lit 1) (f_lit 1) ;;;
     set_vertex 2 (glm.mk_vec3 (f_lit (1 # 2)) (f_lit (-1 # 2)) (f_lit (-1)))
       (f_lit 1) (f_lit 0) ;;;
     set_vertex 3 (glm.mk_vec3 (f_lit (1 # 2)) (f_lit (-1 # 2)) (f_lit (-1)))
       (f_lit 1) (f_lit 0) ;;;
     set_vertex 4 (glm.mk_vec3 (f_lit (-1 # 2)) (f_lit (-1 # 2)) (f_lit (-1)))
       (f_lit 0) (f_lit 0) ;;;
     set_vertex 5 (glm.mk_vec3 (f_lit (-1 # 2)) (f_lit (1 # 2)) (f_lit (-1)))
       (f_lit 0) (f_lit 1)) in
  ret (snd r, indices).

Definition createShape : M (World F) shared_ptr :=
  let* g := geometry in
  ShapeFactory.createVAOFromData (fst g) (snd g).
End Methods.
End SquareFactory.

(** CircleFactory.cpp *)
Module CircleFactory.
Section Methods.
Context {F : Type} `{FloatOps F}.

(** The first loop, over the locals [vertices] and [textureCoords]. *)
Fixpoint vertex_loop (n : nat) (i : Z) (m_angles : Z)
    : M (VertexList F * list (F * F)) unit :=
  match n with
  | O => ret tt
  | S n' =>
      let currentAngle := f_of_int (int_mul m_angles i) in
      on_fst (vector_update (size_wrap i) (fun v =>
        mk_Vertex
          (glm.mk_vec3 (f_narrow (f_cos (f_radians currentAngle)))
                       (f_narrow (f_sin (f_radians currentAngle)))
                       (f_lit 0))
          (texture v))) ;;;
      on_snd (vector_update (size_wrap i) (fun _ =>
        (f_narrow (f_add (f_lit (1 # 2))
                     (f_mul (f_lit (1 # 2)) (f_cos (f_radians currentAngle)))),
         f_narrow (f_add (f_lit (1 # 2))
                     (f_mul (f_lit (1 # 2)) (f_sin (f_radians currentAngle))))))) ;;;
      vertex_loop n' (int_add i 1) m_angles
  end.

(** The second loop, the triangle fan. *)
Fixpoint index_loop (n : nat) (i : Z) (indices : IndexList) : IndexList :=
  match n with
  | O => indices
  | S n' =>
      index_loop n' (int_add i 1)
        (indices ++ [uint_wrap 0; uint_wrap (int_add i 2);
                     uint_wrap (int_add i 1)])
  end.

(** A division by zero is undefined; a negative [vertexCount] is
    converted to a [size_t] beyond the largest vector, and the
    constructor of the vector throws. *)
Definition geometry {S} (m_angles : Z) : M S (VertexList F * IndexList) :=
  if decide (m_angles = 0) then undefined
  else
    let vertexCount := int_div 360 m_angles in
    let faceCount := int_sub vertexCount 2 in
    if decide (vertexCount < 0) then throw (StdException "std::length_error")
    else
      let* r := local
        (ShapeFactory.VertexList_new vertexCount,
         replicate (Z.to_nat vertexCount) (f_lit 0, f_lit 0))
        (vertex_loop (Z.to_nat vertexCount) 0 m_angles ;;;
         let* textureCoords := on_snd get in
         on_fst (ShapeFactory.AssignTextureCoords 0 textureCoords)) in
      ret (fst (snd r), index_loop (Z.to_nat faceCount) 0 []).

Definition createShape (m_angles : Z) : M (World F) shared_ptr :=
  let* g := geometry m_angles in
  ShapeFactory.createVAOFromData (fst g) (snd g).
End Methods.
End CircleFactory.

(** CubeFactory.cpp *)
Module CubeFactory.
Section Methods.
Context {F : Type} `{FloatOps F}.

Definition positions : list (glm.vec3 F) :=
  let h := f_lit (1 # 2) in
  let m := f_lit (-1 # 2) in
  [ glm.mk_vec3 m h h; glm.mk_vec3 h h h; glm.mk_vec3 h m h; glm.mk_vec3 m m h;
    glm.mk_vec3 m h m; glm.mk_vec3 h h m; glm.mk_vec3 h m m; glm.mk_vec3 m m m ].

Definition geometry {S} : M S (VertexList F * IndexList) :=
  let quad := ShapeFactory.QUAD_TEXTURE_COORDS in
  let* r := local (ShapeFactory.VertexList_new 24)
    (ShapeFactory.DefineFace 0 positions [0; 1; 2; 3] quad ;;;
     ShapeFactory.DefineFace 4 positions [1; 5; 6; 2] quad ;;;
     ShapeFactory.DefineFace 8 positions [4; 5; 1; 0] quad ;;;
     ShapeFactory.DefineFace 12 positions [4; 0; 3; 7] quad ;;;
     ShapeFactory.DefineFace 16 positions [5; 4; 7; 6] quad ;;;
     ShapeFactory.DefineFace 20 positions [3; 2; 6; 7] quad) in
  ret (snd r, ShapeFactory.GenerateFaceIndices [] 6 0).

Definition createShape : M (World F) shared_ptr :=
  let* g := geometry in
  ShapeFactory.createVAOFromData (fst g) (snd g).
End Methods.
End CubeFactory.

(** PyramidFactory.cpp *)
Module PyramidFactory.
Section Methods.
Context {F : Type} `{FloatOps F}.

Definition positions : list (glm.vec3 F) :=
  let h := f_lit (1 # 2) in
  let m := f_lit (-1 # 2) in
  [ glm.mk_vec3 (f_lit 0) h (f_lit 0);
    glm.mk_vec3 m m h; glm.mk_vec3 h m h; glm.mk_vec3 h m m; glm.mk_vec3 m m m ].

Definition geometry {S} : M S (VertexList F * IndexList) :=
  let indices :=
    [0; 1; 2; 3; 4; 5; 6; 7; 8; 9; 10; 11; 12; 13; 14; 12; 14; 15] in
  let tri := ShapeFactory.TRIANGLE_TEXTURE_COORDS in
  let* r := local (ShapeFactory.VertexList_new 16)
    (ShapeFactory.DefineFace 0 positions [0; 1; 2] tri ;;;
     ShapeFactory.DefineFace 3 positions [0; 2; 3] tri ;;;
     ShapeFactory.DefineFace 6 positions [0; 3; 4] tri ;;;
     ShapeFactory.DefineFace 9 positions [0; 4; 1] tri ;;;
     ShapeFactory.DefineFace 12 positions [1; 2; 3; 4]
       ShapeFactory.QUAD_TEXTURE_COORDS) in
  ret (snd r, indices).

Definition createShape : M (World F) shared_ptr :=
  let* g := geometry in
  ShapeFactory.createVAOFromData (fst g) (snd g).
End Methods.
End PyramidFactory.

(** FrustumFactory.cpp *)
Module FrustumFactory.
Section Methods.
Context {F : Type} `{FloatOps F}.

Definition positions : list (glm.vec3 F) :=
  let h := f_lit (1 # 2) in
  let m := f_lit (-1 # 2) in
  let o := f_lit 1 in
  let n := f_lit (-1) in
  [ glm.mk_vec3 m h h; glm.mk_vec3 h h h; glm.mk_vec3 o m o; glm.mk_vec3 n m o;
    glm.mk_vec3 m h m; glm.mk_vec3 h h m; glm.mk_vec3 o m n; glm.mk_vec3 n m n ].

Definition geometry {S} : M S (VertexList F * IndexList) :=
  let quad := ShapeFactory.QUAD_TEXTURE_COORDS in
  let* r := local (ShapeFactory.VertexList_new 24)
    (ShapeFactory.DefineFace 0 positions [0; 1; 2; 3] quad ;;;
     ShapeFactory.DefineFace 4 positions [1; 5; 6; 2] quad ;;;
     ShapeFactory.DefineFace 8 positions [5; 4; 7; 6] quad ;;;
     ShapeFactory.DefineFace 12 positions [4; 0; 3; 7] quad ;;;
     ShapeFactory.DefineFace 16 positions [3; 2; 6; 7] quad ;;;
     ShapeFactory.DefineFace 20 positions [0; 1; 5; 4] quad) in
  ret (snd r, ShapeFactory.GenerateFaceIndices [] 6 0).

Definition createShape : M (World F) shared_ptr :=
  let* g := geometry in
  ShapeFactory.createVAOFromData (fst g) (snd g).
End Methods.
End FrustumFactory.

(** ** ShapeFactoryManager (ShapeFactoryManager.hpp, ShapeFactoryManager.cpp) *)

Module ShapeFactoryManager.
(** The two maps of the class, and for the specification the shape types
    for which [createShape] has called a factory, oldest first. *)
Record t : Type := mk
  { factories : gmap Z Factory;
    shapeCache : gmap Z shared_ptr;
    invoked : list Z }.

(** The constructor. *)
Definition new : t :=
  mk (<[ShapeTypes.Frustum := FrustumFactory]>
      (<[ShapeTypes.Pyramid := PyramidFactory]>
       (<[ShapeTypes.Cube := CubeFactory]>
        (<[ShapeTypes.Circle := CircleFactory 10]>
         (<[ShapeTypes.Square := SquareFactory]> ∅)))))
     ∅ [].

Section Methods.
Context {F : Type} `{FloatOps F}.

(** The virtual call [it->second->createShape()]. *)
Definition Factory_createShape (f : Factory) : M (World F) shared_ptr :=
  match f with
  | SquareFactory => SquareFactory.createShape
  | CircleFactory m_angles => CircleFactory.createShape m_angles
  | CubeFactory => CubeFactory.createShape
  | PyramidFactory => PyramidFactory.createShape
  | FrustumFactory => FrustumFactory.createShape
  end.

Definition createShape (shapeType : Z) : M (t * World F) shared_ptr :=
  let* m := this get in
  match shapeCache m !! shapeType with
  | Some cached => ret cached
  | None =>
      match factories m !! shapeType with
      | None => throw (GrafException "Unknown shape type")
      | Some factory =>
          this (modify (fun m =>
            mk (factories m) (shapeCache m) (invoked m ++ [shapeType]))) ;;;
          let* shape := env (Factory_createShape factory) in
          this (modify (fun m =>
            mk (factories m) (<[shapeType := shape]> (shapeCache m))
               (invoked m))) ;;;
          ret shape
      end
  end.
End Methods.
End ShapeFactoryManager.

(** ** Two readings of the floating point operations

    [fexpr] keeps every operation as a symbol, so that the geometry a
    factory builds can be computed and inspected; the reading over [R]
    gives every operation its exact mathematical value (no rounding). *)

Inductive fexpr : Type :=
| Lit (q : Q)
| OfInt (n : Z)
| Add (a b : fexpr)
| Mul (a b : fexpr)
| Cos (a : fexpr)
| Sin (a : fexpr)
| Radians (a : fexpr)
| Narrow (a : fexpr).

#[export] Instance fexpr_FloatOps : FloatOps fexpr :=
  mk_FloatOps fexpr Lit OfInt Add Mul Cos Sin Radians Narrow.

Definition real_FloatOps : FloatOps R :=
  mk_FloatOps R Q2R IZR Rplus Rmult cos sin
    (fun degrees => (degrees * (PI / 180))%R) (fun d => d).

(** A context whose driver generates the names 1, 2, ... and reports no
    error, and the program state before any object is created. *)
Definition quiet_context {Blob} : GLContext Blob :=
  mk_GLContext [] (fun history _ => Z.of_nat (length history) + 1)
    (fun _ => GL_NO_ERROR).

Definition initial_world {F} : World F :=
  mk_World (mk_Buffers quiet_context ∅ ∅) ∅.

(** ** The keyboard function of the demo (main.cpp)

    The key codes and the action code are those of [glfw3.h]. *)

Module GLFW.
Definition GLFW_PRESS : Z := 1.
Definition GLFW_KEY_SPACE : Z := 32.
Definition GLFW_KEY_0 : Z := 48.
Definition GLFW_KEY_8 : Z := 56.
Definition GLFW_KEY_RIGHT : Z := 262.
Definition GLFW_KEY_LEFT : Z := 263.
Definition GLFW_KEY_DOWN : Z := 264.
Definition GLFW_KEY_UP : Z := 265.
End GLFW.

(** [float] subtraction, which the factories do not use. *)
Class FloatSub (F : Type) : Type := f_sub : F -> F -> F.

Module ObjectData.
Record t (F : Type) : Type := mk
  { position : glm.vec3 F;
    angle : F;
    texture : string;
    shape : Z }.
Arguments mk {F} _ _ _ _.
Arguments position {F} _.
Arguments angle {F} _.
Arguments texture {F} _.
Arguments shape {F} _.
End ObjectData.

Module Main.
Section Keyboard.
Context {F : Type} `{FloatOps F} `{FloatSub F}.

(** The variables the function captures by reference: [objects] and
    [activeIndex]. *)
Abbreviation Captured := (list (ObjectData.t F) * Z)%type.

(** [objects[activeIndex]], read and updated; the [int] index is
    converted to [size_t]. *)
Definition active : M Captured (ObjectData.t F) :=
  let* activeIndex := on_snd get in
  on_fst (vector_get (size_wrap activeIndex)).

Definition update_active (f : ObjectData.t F -> ObjectData.t F)
    : M Captured unit :=
  let* activeIndex := on_snd get in
  on_fst (vector_update (size_wrap activeIndex) f).

Definition move_x (f : F -> F) (o : ObjectData.t F) : ObjectData.t F :=
  let p := ObjectData.position o in
  ObjectData.mk (glm.mk_vec3 (f (glm.x p)) (glm.y p) (glm.z p))
    (ObjectData.angle o) (ObjectData.texture o) (ObjectData.shape o).

Definition move_y (f : F -> F) (o : ObjectData.t F) : ObjectData.t F :=
  let p := ObjectData.position o in
  ObjectData.mk (glm.mk_vec3 (glm.x p) (f (glm.y p)) (glm.z p))
    (ObjectData.angle o) (ObjectData.texture o) (ObjectData.shape o).

Definition set_shape (s : Z) (o : ObjectData.t F) : ObjectData.t F :=
  ObjectData.mk (ObjectData.position o) (ObjectData.angle o)
    (ObjectData.texture o) s.

(** [if (c) statement;] *)
Definition when (c : bool) (m : M Captured unit) : M Captured unit :=
  if c then m else ret tt.

Definition keyboard (key scancode action : Z) : M Captured unit :=
  when (bool_decide (action = GLFW.GLFW_PRESS))
    (when (bool_decide (key >= GLFW.GLFW_KEY_0)
           && bool_decide (key <= GLFW.GLFW_KEY_8))
       (on_snd (put (int_sub key GLFW.GLFW_KEY_0))) ;;;
     when (bool_decide (key = GLFW.GLFW_KEY_UP))
       (update_active (move_y (fun y => f_add y (f_lit (1 # 10))))) ;;;
     when (bool_decide (key = GLFW.GLFW_KEY_DOWN))
       (update_active (move_y (fun y => f_sub y (f_lit (1 # 10))))) ;;;
     when (bool_decide (key = GLFW.GLFW_KEY_LEFT))
       (update_active (move_x (fun x => f_sub x (f_lit (1 # 10))))) ;;;
     when (bool_decide (key = GLFW.GLFW_KEY_RIGHT))
       (update_active (move_x (fun x => f_add x (f_lit (1 # 10))))) ;;;
     when (bool_decide (key = GLFW.GLFW_KEY_SPACE))
       (let* o := active in
        if decide (ObjectData.shape o = ShapeTypes.Cube)
        then update_active (set_shape ShapeTypes.Square)
        else
          let* o := active in
          if decide (ObjectData.shape o = ShapeTypes.Square)
          then update_active (set_shape ShapeTypes.Circle)
          else
            let* o := active in
            if decide (ObjectData.shape o = ShapeTypes.Circle)
            then update_active (set_shape ShapeTypes.Pyramid)
            else
              let* o := active in
              if decide (ObjectData.shape o = ShapeTypes.Pyramid)
              then update_active (set_shape ShapeTypes.Frustum)
              else
                let* o := active in
                if decide (ObjectData.shape o = ShapeTypes.Frustum)
                then update_active (set_shape ShapeTypes.Cube)
                else ret tt)).
End Keyboard.
End Main.

(** * The vocabulary of the specification *)

(** ** GenerateFaceIndices *)

(** The two triangles of face [i] for the offset [b], as the [unsigned
    int] elements of the index list. *)
Definition face_triangles (b i : Z) : IndexList :=
  uint_wrap <$>
    [ b + 4 * i; b + 4 * i + 2; b + 4 * i + 1;
      b + 4 * i; b + 4 * i + 3; b + 4 * i + 2 ].

(** The two triangles of face [i] as the integers themselves, without
    the reduction to [unsigned int]. *)
Definition claimed_triangles (b i : Z) : IndexList :=
  [ b + 4 * i; b + 4 * i + 2; b + 4 * i + 1;
    b + 4 * i; b + 4 * i + 3; b + 4 * i + 2 ].

(** ** AssignTextureCoords and DefineFace *)

(** The out-of-range error of the two helpers. *)
Definition OutOfRange {A} (r : result A) : Prop :=
  r = Throw (GrafException "Texture coords size exceeds vertex list size")
  \/ r = Throw (GrafException "Vertex indices exceed vertex list size").

(** ** The geometry of the five factories *)

(** [createShape] builds the vertex list [vertices] and the index list
    [indices] and passes them to [createVAOFromData]. *)
Definition passes {F} `{FloatOps F}
    (geometry : forall S, M S (VertexList F * IndexList))
    (createShape : M (World F) shared_ptr)
    (vertices : VertexList F) (indices : IndexList) : Prop :=
  (forall S (s : S), geometry S s = (Ok (vertices, indices), s))
  /\ (forall w, createShape w
                = ShapeFactory.createVAOFromData vertices indices w).

(** The vertex the circle factory computes for the index [i] at the step
    of 10 degrees, and the triangle of the fan for the face [k]. *)
Definition circle_vertex {F} `{FloatOps F} (i : Z) : Vertex F :=
  let angle := f_radians (f_of_int (10 * i)) in
  mk_Vertex
    (glm.mk_vec3 (f_narrow (f_cos angle)) (f_narrow (f_sin angle)) (f_lit 0))
    (glm.mk_vec2
       (f_narrow (f_add (f_lit (1 # 2)) (f_mul (f_lit (1 # 2)) (f_cos angle))))
       (f_narrow (f_add (f_lit (1 # 2)) (f_mul (f_lit (1 # 2)) (f_sin angle))))).

Definition fan_triangle (k : Z) : IndexList := [0; k + 2; k + 1].

(** ** Buffers and vertex arrays *)

Section Vocabulary.
Context {Blob : Type}.

(** The buffers [h] after the OpenGL calls [calls]. *)
Definition after_calls (calls : list (GLCall Blob)) (h : Buffers Blob)
    : Buffers Blob :=
  mk_Buffers
    (mk_GLContext (issued (gl h) ++ calls) (gen_name (gl h))
       (error_code (gl h)))
    (vertex_buffers h) (index_buffers h).

(** The method leaves the index buffer pointer of the vertex array as it
    is, whatever its result. *)
Definition keeps_index_buffer {A}
    (m : M (VertexArrayObject.t * Buffers Blob) A) : Prop :=
  forall v h,
    VertexArrayObject.mp_ib (fst (snd (m (v, h)))) = VertexArrayObject.mp_ib v.

(** The context never reports an error. *)
Definition no_error (g : GLContext Blob) : Prop :=
  forall history, error_code g history = GL_NO_ERROR.

(** What [CheckGLError] returns for the code [glGetError] reports. *)
Definition check_outcome (operation : string) (code : GLerror) : result unit :=
  match code with
  | GL_NO_ERROR => Ok tt
  | GL_INVALID_ENUM =>
      Throw (GrafException (String.append operation " failed: Invalid enum"))
  | GL_INVALID_VALUE =>
      Throw (GrafException (String.append operation " failed: Invalid value"))
  | GL_INVALID_OPERATION =>
      Throw (GrafException
               (String.append operation " failed: Invalid operation"))
  | GL_OUT_OF_MEMORY =>
      Throw (GrafException (String.append operation " failed: Out of memory"))
  | GL_OTHER_ERROR _ =>
      Throw (GrafException (String.append operation " failed: Unknown error"))
  end.

(** The fixed byte size of an attribute kind, and the sum of the sizes of
    a list of kinds. *)
Definition attribute_size (kind : VertexAttributeType) : Z :=
  match kind with
  | Position | Normal => 12
  | Color => 16
  | Texture => 8
  end.

Fixpoint total_size (kinds : AttributeList) : Z :=
  match kinds with
  | [] => 0
  | kind :: rest => attribute_size kind + total_size rest
  end.

(** A sequence of [AddVertexAttribute] calls, one for each of [kinds]. *)
Fixpoint AddVertexAttributes (kinds : AttributeList)
    : M (VertexArrayObject.t * Buffers Blob) unit :=
  match kinds with
  | [] => ret tt
  | kind :: rest =>
      VertexArrayObject.AddVertexAttribute kind ;;; AddVertexAttributes rest
  end.

(** Every call of [glVertexAttribPointer] among [calls] registers an
    attribute of [kinds], the attribute number i as the attribute
    [first] + i, with the element count of its kind, at the byte offset
    [start] plus the sizes of the attributes before it, and with the
    stride [stride]. *)
Definition registers_prefix_sums (kinds : AttributeList)
    (first start stride : Z) (calls : list (GLCall Blob)) : Prop :=
  forall index size type normalized stride' pointer,
    VertexAttribPointer index size type normalized stride' pointer ∈ calls ->
    exists (i : nat) kind,
      kinds !! i = Some kind
      /\ index = first + Z.of_nat i
      /\ size = attribute_size kind ÷ 4
      /\ type = GL_FLOAT /\ normalized = false
      /\ stride' = stride
      /\ pointer = start + total_size (take i kinds).

(** Every attribute of [kinds] is registered so, and enabled, by a call
    among [calls]. *)
Definition registers_all (kinds : AttributeList) (first start stride : Z)
    (calls : list (GLCall Blob)) : Prop :=
  forall (i : nat) kind,
    kinds !! i = Some kind ->
    VertexAttribPointer (first + Z.of_nat i) (attribute_size kind ÷ 4) GL_FLOAT
      false stride (start + total_size (take i kinds)) ∈ calls
    /\ EnableVertexAttribArray (first + Z.of_nat i) ∈ calls.
End Vocabulary.

(** ** ShapeFactoryManager *)

(** Every cached shape type has a factory. *)
Definition consistent (m : ShapeFactoryManager.t) : Prop :=
  forall k, is_Some (ShapeFactoryManager.shapeCache m !! k) ->
            is_Some (ShapeFactoryManager.factories m !! k).

(** ** Outcomes, frames and the keyboard

    The vocabulary of the further properties. *)

Section ContextVocabulary.
Context {Blob : Type}.

(** The context [g] after the OpenGL calls [calls]. *)
Definition context_after (calls : list (GLCall Blob)) (g : GLContext Blob)
    : GLContext Blob :=
  mk_GLContext (issued g ++ calls) (gen_name g) (error_code g).

(** The name the next [glGen*] call of the context leaves in a variable
    that holds [id]. *)
Definition next_name (g : GLContext Blob) (id : Z) : Z :=
  uint_wrap (gen_name g (issued g) id).

(** The calls by which [Create] uploads [size] bytes of [data] into the
    buffer [name] bound to [target]. *)
Definition upload_calls (target : GLenum) (name size : Z) (data : option Blob)
    : list (GLCall Blob) :=
  [ GenBuffers name; BindBuffer target name;
    BufferData target size data GL_STATIC_DRAW ].

Definition is_delete (c : GLCall Blob) : Prop :=
  exists name, c = DeleteBuffers name.
End ContextVocabulary.

Section BufferVocabulary.
Context {Blob : Type}.

(** The object a [shared_ptr] points to, if it points to one. *)
Definition vertex_buffer_at (p : shared_ptr) (h : Buffers Blob)
    : option VertexBuffer.t :=
  match p with Some l => vertex_buffers h !! l | None => None end.

Definition index_buffer_at (p : shared_ptr) (h : Buffers Blob)
    : option IndexBuffer.t :=
  match p with Some l => index_buffers h !! l | None => None end.

(** The calls of [VertexArrayObject::Unbind]. *)
Definition unbind_calls : list (GLCall Blob) :=
  [ BindVertexArray 0; BindBuffer GL_ELEMENT_ARRAY_BUFFER 0;
    BindBuffer GL_ARRAY_BUFFER 0 ].

(** The method leaves [f] of the state as it is, whatever its result. *)
Definition preserves {S X A} (f : S -> X) (m : M S A) : Prop :=
  forall s, f (snd (m s)) = f s.
End BufferVocabulary.

(** The text by which [CheckGLError] names an error code. *)
Definition error_message (code : GLerror) : string :=
  match code with
  | GL_INVALID_ENUM => "Invalid enum"
  | GL_INVALID_VALUE => "Invalid value"
  | GL_INVALID_OPERATION => "Invalid operation"
  | GL_OUT_OF_MEMORY => "Out of memory"
  | _ => "Unknown error"
  end.

(** The buffer objects of the state of a vertex array method. *)
Definition buffer_objects {Blob}
    (s : VertexArrayObject.t * Buffers Blob)
    : gmap positive VertexBuffer.t * gmap positive IndexBuffer.t :=
  (vertex_buffers (snd s), index_buffers (snd s)).

(** The driver never leaves the name zero. *)
Definition generates_names {Blob} (g : GLContext Blob) : Prop :=
  forall history id, uint_wrap (gen_name g history id) <> 0.

(** The vertex the circle factory computes for the index [i] at the
    angle step [m_angles]. *)
Definition fan_vertex {F} `{FloatOps F} (m_angles i : Z) : Vertex F :=
  let angle := f_radians (f_of_int (m_angles * i)) in
  mk_Vertex
    (glm.mk_vec3 (f_narrow (f_cos angle)) (f_narrow (f_sin angle)) (f_lit 0))
    (glm.mk_vec2
       (f_narrow (f_add (f_lit (1 # 2)) (f_mul (f_lit (1 # 2)) (f_cos angle))))
       (f_narrow (f_add (f_lit (1 # 2)) (f_mul (f_lit (1 # 2)) (f_sin angle))))).

(** The number of indices of the shape of each type the constructor of
    the manager registers. *)
Definition index_count (shapeType : Z) : Z :=
  if decide (shapeType = ShapeTypes.Circle) then 102
  else if decide (shapeType = ShapeTypes.Square) then 6
  else if decide (shapeType = ShapeTypes.Cube) then 36
  else if decide (shapeType = ShapeTypes.Pyramid) then 18
  else if decide (shapeType = ShapeTypes.Frustum) then 36
  else 0.

(** The shape type that follows [s] when the space key is pressed. *)
Definition next_shape (s : Z) : Z :=
  if decide (s = ShapeTypes.Cube) then ShapeTypes.Square
  else if decide (s = ShapeTypes.Square) then ShapeTypes.Circle
  else if decide (s = ShapeTypes.Circle) then ShapeTypes.Pyramid
  else if decide (s = ShapeTypes.Pyramid) then ShapeTypes.Frustum
  else if decide (s = ShapeTypes.Frustum) then ShapeTypes.Cube
  else s.

(** The key event [key] pressed [n] times. *)
Fixpoint presses {F} `{FloatOps F} `{FloatSub F} (n : nat) (key : Z)
    : M (list (ObjectData.t F) * Z) unit :=
  match n with
  | O => ret tt
  | S n' => Main.keyboard key 0 GLFW.GLFW_PRESS ;;; presses n' key
  end.

(** What a pressed key does to the active object. *)
Definition key_effect {F} `{FloatOps F} `{FloatSub F} (key : Z)
    (o : ObjectData.t F) : ObjectData.t F :=
  if decide (key = GLFW.GLFW_KEY_UP)
  then Main.move_y (fun y => f_add y (f_lit (1 # 10))) o
  else if decide (key = GLFW.GLFW_KEY_DOWN)
  then Main.move_y (fun y => f_sub y (f_lit (1 # 10))) o
  else if decide (key = GLFW.GLFW_KEY_LEFT)
  then Main.move_x (fun x => f_sub x (f_lit (1 # 10))) o
  else if decide (key = GLFW.GLFW_KEY_RIGHT)
  then Main.move_x (fun x => f_add x (f_lit (1 # 10))) o
  else if decide (key = GLFW.GLFW_KEY_SPACE)
  then Main.set_shape (next_shape (ObjectData.shape o)) o
  else o.

(** The active index after the key event. *)
Definition selected (key action activeIndex : Z) : Z :=
  if decide (action = GLFW.GLFW_PRESS
             /\ GLFW.GLFW_KEY_0 <= key <= GLFW.GLFW_KEY_8)
  then key - GLFW.GLFW_KEY_0
  else activeIndex.

(** The keys that reach [objects[activeIndex]]. *)
Definition reaches_active (key : Z) : Prop :=
  key = GLFW.GLFW_KEY_UP \/ key = GLFW.GLFW_KEY_DOWN
  \/ key = GLFW.GLFW_KEY_LEFT \/ key = GLFW.GLFW_KEY_RIGHT
  \/ key = GLFW.GLFW_KEY_SPACE.

(** ** States for the examples *)

(** The manager and the program state after the square has been
    requested from a new manager. *)
Definition after_square : ShapeFactoryManager.t * World fexpr :=
  Eval vm_compute in
    snd (ShapeFactoryManager.createShape ShapeTypes.Square
           (ShapeFactoryManager.new, initial_world)).

(** An index buffer at the location 1 and a vertex array object, the
    buffers after [Create] has uploaded the 12 bytes of three indices, and
    the state after [SetIndexBuffer]. *)
Definition example_buffers : Buffers (list Z) :=
  mk_Buffers quiet_context ∅ {[1%positive := IndexBuffer.mk 0 0]}.

Definition example_vertex_array : VertexArrayObject.t :=
  VertexArrayObject.mk 1 None None 0 [].

Definition example_created : Buffers (list Z) :=
  Eval vm_compute in
    snd (call_ib (Some 1%positive)
           (IndexBuffer.Create (Some [0; 1; 2]) 12) example_buffers).

Definition example_index_buffer_set
    : VertexArrayObject.t * Buffers (list Z) :=
  Eval vm_compute in
    snd (VertexArrayObject.SetIndexBuffer (Some 1%positive)
           (example_vertex_array, example_created)).

(** A context whose driver generates the name 1 at every request and
    reports no error, and the program state before any object is created
    in it. *)
Definition steady_context {Blob} : GLContext Blob :=
  mk_GLContext [] (fun _ _ => 1) (fun _ => GL_NO_ERROR).

Definition steady_world {F} : World F :=
  mk_World (mk_Buffers steady_context ∅ ∅) ∅.

(** A vertex buffer and an index buffer at the location 1, and a vertex
    array with the layout of [createVAOFromData] that points to them. *)
Definition example_bound_buffers : Buffers (list Z) :=
  mk_Buffers quiet_context {[1%positive := VertexBuffer.mk 7]}
    {[1%positive := IndexBuffer.mk 8 3]}.

Definition example_bound_array : VertexArrayObject.t :=
  VertexArrayObject.mk 5 (Some 1%positive) (Some 1%positive) 20
    [Position; Texture].

(** The program state after [createVAOFromData] has been given three
    vertices and the indices of one triangle. *)
Definition example_triangle : VertexList fexpr := ShapeFactory.VertexList_new 3.

Definition after_triangle : World fexpr :=
  Eval vm_compute in
    snd (ShapeFactory.createVAOFromData example_triangle [0; 1; 2]
           initial_world).

(** The nine objects of the demo, all cubes, with the real numbers for
    [float]. *)
Definition real_FloatSub : FloatSub R := Rminus.

Definition example_object : ObjectData.t R :=
  ObjectData.mk (glm.mk_vec3 0%R 0%R (-3)%R) 0%R "../images/container.jpg"
    ShapeTypes.Cube.

Definition example_objects : list (ObjectData.t R) :=
  replicate 9 example_object.

(** ** Tactics *)

(** Every entry of an explicit list lies in an explicit range. *)
Ltac in_range :=
  cbn; repeat (apply List.Forall_cons; [lia|]); apply List.Forall_nil.

(** The geometry is computed; [createShape] is its definition. *)
Ltac compute_geometry intro :=
  apply intro;
  [ intros ? ?; vm_compute; reflexivity
  | intros ?; reflexivity ].

(** A bound between numerals. *)
Ltac arith_hyp :=
  vm_compute; repeat split; first [reflexivity | intros ?; discriminate].

(** * Properties *)

(** ** Machine arithmetic *)

Lemma uint_wrap_int_wrap (z : Z) : uint_wrap (int_wrap z) = uint_wrap z.
Proof.
  unfold uint_wrap, int_wrap.
  rewrite Zminus_mod, Zmod_mod, <- Zminus_mod.
  f_equal. lia.
Qed.

Lemma uint_wrap_add_l (a b : Z) : uint_wrap (int_wrap a + b) = uint_wrap (a + b).
Proof.
  unfold uint_wrap.
  rewrite (Zplus_mod (int_wrap a)), (Zplus_mod a).
  fold (uint_wrap (int_wrap a)). rewrite uint_wrap_int_wrap. reflexivity.
Qed.

Lemma uint_wrap_add_r (a b : Z) : uint_wrap (a + int_wrap b) = uint_wrap (a + b).
Proof. rewrite (Z.add_comm a), uint_wrap_add_l. f_equal. lia. Qed.

Lemma uint_wrap_add_mid (a b c : Z) :
  uint_wrap (a + int_wrap b + c) = uint_wrap (a + b + c).
Proof.
  replace (a + int_wrap b + c) with (int_wrap b + (a + c)) by lia.
  rewrite uint_wrap_add_l. f_equal. lia.
Qed.

Lemma int_wrap_small (z : Z) : INT_MIN <= z <= INT_MAX -> int_wrap z = z.
Proof.
  unfold int_wrap, INT_MIN, INT_MAX. intros Hz.
  rewrite Z.mod_small; lia.
Qed.

Lemma uint_wrap_small (z : Z) : 0 <= z < 2 ^ 32 -> uint_wrap z = z.
Proof. apply Z.mod_small. Qed.

Lemma size_wrap_small (z : Z) : 0 <= z < 2 ^ 64 -> size_wrap z = z.
Proof. apply Z.mod_small. Qed.

(** ** GenerateFaceIndices *)

Lemma face_indices_triangles (b i : Z) :
  ShapeFactory.face_indices b i = face_triangles b i.
Proof.
  unfold ShapeFactory.face_indices, face_triangles, int_add, int_mul.
  cbn [fmap list_fmap].
  repeat rewrite uint_wrap_int_wrap.
  repeat rewrite uint_wrap_add_l.
  repeat rewrite uint_wrap_add_mid.
  repeat rewrite uint_wrap_add_r.
  repeat (f_equal; try lia).
Qed.

Lemma GenerateFaceIndices_loop_app (n : nat) (i b : Z) (indices : IndexList) :
  ShapeFactory.GenerateFaceIndices_loop n i b indices
  = indices ++ (seqZ i (Z.of_nat n) ≫= face_triangles b).
Proof.
  revert i indices. induction n as [|n IH]; intros i indices.
  - cbn. by rewrite app_nil_r.
  - cbn [ShapeFactory.GenerateFaceIndices_loop].
    rewrite IH, face_indices_triangles, <- app_assoc. f_equal.
    rewrite Nat2Z.inj_succ. rewrite (seqZ_cons i) by lia.
    cbn [mbind list_bind]. do 3 f_equal; lia.
Qed.

Lemma length_bind_face_triangles (b : Z) (l : list Z) :
  length (l ≫= face_triangles b) = (6 * length l)%nat.
Proof.
  induction l as [|i l IH]; [done|].
  cbn [mbind list_bind]. rewrite length_app, IH. cbn. lia.
Qed.

Lemma length_face_triangles (b i : Z) : length (face_triangles b i) = 6%nat.
Proof. reflexivity. Qed.

Lemma face_block (b : Z) (i : nat) (j N : Z) :
  Z.of_nat i < N ->
  take 6 (drop (6 * i) (seqZ j N ≫= face_triangles b))
  = face_triangles b (j + Z.of_nat i).
Proof.
  revert j N. induction i as [|i IH]; intros j N Hi.
  - rewrite (seqZ_cons j) by lia. cbn [mbind list_bind].
    rewrite Nat.mul_0_r, drop_0.
    rewrite take_app_length' by reflexivity.
    f_equal. lia.
  - rewrite (seqZ_cons j) by lia. cbn [mbind list_bind].
    replace (6 * S i)%nat with (length (face_triangles b j) + 6 * i)%nat
      by (rewrite length_face_triangles; lia).
    rewrite drop_app_add' by done.
    rewrite IH by lia. f_equal. lia.
Qed.

(** C1, as amended.  For every [faceCount] N >= 0 and every starting
    offset b, [GenerateFaceIndices] leaves the entries already in the
    index list as they are and appends exactly 6*N indices after them;
    for each face i with 0 <= i < N the six indices appended for it are,
    in this order, b+4i, b+4i+2, b+4i+1 and b+4i, b+4i+3, b+4i+2, each
    reduced modulo 2^32 (the index list holds [unsigned int]s). *)
Theorem GenerateFaceIndices_appends (indices : IndexList) (N b : Z) :
  0 <= N ->
  let result := ShapeFactory.GenerateFaceIndices indices N b in
  result = indices ++ (seqZ 0 N ≫= face_triangles b)
  /\ Z.of_nat (length result) = Z.of_nat (length indices) + 6 * N
  /\ take (length indices) result = indices
  /\ forall i : nat, Z.of_nat i < N ->
       take 6 (drop (length indices + 6 * i) result)
       = uint_wrap <$>
           [ b + 4 * Z.of_nat i; b + 4 * Z.of_nat i + 2; b + 4 * Z.of_nat i + 1;
             b + 4 * Z.of_nat i; b + 4 * Z.of_nat i + 3; b + 4 * Z.of_nat i + 2 ].
Proof.
  intros HN result.
  assert (Hres : result = indices ++ (seqZ 0 N ≫= face_triangles b)).
  { unfold result, ShapeFactory.GenerateFaceIndices.
    rewrite GenerateFaceIndices_loop_app, Z2Nat.id by lia. reflexivity. }
  split; [exact Hres|]. rewrite Hres. repeat split.
  - rewrite length_app, length_bind_face_triangles, length_seqZ. lia.
  - by rewrite take_app_length.
  - intros i Hi. rewrite drop_app_add' by done.
    rewrite face_block by lia. reflexivity.
Qed.

(** The amended C1 at [faceCount] 2, offset 4 and a list with one entry. *)
Lemma GenerateFaceIndices_appends_witness :
  ShapeFactory.GenerateFaceIndices [9] 2 4
  = [9] ++ (seqZ 0 2 ≫= face_triangles 4).
Proof.
  apply (GenerateFaceIndices_appends [9] 2 4). lia.
Defined.

(** C1 as stated fails for a negative offset: the first index appended
    for offset -1 is 4294967295, not -1. *)
Lemma GenerateFaceIndices_negative_offset :
  ShapeFactory.GenerateFaceIndices [] 1 (-1)
  = [4294967295; 1; 0; 4294967295; 2; 1]
  /\ ShapeFactory.GenerateFaceIndices [] 1 (-1)
     <> [] ++ claimed_triangles (-1) 0.
Proof. split; [reflexivity | discriminate]. Qed.

(** ** GPUBuffer: Create with invalid arguments, Release *)

(** C7.  For every data pointer and every size, [Create] of a vertex
    buffer and of an index buffer throws the invalid-argument exception
    when the pointer is null or the size is not positive; no call reaches
    the OpenGL context (no buffer object is allocated) and the fields of
    the buffer are unchanged. *)
Theorem Create_invalid_argument {Blob : Type} (data : option Blob) (size : Z)
    (g : GLContext Blob) (vb : VertexBuffer.t) (ib : IndexBuffer.t) :
  data = None \/ size <= 0 ->
  VertexBuffer.Create data size (vb, g)
  = (Throw (BufferException "Invalid vertex buffer data or size"), (vb, g))
  /\ IndexBuffer.Create data size (ib, g)
     = (Throw (BufferException "Invalid buffer data or size"), (ib, g)).
Proof.
  intros Hbad. unfold VertexBuffer.Create, IndexBuffer.Create.
  assert (Hguard : is_null data || (size <=? 0) = true).
  { destruct Hbad as [-> | Hsize]; [reflexivity|].
    apply orb_true_iff. right. by apply Z.leb_le. }
  rewrite Hguard. split; reflexivity.
Qed.

(** C7 at the two calls of the specification: a null pointer with size
    10, and a valid pointer with size 0. *)
Lemma Create_invalid_argument_witness :
  (VertexBuffer.Create (@None (list Z)) 10 (VertexBuffer.mk 0, quiet_context)
   = (Throw (BufferException "Invalid vertex buffer data or size"),
      (VertexBuffer.mk 0, quiet_context)))
  /\ (IndexBuffer.Create (Some [0; 1; 2]) 0 (IndexBuffer.mk 0 0, quiet_context)
      = (Throw (BufferException "Invalid buffer data or size"),
         (IndexBuffer.mk 0 0, quiet_context))).
Proof.
  split.
  - apply (Create_invalid_argument (@None (list Z)) 10 quiet_context
             (VertexBuffer.mk 0) (IndexBuffer.mk 0 0)).
    left. reflexivity.
  - apply (Create_invalid_argument (Some [0; 1; 2]) 0 quiet_context
             (VertexBuffer.mk 0) (IndexBuffer.mk 0 0)).
    right. lia.
Defined.

(** C8.  [Release] of a vertex buffer and of an index buffer deletes the
    OpenGL buffer object exactly when the handle is not zero and leaves a
    zero handle; a second [Release] changes nothing, and two [Release]s
    in sequence have the effect of one. *)
Theorem Release_idempotent {Blob : Type} (g : GLContext Blob) :
  (forall b : VertexBuffer.t,
     let st := snd (VertexBuffer.Release (b, g)) in
     VertexBuffer.Release (b, g) = (Ok tt, st)
     /\ VertexBuffer.m_id (fst st) = 0
     /\ issued (snd st)
        = (if decide (VertexBuffer.m_id b <> 0)
           then issued g ++ [DeleteBuffers (VertexBuffer.m_id b)]
           else issued g)
     /\ (VertexBuffer.m_id b = 0 -> st = (b, g))
     /\ VertexBuffer.Release st = (Ok tt, st)
     /\ (VertexBuffer.Release ;;; VertexBuffer.Release) (b, g)
        = VertexBuffer.Release (b, g))
  /\ (forall b : IndexBuffer.t,
        let st := snd (IndexBuffer.Release (b, g)) in
        IndexBuffer.Release (b, g) = (Ok tt, st)
        /\ IndexBuffer.m_id (fst st) = 0
        /\ IndexBuffer.m_IndexCount (fst st) = IndexBuffer.m_IndexCount b
        /\ issued (snd st)
           = (if decide (IndexBuffer.m_id b <> 0)
              then issued g ++ [DeleteBuffers (IndexBuffer.m_id b)]
              else issued g)
        /\ (IndexBuffer.m_id b = 0 -> st = (b, g))
        /\ IndexBuffer.Release st = (Ok tt, st)
        /\ (IndexBuffer.Release ;;; IndexBuffer.Release) (b, g)
           = IndexBuffer.Release (b, g)).
Proof.
  split.
  - intros [id]. unfold VertexBuffer.Release, bind, this, env, zoom, get.
    cbn. destruct (decide (id <> 0)) as [Hid | Hid]; cbn.
    + repeat split; congruence.
    + rewrite decide_False by done. cbn.
      repeat split; try reflexivity. apply dec_stable in Hid. congruence.
  - intros [id count]. unfold IndexBuffer.Release, bind, this, env, zoom, get.
    cbn. destruct (decide (id <> 0)) as [Hid | Hid]; cbn.
    + repeat split; congruence.
    + rewrite decide_False by done. cbn.
      repeat split; try reflexivity. apply dec_stable in Hid. congruence.
Qed.

(** ** AssignTextureCoords and DefineFace *)

Lemma vector_update_in_bounds {A} (n : Z) (f : A -> A) (v : list A) :
  0 <= n < Z.of_nat (length v) ->
  exists a, v !! Z.to_nat n = Some a
            /\ vector_update n f v = (Ok tt, <[Z.to_nat n := f a]> v).
Proof.
  intros Hn.
  destruct (lookup_lt_is_Some_2 v (Z.to_nat n)) as [a Ha]; [lia|].
  exists a. split; [done|].
  unfold vector_update, bind, vector_get, modify.
  rewrite decide_True by done. by rewrite Ha.
Qed.

Lemma vector_update_out_of_bounds {A} (n : Z) (f : A -> A) (v : list A) :
  ~ (0 <= n < Z.of_nat (length v)) ->
  vector_update n f v = (Undefined, v).
Proof.
  intros Hn. unfold vector_update, bind, vector_get.
  by rewrite decide_False.
Qed.

Section HelperLoops.
Context {F : Type}.
Implicit Types (vs : VertexList F) (coords : list (F * F)).

Lemma AssignTextureCoords_loop_ok (offset : Z) coords : forall (i : Z) vs,
  0 <= offset -> 0 <= i ->
  offset + i + Z.of_nat (length coords) <= Z.of_nat (length vs) ->
  Z.of_nat (length vs) <= PTRDIFF_MAX ->
  exists vs',
    ShapeFactory.AssignTextureCoords_loop offset i coords vs = (Ok tt, vs')
    /\ length vs' = length vs
    /\ forall j : nat,
         ~ (offset + i <= Z.of_nat j < offset + i + Z.of_nat (length coords)) ->
         vs' !! j = vs !! j.
Proof.
  unfold PTRDIFF_MAX.
  induction coords as [|c coords IH]; intros i vs Hoff Hi Hfit Hmax.
  - exists vs. by repeat split.
  - cbn [length] in Hfit. cbn [ShapeFactory.AssignTextureCoords_loop].
    assert (Hidx : size_add (size_wrap offset) i = offset + i).
    { unfold size_add. rewrite (size_wrap_small offset), size_wrap_small; lia. }
    assert (Hnext : size_add i 1 = i + 1).
    { unfold size_add. rewrite size_wrap_small; lia. }
    rewrite Hidx, Hnext.
    destruct (vector_update_in_bounds (offset + i)
                (fun v => ShapeFactory.SetTextureCoords v (fst c) (snd c)) vs)
      as (a & Ha & Hupd); [lia|].
    unfold bind at 1. rewrite Hupd.
    destruct (IH (i + 1) (<[Z.to_nat (offset + i) := 
                 ShapeFactory.SetTextureCoords a (fst c) (snd c)]> vs))
      as (vs' & Hrun & Hlen & Hframe); try lia.
    { rewrite length_insert. lia. }
    { rewrite length_insert. lia. }
    exists vs'. split; [exact Hrun|]. split.
    { by rewrite Hlen, length_insert. }
    intros j Hj. cbn [length] in Hj.
    rewrite Hframe by lia.
    apply list_lookup_insert_ne. lia.
Qed.

Lemma DefineFace_loop_ok (offset : Z) (positions : list (glm.vec3 F))
    (selectors : list Z) : forall (i : Z) vs,
  0 <= offset -> 0 <= i ->
  offset + i + Z.of_nat (length selectors) <= Z.of_nat (length vs) ->
  Z.of_nat (length vs) <= PTRDIFF_MAX ->
  Forall (fun k => 0 <= k < Z.of_nat (length positions)) selectors ->
  exists vs',
    ShapeFactory.DefineFace_loop offset i positions selectors vs = (Ok tt, vs')
    /\ length vs' = length vs
    /\ forall j : nat,
         ~ (offset + i <= Z.of_nat j
            < offset + i + Z.of_nat (length selectors)) ->
         vs' !! j = vs !! j.
Proof.
  unfold PTRDIFF_MAX.
  induction selectors as [|k selectors IH]; intros i vs Hoff Hi Hfit Hmax Hsel.
  - exists vs. by repeat split.
  - cbn [length] in Hfit. cbn [ShapeFactory.DefineFace_loop].
    apply Forall_cons in Hsel as [Hk Hsel].
    assert (Hidx : size_add (size_wrap offset) i = offset + i).
    { unfold size_add. rewrite (size_wrap_small offset), size_wrap_small; lia. }
    assert (Hnext : size_add i 1 = i + 1).
    { unfold size_add. rewrite size_wrap_small; lia. }
    rewrite Hidx, Hnext.
    destruct (lookup_lt_is_Some_2 positions (Z.to_nat k)) as [p Hp]; [lia|].
    unfold bind at 1, array_get.
    rewrite decide_True by done. rewrite Hp. cbn [ret].
    destruct (vector_update_in_bounds (offset + i)
                (fun v => mk_Vertex p (texture v)) vs)
      as (a & Ha & Hupd); [lia|].
    unfold bind at 1. rewrite Hupd.
    destruct (IH (i + 1) (<[Z.to_nat (offset + i) := 
                 mk_Vertex p (texture a)]> vs))
      as (vs' & Hrun & Hlen & Hframe); try lia; try done.
    { rewrite length_insert. lia. }
    { rewrite length_insert. lia. }
    exists vs'. split; [exact Hrun|]. split.
    { by rewrite Hlen, length_insert. }
    intros j Hj. cbn [length] in Hj.
    rewrite Hframe by lia.
    apply list_lookup_insert_ne. lia.
Qed.
End HelperLoops.

Section HelperChecks.
Context {F : Type}.
Implicit Types (vs : VertexList F) (coords : list (F * F)).

Lemma bounds_check_exact (offset : Z) {A B} (v : list A) (w : list B) :
  0 <= offset <= INT_MAX ->
  Z.of_nat (length v) <= PTRDIFF_MAX ->
  Z.of_nat (length w) <= PTRDIFF_MAX ->
  size_add (size_wrap offset) (vector_size v) = offset + Z.of_nat (length v)
  /\ vector_size w = Z.of_nat (length w).
Proof.
  unfold INT_MAX, PTRDIFF_MAX, size_add, vector_size. intros Ho Hv Hw.
  rewrite (size_wrap_small offset), (size_wrap_small (Z.of_nat (length v))),
    (size_wrap_small (Z.of_nat (length w))), size_wrap_small; lia.
Qed.

Lemma AssignTextureCoords_cases (offset : Z) coords vs :
  0 <= offset <= INT_MAX ->
  Z.of_nat (length coords) <= PTRDIFF_MAX ->
  Z.of_nat (length vs) <= PTRDIFF_MAX ->
  (offset + Z.of_nat (length coords) > Z.of_nat (length vs)
   /\ ShapeFactory.AssignTextureCoords offset coords vs
      = (Throw (GrafException "Texture coords size exceeds vertex list size"),
         vs))
  \/ (offset + Z.of_nat (length coords) <= Z.of_nat (length vs)
      /\ exists vs',
           ShapeFactory.AssignTextureCoords offset coords vs = (Ok tt, vs')
           /\ length vs' = length vs
           /\ forall j : nat,
                ~ (offset <= Z.of_nat j < offset + Z.of_nat (length coords)) ->
                vs' !! j = vs !! j).
Proof.
  intros Ho Hc Hv.
  destruct (bounds_check_exact offset coords vs Ho Hc Hv) as [Hsum Hsize].
  destruct (decide (offset + Z.of_nat (length coords) > Z.of_nat (length vs)))
    as [Hgt | Hle].
  - left. split; [done|].
    unfold ShapeFactory.AssignTextureCoords, bind, get. rewrite Hsum, Hsize.
    by rewrite decide_True.
  - right. split; [lia|].
    destruct (AssignTextureCoords_loop_ok offset coords 0 vs)
      as (vs' & Hrun & Hlen & Hframe); try lia.
    exists vs'. repeat split; try done.
    + unfold ShapeFactory.AssignTextureCoords, bind, get. rewrite Hsum, Hsize.
      by rewrite decide_False.
    + intros j Hj. apply Hframe. lia.
Qed.

Lemma DefineFace_cases (offset : Z) (positions : list (glm.vec3 F))
    (selectors : list Z) coords vs :
  0 <= offset <= INT_MAX ->
  Z.of_nat (length selectors) <= PTRDIFF_MAX ->
  Z.of_nat (length coords) <= PTRDIFF_MAX ->
  Z.of_nat (length vs) <= PTRDIFF_MAX ->
  Forall (fun k => 0 <= k < Z.of_nat (length positions)) selectors ->
  (offset + Z.of_nat (length selectors) > Z.of_nat (length vs)
   /\ ShapeFactory.DefineFace offset positions selectors coords vs
      = (Throw (GrafException "Vertex indices exceed vertex list size"), vs))
  \/ (offset + Z.of_nat (length selectors) <= Z.of_nat (length vs)
      /\ exists vs1,
           ShapeFactory.DefineFace_loop offset 0 positions selectors vs
           = (Ok tt, vs1)
           /\ length vs1 = length vs
           /\ (forall j : nat,
                 ~ (offset <= Z.of_nat j
                    < offset + Z.of_nat (length selectors)) ->
                 vs1 !! j = vs !! j)
           /\ ShapeFactory.DefineFace offset positions selectors coords vs
              = ShapeFactory.AssignTextureCoords offset coords vs1).
Proof.
  intros Ho Hs Hc Hv Hsel.
  destruct (bounds_check_exact offset selectors vs Ho Hs Hv) as [Hsum Hsize].
  destruct (decide (offset + Z.of_nat (length selectors)
                    > Z.of_nat (length vs))) as [Hgt | Hle].
  - left. split; [done|].
    unfold ShapeFactory.DefineFace, bind, get. rewrite Hsum, Hsize.
    by rewrite decide_True.
  - right. split; [lia|].
    destruct (DefineFace_loop_ok offset positions selectors 0 vs)
      as (vs1 & Hrun & Hlen & Hframe); try lia; try done.
    exists vs1. repeat split; try done.
    + intros j Hj. apply Hframe. lia.
    + unfold ShapeFactory.DefineFace, bind, get. rewrite Hsum, Hsize.
      rewrite decide_False by done. by rewrite Hrun.
Qed.
End HelperChecks.

(** C4, as amended.  For an offset that is not negative:
    [AssignTextureCoords] throws the out-of-range exception exactly when
    offset + number of coords > length of the vertex list, and
    [DefineFace] throws it exactly when offset + number of selectors or
    offset + number of texture coords exceeds the length of the vertex
    list (the selectors being valid indices of the position table);
    otherwise they return.  In every call, throwing or returning, every
    vertex outside [offset, offset + count) is left as it was, where
    count is the number of coords for [AssignTextureCoords] and the larger
    of the number of selectors and the number of texture coords for
    [DefineFace]. *)
Theorem helpers_out_of_range {F : Type} (vertices : VertexList F) (offset : Z)
    (coords : list (F * F)) (positions : list (glm.vec3 F))
    (selectors : list Z) (texCoords : list (F * F)) :
  0 <= offset <= INT_MAX ->
  Z.of_nat (length vertices) <= PTRDIFF_MAX ->
  Z.of_nat (length coords) <= PTRDIFF_MAX ->
  Z.of_nat (length selectors) <= PTRDIFF_MAX ->
  Z.of_nat (length texCoords) <= PTRDIFF_MAX ->
  Forall (fun k => 0 <= k < Z.of_nat (length positions)) selectors ->
  let a := ShapeFactory.AssignTextureCoords offset coords vertices in
  let d := ShapeFactory.DefineFace offset positions selectors texCoords
             vertices in
  (OutOfRange (fst a)
   <-> offset + Z.of_nat (length coords) > Z.of_nat (length vertices))
  /\ (fst a = Ok tt
      <-> offset + Z.of_nat (length coords) <= Z.of_nat (length vertices))
  /\ (forall j : nat,
        ~ (offset <= Z.of_nat j < offset + Z.of_nat (length coords)) ->
        snd a !! j = vertices !! j)
  /\ (OutOfRange (fst d)
      <-> offset + Z.of_nat (length selectors) > Z.of_nat (length vertices)
          \/ offset + Z.of_nat (length texCoords) > Z.of_nat (length vertices))
  /\ (fst d = Ok tt
      <-> offset + Z.of_nat (length selectors) <= Z.of_nat (length vertices)
          /\ offset + Z.of_nat (length texCoords)
             <= Z.of_nat (length vertices))
  /\ (forall j : nat,
        ~ (offset <= Z.of_nat j
           < offset + Z.of_nat (length selectors) `max`
                      Z.of_nat (length texCoords)) ->
        snd d !! j = vertices !! j).
Proof.
  intros Ho Hv Hc Hs Ht Hsel a d. unfold OutOfRange.
  assert (Ha := AssignTextureCoords_cases offset coords vertices Ho Hc Hv).
  assert (Hd := DefineFace_cases offset positions selectors texCoords vertices
                  Ho Hs Ht Hv Hsel).
  subst a d.
  split; [|split; [|split; [|split; [|split]]]].
  - destruct Ha as [[Hgt ->] | [Hle (vs' & -> & _)]]; cbn [fst snd].
    + split; [done | by left].
    + split; [intros [?|?]; discriminate | lia].
  - destruct Ha as [[Hgt ->] | [Hle (vs' & -> & _)]]; cbn [fst snd].
    + split; [discriminate | lia].
    + split; [done | reflexivity].
  - intros j Hj.
    destruct Ha as [[Hgt ->] | [Hle (vs' & -> & _ & Hframe)]]; cbn [fst snd]; [done|].
    by apply Hframe.
  - destruct Hd as [[Hgt ->] | [Hle (vs1 & _ & Hlen & _ & ->)]]; cbn [fst snd].
    + split; [by left | by right].
    + destruct (AssignTextureCoords_cases offset texCoords vs1)
        as [[Hgt ->] | [Hle' (vs' & -> & _)]]; try done; try lia; cbn [fst snd].
      * split; [intros _; right; lia | by left].
      * split; [intros [?|?]; discriminate | lia].
  - destruct Hd as [[Hgt ->] | [Hle (vs1 & _ & Hlen & _ & ->)]]; cbn [fst snd].
    + split; [discriminate | lia].
    + destruct (AssignTextureCoords_cases offset texCoords vs1)
        as [[Hgt ->] | [Hle' (vs' & -> & _)]]; try done; try lia; cbn [fst snd].
      * split; [discriminate | lia].
      * split; [lia | reflexivity].
  - intros j Hj.
    destruct Hd as [[Hgt ->] | [Hle (vs1 & _ & Hlen & Hframe1 & ->)]]; cbn [fst snd];
      [done|].
    destruct (AssignTextureCoords_cases offset texCoords vs1)
      as [[Hgt ->] | [Hle' (vs' & -> & _ & Hframe2)]]; try done; try lia; cbn [fst snd].
    + apply Hframe1. lia.
    + rewrite Hframe2 by lia. apply Hframe1. lia.
Qed.

(** The amended C4 at the second face of the cube. *)
Lemma helpers_out_of_range_witness :
  fst (ShapeFactory.DefineFace 4 CubeFactory.positions [1; 5; 6; 2]
         ShapeFactory.QUAD_TEXTURE_COORDS
         (@ShapeFactory.VertexList_new fexpr _ 24)) = Ok tt
  <-> 4 + 4 <= 24 /\ 4 + 4 <= 24.
Proof.
  refine (proj1 (proj2 (proj2 (proj2 (proj2
    (helpers_out_of_range (@ShapeFactory.VertexList_new fexpr _ 24) 4
       ShapeFactory.QUAD_TEXTURE_COORDS CubeFactory.positions [1; 5; 6; 2]
       ShapeFactory.QUAD_TEXTURE_COORDS _ _ _ _ _ _)))))).
  - unfold INT_MAX. lia.
  - apply Z.leb_le. vm_compute. reflexivity.
  - apply Z.leb_le. vm_compute. reflexivity.
  - apply Z.leb_le. vm_compute. reflexivity.
  - apply Z.leb_le. vm_compute. reflexivity.
  - in_range.
Defined.

(** C4 as stated fails for [DefineFace].  With three selectors, the four
    texture coordinates of a quad and three vertices, offset + number of
    selectors does not exceed the length, and the call throws the
    out-of-range exception.  With two selectors and four vertices, the
    vertex at position 2, outside [0, 2), is changed. *)
Lemma DefineFace_texture_coords_counterexample :
  let three := @ShapeFactory.VertexList_new fexpr _ 3 in
  let four := @ShapeFactory.VertexList_new fexpr _ 4 in
  (OutOfRange
     (fst (ShapeFactory.DefineFace 0 PyramidFactory.positions [0; 1; 2]
             ShapeFactory.QUAD_TEXTURE_COORDS three))
   /\ ~ (0 + Z.of_nat (length [0; 1; 2]) > Z.of_nat (length three)))
  /\ (fst (ShapeFactory.DefineFace 0 PyramidFactory.positions [0; 1]
             ShapeFactory.QUAD_TEXTURE_COORDS four) = Ok tt
      /\ ~ (0 <= 2 < 0 + Z.of_nat (length [0; 1]))
      /\ snd (ShapeFactory.DefineFace 0 PyramidFactory.positions [0; 1]
                ShapeFactory.QUAD_TEXTURE_COORDS four) !! 2%nat
         <> four !! 2%nat).
Proof.
  cbv zeta. split; [split|split; [|split]].
  - left. reflexivity.
  - intros Hgt. vm_compute in Hgt. discriminate.
  - reflexivity.
  - cbn. lia.
  - vm_compute. discriminate.
Qed.

(** The defect behind C10 in general: the offset -1 passes the bounds
    check of [AssignTextureCoords] whenever the coords, but for one, fit
    the vertex list, and the first write is then out of bounds. *)
Lemma AssignTextureCoords_minus_one {F : Type} (coords : list (F * F))
    (vertices : VertexList F) :
  coords <> [] ->
  Z.of_nat (length coords) <= PTRDIFF_MAX ->
  Z.of_nat (length vertices) <= PTRDIFF_MAX ->
  Z.of_nat (length coords) - 1 <= Z.of_nat (length vertices) ->
  ShapeFactory.AssignTextureCoords (-1) coords vertices
  = (Undefined, vertices).
Proof.
  unfold PTRDIFF_MAX. intros Hne Hc Hv Hfit.
  destruct coords as [|c coords]; [done|]. cbn [length] in *.
  assert (Hsum : size_add (size_wrap (-1)) (vector_size (c :: coords))
                 = Z.of_nat (length coords)).
  { unfold size_add, vector_size, size_wrap. cbn [length].
    rewrite Zplus_mod_idemp_l, Zplus_mod_idemp_r.
    replace (-1 + Z.of_nat (S (length coords)))
      with (Z.of_nat (length coords)) by lia.
    apply Z.mod_small. lia. }
  unfold ShapeFactory.AssignTextureCoords, bind at 1, get.
  rewrite Hsum. unfold vector_size. rewrite (size_wrap_small (Z.of_nat _)) by lia.
  rewrite decide_False by lia.
  cbn [ShapeFactory.AssignTextureCoords_loop]. unfold bind.
  rewrite vector_update_out_of_bounds; [done|].
  change (size_add (size_wrap (-1)) 0) with (2 ^ 64 - 1). lia.
Qed.

(** C10 fails on the code.  For the offset -1 and the four texture
    coordinates of a quad, the sum the bounds check compares is
    2^64 - 1 + 4 reduced modulo 2^64, that is 3, which does not exceed
    the 24 vertices: no exception is thrown, and the first write goes to
    the index 2^64 - 1, outside the vertex list. *)
Lemma negative_offset_passes_bounds_check :
  let vertices := @ShapeFactory.VertexList_new fexpr _ 24 in
  size_add (size_wrap (-1)) (vector_size (@ShapeFactory.QUAD_TEXTURE_COORDS fexpr _)) = 3
  /\ size_add (size_wrap (-1)) 0 = 2 ^ 64 - 1
  /\ ShapeFactory.AssignTextureCoords (-1) ShapeFactory.QUAD_TEXTURE_COORDS
       vertices = (Undefined, vertices)
  /\ ShapeFactory.DefineFace (-1) CubeFactory.positions [0; 1; 2; 3]
       ShapeFactory.QUAD_TEXTURE_COORDS vertices = (Undefined, vertices).
Proof. cbv zeta. repeat split; vm_compute; reflexivity. Qed.

(** ** The geometry of the five factories *)

Lemma passes_intro {F} `{FloatOps F}
    (geometry : forall S, M S (VertexList F * IndexList))
    (createShape : M (World F) shared_ptr)
    (vertices : VertexList F) (indices : IndexList) :
  (forall S (s : S), geometry S s = (Ok (vertices, indices), s)) ->
  (forall w, createShape w
             = (let* g := geometry (World F) in
                ShapeFactory.createVAOFromData (fst g) (snd g)) w) ->
  passes geometry createShape vertices indices.
Proof.
  intros Hg Hc. split; [exact Hg|].
  intros w. rewrite Hc. unfold bind. by rewrite Hg.
Qed.

(** C9.  Each of the five factories passes to [createVAOFromData] a vertex
    list of length 6, 36, 24, 16 and 24 respectively (square, circle with
    the step 10, cube, pyramid, frustum) and an index list every entry of
    which is less than that length. *)
Theorem factory_indices_in_range {F : Type} `{FloatOps F} :
  (exists vertices indices,
     passes (@SquareFactory.geometry F _) SquareFactory.createShape
       vertices indices
     /\ length vertices = 6%nat
     /\ Forall (fun i => 0 <= i < Z.of_nat (length vertices)) indices)
  /\ (exists vertices indices,
        passes (fun S => @CircleFactory.geometry F _ S 10)
          (CircleFactory.createShape 10) vertices indices
        /\ length vertices = 36%nat
        /\ Forall (fun i => 0 <= i < Z.of_nat (length vertices)) indices)
  /\ (exists vertices indices,
        passes (@CubeFactory.geometry F _) CubeFactory.createShape
          vertices indices
        /\ length vertices = 24%nat
        /\ Forall (fun i => 0 <= i < Z.of_nat (length vertices)) indices)
  /\ (exists vertices indices,
        passes (@PyramidFactory.geometry F _) PyramidFactory.createShape
          vertices indices
        /\ length vertices = 16%nat
        /\ Forall (fun i => 0 <= i < Z.of_nat (length vertices)) indices)
  /\ (exists vertices indices,
        passes (@FrustumFactory.geometry F _) FrustumFactory.createShape
          vertices indices
        /\ length vertices = 24%nat
        /\ Forall (fun i => 0 <= i < Z.of_nat (length vertices)) indices).
Proof.
  repeat split.
  - eexists _, _. split; [|split].
    + compute_geometry passes_intro.
    + reflexivity.
    + in_range.
  - eexists _, _. split; [|split].
    + compute_geometry passes_intro.
    + reflexivity.
    + in_range.
  - eexists _, _. split; [|split].
    + compute_geometry passes_intro.
    + reflexivity.
    + in_range.
  - eexists _, _. split; [|split].
    + compute_geometry passes_intro.
    + reflexivity.
    + in_range.
  - eexists _, _. split; [|split].
    + compute_geometry passes_intro.
    + reflexivity.
    + in_range.
Qed.

Lemma circle_position_real (i : Z) :
  position (@circle_vertex R real_FloatOps i)
  = glm.mk_vec3 (cos (IZR (10 * i) * (PI / 180)))
                (sin (IZR (10 * i) * (PI / 180))) 0%R.
Proof.
  unfold circle_vertex. cbn. f_equal. unfold Q2R. cbn. lra.
Qed.

(** C2.  With the angle step 10 the circle factory passes to
    [createVAOFromData] a vertex list of length 36 = 360/10 whose vertex i
    has the position (cos(10*i deg), sin(10*i deg), 0), and an index list
    of length 102 = 3*(36-2) whose k-th triple is (0, k+2, k+1), so that
    every triangle contains the vertex 0.  This holds for every
    implementation of the floating point operations; when the operations
    are given their exact real values, vertex 0 is at (1,0,0) and vertex 9
    at (0,1,0). *)
Theorem circle_geometry :
  (forall (F : Type) (ops : FloatOps F),
     let vertices := circle_vertex <$> seqZ 0 36 in
     let indices := seqZ 0 34 ≫= fan_triangle in
     passes (fun S => @CircleFactory.geometry F ops S 10)
       (CircleFactory.createShape 10) vertices indices
     /\ length vertices = Z.to_nat (360 / 10)
     /\ length vertices = 36%nat
     /\ (forall i : nat, (i < 36)%nat ->
           vertices !! i = Some (circle_vertex (Z.of_nat i)))
     /\ length indices = (3 * (36 - 2))%nat
     /\ (forall k : nat, (k < 34)%nat ->
           take 3 (drop (3 * k) indices)
           = [0; Z.of_nat k + 2; Z.of_nat k + 1]))
  /\ (forall i : Z,
        position (@circle_vertex R real_FloatOps i)
        = glm.mk_vec3 (cos (IZR (10 * i) * (PI / 180)))
                      (sin (IZR (10 * i) * (PI / 180))) 0%R)
  /\ position (@circle_vertex R real_FloatOps 0) = glm.mk_vec3 1%R 0%R 0%R
  /\ position (@circle_vertex R real_FloatOps 9) = glm.mk_vec3 0%R 1%R 0%R.
Proof.
  split; [|split; [|split]].
  - intros F ops vertices indices. split; [|split; [|split; [|split; [|split]]]].
    + compute_geometry passes_intro.
    + reflexivity.
    + reflexivity.
    + intros i Hi.
      do 36 (destruct i as [|i]; [reflexivity|]). lia.
    + reflexivity.
    + intros k Hk.
      do 34 (destruct k as [|k]; [reflexivity|]). lia.
  - exact circle_position_real.
  - rewrite circle_position_real.
    replace (IZR (10 * 0) * (PI / 180))%R with 0%R
      by (change (10 * 0) with 0; lra).
    by rewrite cos_0, sin_0.
  - rewrite circle_position_real.
    replace (IZR (10 * 9) * (PI / 180))%R with (PI / 2)%R
      by (change (10 * 9) with 90; lra).
    by rewrite cos_PI2, sin_PI2.
Qed.

(** ** ShapeFactoryManager *)

Section Manager.
Context {F : Type} `{FloatOps F}.
Import ShapeFactoryManager.

Lemma createShape_cached (m : t) (w : World F) (kind : Z) (p : shared_ptr) :
  shapeCache m !! kind = Some p ->
  createShape kind (m, w) = (Ok p, (m, w)).
Proof.
  intros Hc. unfold createShape, bind, this, zoom, get. cbn [fst snd].
  by rewrite Hc.
Qed.

Lemma createShape_unknown (m : t) (w : World F) (kind : Z) :
  shapeCache m !! kind = None -> factories m !! kind = None ->
  createShape kind (m, w)
  = (Throw (GrafException "Unknown shape type"), (m, w)).
Proof.
  intros Hc Hf. unfold createShape, bind, this, zoom, get. cbn [fst snd].
  by rewrite Hc, Hf.
Qed.

Lemma createShape_fresh (m : t) (w : World F) (kind : Z) (f : Factory) :
  shapeCache m !! kind = None -> factories m !! kind = Some f ->
  createShape kind (m, w)
  = match Factory_createShape f w with
    | (Ok shape, w') =>
        (Ok shape,
         (mk (factories m) (<[kind := shape]> (shapeCache m))
             (invoked m ++ [kind]), w'))
    | (Throw e, w') =>
        (Throw e, (mk (factories m) (shapeCache m) (invoked m ++ [kind]), w'))
    | (Undefined, w') =>
        (Undefined, (mk (factories m) (shapeCache m) (invoked m ++ [kind]), w'))
    end.
Proof.
  intros Hc Hf.
  unfold createShape, bind, this, env, zoom, get, modify, ret. cbn [fst snd].
  rewrite Hc, Hf. cbn [fst snd].
  destruct (Factory_createShape f w) as [[shape | e |] w']; reflexivity.
Qed.

(** C5.  In a manager whose cached shape types all have a factory (as
    the constructor establishes and [createShape] maintains): for a shape
    type with a registered factory, when a call of [createShape] returns a
    pointer, the next call with that type returns the same pointer and
    changes nothing in the manager or in the program state (no factory is
    called, no buffer is created), and over the two calls the manager has
    called a factory at most once; for a shape type with no registered
    factory, [createShape] throws the unknown-shape exception and leaves
    the manager, its cache included, and the program state as they were. *)
Theorem createShape_cache (m : t) (w : World F) (kind : Z) :
  consistent m ->
  (is_Some (factories m !! kind) ->
   forall p m1 w1,
     createShape kind (m, w) = (Ok p, (m1, w1)) ->
     createShape kind (m1, w1) = (Ok p, (m1, w1))
     /\ (exists calls, invoked m1 = invoked m ++ calls
                       /\ (length calls <= 1)%nat)
     /\ consistent m1)
  /\ (factories m !! kind = None ->
      createShape kind (m, w)
      = (Throw (GrafException "Unknown shape type"), (m, w))).
Proof.
  intros Hm. split.
  - intros [f Hf] p m1 w1 Hcall.
    destruct (shapeCache m !! kind) as [cached|] eqn:Hc.
    + rewrite (createShape_cached m w kind cached Hc) in Hcall.
      simplify_eq. split. { apply createShape_cached. exact Hc. } split; [|done].
      exists []. rewrite app_nil_r. split; [done | cbn; lia].
    + rewrite (createShape_fresh m w kind f Hc Hf) in Hcall.
      destruct (Factory_createShape f w) as [[shape | e |] w']; simplify_eq.
      split; [|split].
      * apply createShape_cached. cbn. apply lookup_insert_eq.
      * exists [kind]. split; [done | cbn; lia].
      * intros k. cbn. rewrite lookup_insert.
        case_decide as Hk; [subst; by eauto | apply Hm].
  - intros Hf. apply createShape_unknown; [|done].
    destruct (shapeCache m !! kind) eqn:Hc; [|done].
    destruct (Hm kind) as [f Hf']; [by eauto | congruence].
Qed.
End Manager.

Lemma new_consistent : consistent ShapeFactoryManager.new.
Proof. intros k [p Hp]. cbn in Hp. by rewrite lookup_empty in Hp. Qed.

(** C5 at the manager the constructor builds and a context that reports
    no error: the square is requested twice, and the shape type 7 once. *)
Lemma createShape_cache_witness :
  ShapeFactoryManager.createShape ShapeTypes.Square after_square
  = (Ok (Some 1%positive), after_square)
  /\ @ShapeFactoryManager.createShape fexpr _ 7
       (ShapeFactoryManager.new, initial_world)
     = (Throw (GrafException "Unknown shape type"),
        (ShapeFactoryManager.new, initial_world)).
Proof.
  split.
  - refine (proj1 (proj1 (createShape_cache ShapeFactoryManager.new
                            initial_world ShapeTypes.Square new_consistent)
                     _ (Some 1%positive) (fst after_square) (snd after_square) _)).
    + vm_compute; eauto.
    + vm_compute; reflexivity.
  - apply (createShape_cache ShapeFactoryManager.new initial_world 7
             new_consistent).
    vm_compute; reflexivity.
Defined.

(** ** VertexArrayObject: Draw *)

Section IndexBufferPointer.
Context {Blob : Type}.
Import VertexArrayObject.

Lemma keeps_bind {A B} (m : M (t * Buffers Blob) A)
    (k : A -> M (t * Buffers Blob) B) :
  keeps_index_buffer m -> (forall a, keeps_index_buffer (k a)) ->
  keeps_index_buffer (bind m k).
Proof.
  intros Hm Hk v h. unfold bind. specialize (Hm v h).
  destruct (m (v, h)) as [[a | e |] [v1 h1]]; cbn [fst snd] in *; try done.
  by rewrite Hk.
Qed.

Lemma keeps_try_catch {A} (c : exn -> bool) (m : M (t * Buffers Blob) A)
    (hdl : exn -> M (t * Buffers Blob) A) :
  keeps_index_buffer m -> (forall e, keeps_index_buffer (hdl e)) ->
  keeps_index_buffer (try_catch c m hdl).
Proof.
  intros Hm Hh v h. unfold try_catch. specialize (Hm v h).
  destruct (m (v, h)) as [[a | e |] [v1 h1]]; cbn [fst snd] in *; try done.
  destruct (c e); [|done]. by rewrite Hh.
Qed.

Lemma keeps_env {A} (m : M (Buffers Blob) A) : keeps_index_buffer (env m).
Proof.
  intros v h. unfold env, zoom. cbn [fst snd]. by destruct (m h).
Qed.

Lemma keeps_get : keeps_index_buffer (this (G := Buffers Blob) get).
Proof. by intros v h. Qed.

Lemma keeps_modify (f : t -> t) :
  (forall v, mp_ib (f v) = mp_ib v) ->
  keeps_index_buffer (this (G := Buffers Blob) (modify f)).
Proof. intros Hf v h. apply Hf. Qed.

Lemma keeps_throw {A} (e : exn) :
  keeps_index_buffer (throw (S := t * Buffers Blob) (A := A) e).
Proof. by intros v h. Qed.

Lemma keeps_ret {A} (a : A) :
  keeps_index_buffer (ret (S := t * Buffers Blob) a).
Proof. by intros v h. Qed.

Lemma keeps_loop (stride : Z) (kinds : AttributeList) : forall i location,
  keeps_index_buffer
    (ActivateAttributes_loop (Blob := Blob) stride i location kinds).
Proof.
  induction kinds as [|kind kinds IH]; intros i location.
  - apply keeps_ret.
  - cbn [ActivateAttributes_loop].
    repeat (apply keeps_bind; [apply keeps_env | intros _]). apply IH.
Qed.

(** Of the methods of a vertex array, only [SetIndexBuffer] changes the
    index buffer pointer. *)
Lemma index_buffer_kept :
  keeps_index_buffer (Create (Blob := Blob))
  /\ keeps_index_buffer (Bind (Blob := Blob))
  /\ keeps_index_buffer (Unbind (Blob := Blob))
  /\ (forall p_vb, keeps_index_buffer (SetVertexBuffer (Blob := Blob) p_vb))
  /\ keeps_index_buffer (Draw (Blob := Blob))
  /\ (forall type, keeps_index_buffer (AddVertexAttribute (Blob := Blob) type))
  /\ keeps_index_buffer (ActivateAttributes (Blob := Blob))
  /\ keeps_index_buffer (Release (Blob := Blob)).
Proof.
  assert (Hbind : keeps_index_buffer (Bind (Blob := Blob))).
  { apply keeps_bind; [apply keeps_get | intros v; apply keeps_env]. }
  assert (Hunbind : keeps_index_buffer (Unbind (Blob := Blob))).
  { apply keeps_bind; [apply keeps_env | intros _].
    apply keeps_bind; [apply keeps_get | intros v].
    apply keeps_bind; [apply keeps_env | intros _; apply keeps_env]. }
  split; [|split; [done|split; [done|split; [|split; [|split; [|split]]]]]].
  - intros v h. unfold Create, bind, gl_, glcall, this, env, zoom, get, put,
      modify, throw. cbn [fst snd].
    destruct (GL.glGenVertexArrays (m_id v) (gl h)) as [[id | e |] g1];
      cbn [fst snd]; try done.
    destruct (decide (id = 0));
      cbn [fst snd gl vertex_buffers index_buffers]; [done|].
    by destruct (CheckGLError "VAO generation" g1) as [[[] | e |] g2].
  - intros p_vb. unfold SetVertexBuffer.
    destruct (is_null p_vb); [apply keeps_throw|].
    apply keeps_bind; [by apply keeps_modify | intros _].
    apply keeps_try_catch.
    + apply keeps_bind; [done | intros _].
      apply keeps_bind; [|intros _; apply keeps_env].
      apply keeps_bind; [apply keeps_get | intros v; apply keeps_env].
    + intros e. apply keeps_bind; [done | intros _; apply keeps_throw].
  - unfold Draw. apply keeps_bind; [apply keeps_get | intros v].
    destruct (is_null (mp_ib v)); [apply keeps_throw|].
    apply keeps_bind; [apply keeps_env | intros count].
    apply keeps_bind; [apply keeps_env | intros _; apply keeps_env].
  - intros type. by apply keeps_modify.
  - unfold ActivateAttributes. apply keeps_bind; [apply keeps_get | intros v].
    destruct (m_attributes v); [apply keeps_throw | apply keeps_loop].
  - unfold Release. apply keeps_bind; [apply keeps_get | intros v].
    apply keeps_bind; [apply keeps_env | intros _; apply keeps_env].
Qed.
End IndexBufferPointer.

Section DrawProperties.
Context {Blob : Type}.
Implicit Types (g : GLContext Blob) (h : Buffers Blob).

Lemma IndexBuffer_Create_ok data size (b b' : IndexBuffer.t) g g' :
  IndexBuffer.Create data size (b, g) = (Ok tt, (b', g')) ->
  0 < size /\ IndexBuffer.m_IndexCount b' = int_div size 4.
Proof.
  unfold IndexBuffer.Create.
  destruct (is_null data || (size <=? 0)) eqn:Hguard; [discriminate|].
  apply orb_false_iff in Hguard as [_ Hsize]. apply Z.leb_gt in Hsize.
  unfold bind, this, env, zoom, get, put, modify, throw, CheckGLError,
    GL.glGenBuffers, GL.glBindBuffer, GL.glBufferData, GL.glGetError, GL.issue,
    ret, bind.
  cbn. intros Hrun.
  repeat case_match; simplify_eq. done.
Qed.

Lemma IndexBuffer_Create_stored (l : positive) data size h h1 :
  call_ib (Some l) (IndexBuffer.Create data size) h = (Ok tt, h1) ->
  0 < size
  /\ exists b1, index_buffers h1 !! l = Some b1
                /\ IndexBuffer.m_IndexCount b1 = int_div size 4.
Proof.
  unfold call_ib, zoom.
  destruct (index_buffers h !! l) as [b|]; [|discriminate].
  destruct (IndexBuffer.Create data size (b, gl h)) as [r [b' g']] eqn:Hrun.
  intros Heq. simplify_eq.
  apply IndexBuffer_Create_ok in Hrun as [Hsize Hcount].
  split; [done|]. exists b'. cbn. by rewrite lookup_insert_eq.
Qed.

Lemma try_catch_Ok_inv {S A} (c : exn -> bool) (m : M S A) (hdl : exn -> M S A)
    (s s' : S) (a : A) :
  (forall e s0 a0 s1, hdl e s0 <> (Ok a0, s1)) ->
  try_catch c m hdl s = (Ok a, s') -> m s = (Ok a, s').
Proof.
  intros Hh. unfold try_catch.
  destruct (m s) as [[a1 | e |] s1]; try done.
  destruct (c e); [|done]. intros Hrun. by apply Hh in Hrun.
Qed.

Lemma bind_throw_not_Ok {S A B} (m : M S A) (e : exn) (s s' : S) (b : B) :
  bind m (fun _ => throw e) s <> (Ok b, s').
Proof. unfold bind, throw. by destruct (m s) as [[a | e' |] s1]. Qed.

Lemma SetIndexBuffer_ok (l : positive) (v v2 : VertexArrayObject.t) h1 h2 :
  VertexArrayObject.SetIndexBuffer (Some l) (v, h1) = (Ok tt, (v2, h2)) ->
  VertexArrayObject.mp_ib v2 = Some l
  /\ forall b, index_buffers h1 !! l = Some b -> index_buffers h2 !! l = Some b.
Proof.
  unfold VertexArrayObject.SetIndexBuffer. cbn [is_null].
  unfold bind at 1. cbn [this zoom modify fst snd].
  intros Hrun. apply try_catch_Ok_inv in Hrun;
    [|intros; apply bind_throw_not_Ok].
  revert Hrun.
  unfold VertexArrayObject.Bind, VertexArrayObject.gl_, glcall,
    IndexBuffer.Bind, call_ib, bind, this, env, zoom, get, put, modify, throw,
    CheckGLError, GL.glBindVertexArray, GL.glBindBuffer, GL.glGetError,
    GL.issue, ret, bind, undefined.
  cbn. intros Hrun.
  repeat case_match; simplify_eq; cbn.
  split; [done|]. intros b Hb; simplify_eq; by rewrite lookup_insert_eq.
Qed.

Lemma CheckGLError_run (operation : string) g :
  CheckGLError operation g
  = (check_outcome operation (error_code g (issued g)),
     mk_GLContext (issued g ++ [GetError (error_code g (issued g))])
       (gen_name g) (error_code g)).
Proof.
  unfold CheckGLError, bind, GL.glGetError, GL.issue, get, modify, ret, throw.
  cbn. by destruct (error_code g (issued g)).
Qed.

Lemma gl_issue_run (c : GLCall Blob) (v : VertexArrayObject.t) h :
  VertexArrayObject.gl_ (GL.issue c) (v, h) = (Ok tt, (v, after_calls [c] h)).
Proof. reflexivity. Qed.

Lemma gl_check_run (operation : string) (v : VertexArrayObject.t) h :
  VertexArrayObject.gl_ (CheckGLError operation) (v, h)
  = (check_outcome operation (error_code (gl h) (issued (gl h))),
     (v, after_calls [GetError (error_code (gl h) (issued (gl h)))] h)).
Proof.
  unfold VertexArrayObject.gl_, env, glcall, zoom. cbn [fst snd].
  by rewrite CheckGLError_run.
Qed.

Lemma after_calls_app (cs1 cs2 : list (GLCall Blob)) h :
  after_calls cs2 (after_calls cs1 h) = after_calls (cs1 ++ cs2) h.
Proof. unfold after_calls. cbn. by rewrite app_assoc. Qed.

Lemma Draw_run (l : positive) (b : IndexBuffer.t) (v : VertexArrayObject.t) h :
  VertexArrayObject.mp_ib v = Some l ->
  index_buffers h !! l = Some b ->
  let draw := DrawElements GL_TRIANGLES (IndexBuffer.m_IndexCount b)
                GL_UNSIGNED_INT 0 in
  let code := error_code (gl h) (issued (gl h) ++ [draw]) in
  VertexArrayObject.Draw (v, h)
  = (check_outcome "Draw call" code,
     (v, after_calls [draw; GetError code] h)).
Proof.
  intros Hib Hb draw code.
  unfold VertexArrayObject.Draw. unfold bind at 1. cbn [this zoom get fst snd].
  rewrite Hib. cbn [is_null].
  unfold bind at 1.
  unfold env at 1, call_ib, zoom. cbn [fst snd]. rewrite Hb.
  cbn [IndexBuffer.getIndexCount bind this zoom get ret fst snd].
  rewrite (insert_id _ _ _ Hb).
  unfold GL.glDrawElements, bind. rewrite gl_issue_run, gl_check_run.
  rewrite after_calls_app.
  destruct h as [g vbs ibs]. reflexivity.
Qed.

(** C6.  [Draw] throws the invalid-state exception whenever the vertex
    array has no index buffer and issues no OpenGL call (the pointer
    [mp_ib] is null in a new vertex array and only [SetIndexBuffer]
    changes it: [index_buffer_kept]).  After [Create] has
    uploaded [size] bytes into an index buffer and [SetIndexBuffer] has
    set that buffer, [Draw] issues exactly one draw call, followed by the
    error query: a draw of triangles with size/4 indices (the quotient
    truncated), of the 32-bit unsigned type, from the offset 0. *)
Theorem Draw_index_count :
  (forall (v : VertexArrayObject.t) h,
     VertexArrayObject.mp_ib v = None ->
     VertexArrayObject.Draw (v, h)
     = (Throw (BufferException "No index buffer bound for drawing"), (v, h)))
  /\ (forall (l : positive) (data : option Blob) (size : Z)
             (v v2 : VertexArrayObject.t) h h1 h2,
        size <= INT_MAX ->
        call_ib (Some l) (IndexBuffer.Create data size) h = (Ok tt, h1) ->
        VertexArrayObject.SetIndexBuffer (Some l) (v, h1) = (Ok tt, (v2, h2)) ->
        let draw := DrawElements GL_TRIANGLES (size ÷ 4) GL_UNSIGNED_INT 0 in
        let code := error_code (gl h2) (issued (gl h2) ++ [draw]) in
        VertexArrayObject.Draw (v2, h2)
        = (check_outcome "Draw call" code,
           (v2, after_calls [draw; GetError code] h2))).
Proof.
  split.
  - intros v h Hib. unfold VertexArrayObject.Draw, bind.
    cbn [this zoom get fst snd]. by rewrite Hib.
  - intros l data size v v2 h h1 h2 Hint Hcreate Hset draw code.
    apply IndexBuffer_Create_stored in Hcreate as (Hpos & b1 & Hb1 & Hcount).
    apply SetIndexBuffer_ok in Hset as [Hib Hkeep].
    rewrite (Draw_run l b1 v2 h2 Hib (Hkeep b1 Hb1)).
    rewrite Hcount. unfold int_div.
    rewrite int_wrap_small; [reflexivity|].
    unfold INT_MIN, INT_MAX in *.
    assert (0 <= size ÷ 4 <= size); [|lia].
    split; [apply Z.quot_pos; lia | apply Z.quot_le_upper_bound; lia].
Qed.
End DrawProperties.

(** C6 at a vertex array without index buffer, and at an index buffer of
    three indices (12 bytes) in a context that reports no error. *)
Lemma Draw_index_count_witness :
  VertexArrayObject.Draw (example_vertex_array, example_buffers)
  = (Throw (BufferException "No index buffer bound for drawing"),
     (example_vertex_array, example_buffers))
  /\ VertexArrayObject.Draw example_index_buffer_set
     = (Ok tt,
        (fst example_index_buffer_set,
         after_calls
           [DrawElements GL_TRIANGLES 3 GL_UNSIGNED_INT 0; GetError GL_NO_ERROR]
           (snd example_index_buffer_set))).
Proof.
  split.
  - apply (proj1 Draw_index_count example_vertex_array example_buffers).
    reflexivity.
  - refine (proj2 Draw_index_count 1%positive (Some [0; 1; 2]) 12
              example_vertex_array (fst example_index_buffer_set)
              example_buffers example_created (snd example_index_buffer_set)
              _ _ _).
    + by apply Z.leb_le.
    + vm_compute. reflexivity.
    + vm_compute. reflexivity.
Defined.

(** ** VertexArrayObject: stride and attribute offsets *)

Section AttributeProperties.
Context {Blob : Type}.
Implicit Types (g : GLContext Blob) (h : Buffers Blob).
Import VertexArrayObject.

Lemma getTypeSize_attribute_size kind : getTypeSize kind = attribute_size kind.
Proof. by destruct kind. Qed.

Lemma attribute_size_bounds kind : 8 <= attribute_size kind <= 16.
Proof. destruct kind; cbn; lia. Qed.

Lemma total_size_app ks1 ks2 :
  total_size (ks1 ++ ks2) = total_size ks1 + total_size ks2.
Proof.
  induction ks1 as [|k ks1 IH]; cbn [app total_size]; [done|].
  rewrite IH. lia.
Qed.

Lemma total_size_length ks : 8 * Z.of_nat (length ks) <= total_size ks.
Proof.
  induction ks as [|k ks IH]; cbn [total_size length]; [lia|].
  pose proof (attribute_size_bounds k). lia.
Qed.

Lemma AddVertexAttributes_run (kinds : AttributeList) : forall (v : t) h,
  0 <= m_stride v ->
  m_stride v + total_size kinds < 2 ^ 32 ->
  AddVertexAttributes kinds (v, h)
  = (Ok tt,
     (mk (m_id v) (mp_vb v) (mp_ib v) (m_stride v + total_size kinds)
         (m_attributes v ++ kinds), h)).
Proof.
  induction kinds as [|kind kinds IH]; intros v h Hs Hsum.
  - cbn. rewrite Z.add_0_r, app_nil_r. by destruct v.
  - cbn [AddVertexAttributes total_size] in *.
    pose proof (attribute_size_bounds kind).
    pose proof (total_size_length kinds).
    unfold bind, AddVertexAttribute. cbn [this zoom modify fst snd].
    rewrite IH; cbn [m_stride m_attributes m_id mp_vb mp_ib].
    + unfold uint_add. rewrite getTypeSize_attribute_size.
      rewrite (uint_wrap_small (attribute_size kind)) by lia.
      rewrite uint_wrap_small by lia.
      rewrite <- app_assoc. do 3 f_equal. lia.
    + unfold uint_add, uint_wrap. apply Z.mod_pos_bound. lia.
    + unfold uint_add. rewrite getTypeSize_attribute_size.
      rewrite (uint_wrap_small (attribute_size kind)) by lia.
      rewrite uint_wrap_small by lia. lia.
Qed.

Lemma ActivateAttributes_loop_spec (stride : Z) (kinds : AttributeList) :
  forall (i location : Z) (v : t) h,
  0 <= stride <= INT_MAX ->
  0 <= i -> i + Z.of_nat (length kinds) <= INT_MAX ->
  0 <= location -> location + total_size kinds <= INT_MAX ->
  exists r calls,
    ActivateAttributes_loop stride i location kinds (v, h)
    = (r, (v, after_calls calls h))
    /\ registers_prefix_sums kinds i location stride calls
    /\ (r = Ok tt -> registers_all kinds i location stride calls)
    /\ (no_error (gl h) -> r = Ok tt).
Proof.
  unfold INT_MAX.
  induction kinds as [|kind kinds IH]; intros i location v h Hst Hi Hlen Hloc Hsum.
  - exists (Ok tt), []. split; [|split; [|split]].
    + cbn. destruct h as [[] ? ?]. unfold after_calls. cbn. by rewrite app_nil_r.
    + intros ? ? ? ? ? ? Hin. by apply elem_of_nil in Hin.
    + intros _ j kind Hj. by rewrite lookup_nil in Hj.
    + done.
  - cbn [total_size length] in *.
    pose proof (attribute_size_bounds kind) as Hk.
    pose proof (total_size_length kinds) as Hks.
    cbn [ActivateAttributes_loop].
    rewrite getTypeSize_attribute_size.
    rewrite (uint_wrap_small i), (int_wrap_small stride),
      (size_wrap_small location), (size_wrap_small (attribute_size kind))
      by (unfold INT_MIN, INT_MAX; lia).
    assert (Hq : 0 <= attribute_size kind ÷ 4 <= 4)
      by (destruct kind; split; by apply Z.leb_le).
    rewrite (int_wrap_small (attribute_size kind ÷ 4))
      by (unfold INT_MIN, INT_MAX; lia).
    unfold int_add.
    rewrite (int_wrap_small (i + 1)), (int_wrap_small (location + _))
      by (unfold INT_MIN, INT_MAX; lia).
    set (vap := VertexAttribPointer (Blob := Blob) i (attribute_size kind ÷ 4)
                  GL_FLOAT false stride location).
    unfold GL.glVertexAttribPointer, GL.glEnableVertexAttribArray.
    unfold bind at 1. rewrite gl_issue_run. fold vap.
    unfold bind at 1. rewrite gl_check_run.
    set (code1 := error_code (gl (after_calls [vap] h))
                    (issued (gl (after_calls [vap] h)))).
    rewrite after_calls_app. cbn [app].
    assert (Hfirst : forall rest,
              (forall c, c ∈ rest -> c = GetError code1
                                    \/ c = EnableVertexAttribArray i
                                    \/ exists code, c = GetError code) ->
              registers_prefix_sums (kind :: kinds) i location stride
                (vap :: rest)).
    { intros rest Hrest ? ? ? ? ? ? Hin.
      apply elem_of_cons in Hin as [Heq | Hin].
      - exists 0%nat, kind. unfold vap in Heq. simplify_eq. cbn.
        repeat split; try done; lia.
      - apply Hrest in Hin as [? | [? | [? ?]]]; done. }
    assert (Hno1 : no_error (gl h) -> code1 = GL_NO_ERROR).
    { intros Hno. apply Hno. }
    destruct (check_outcome "Vertex attribute setup" code1)
      as [[] | e |] eqn:Hc1.
    2,3: exists (check_outcome "Vertex attribute setup" code1),
           [vap; GetError code1];
         rewrite Hc1; (split; [done|]);
         (split; [apply Hfirst; intros c Hc; apply list_elem_of_singleton in Hc;
                  by left|]);
         (split; [done|]);
         intros Hno; rewrite (Hno1 Hno) in Hc1; done.
    set (en := EnableVertexAttribArray (Blob := Blob) i).
    unfold bind at 1. rewrite gl_issue_run.
    unfold bind at 1. rewrite gl_check_run.
    rewrite !after_calls_app. cbn [app].
    set (code2 := error_code _ _).
    assert (Hno2 : no_error (gl h) -> code2 = GL_NO_ERROR).
    { intros Hno. apply Hno. }
    assert (Hsecond : registers_prefix_sums (kind :: kinds) i location stride
                        [vap; GetError code1; en; GetError code2]).
    { apply Hfirst. intros c Hc.
      repeat (apply elem_of_cons in Hc as [-> | Hc]; [by eauto|]).
      by apply elem_of_nil in Hc. }
    destruct (check_outcome "Vertex attribute enable" code2)
      as [[] | e |] eqn:Hc2.
    2,3: exists (check_outcome "Vertex attribute enable" code2),
           [vap; GetError code1; en; GetError code2];
         rewrite Hc2; (split; [done|]); (split; [done|]); (split; [done|]);
         intros Hno; rewrite (Hno2 Hno) in Hc2; done.
    destruct (IH (i + 1) (location + attribute_size kind) v
                (after_calls [vap; GetError code1; en; GetError code2] h))
      as (r & calls & Hrun & Hsound & Hall & Hok); try lia.
    exists r, ([vap; GetError code1; en; GetError code2] ++ calls).
    split; [|split; [|split]].
    + rewrite Hrun. by rewrite after_calls_app.
    + intros index size type normalized stride' pointer Hin.
      apply elem_of_app in Hin as [Hin | Hin]; [by eapply Hsecond|].
      destruct (Hsound _ _ _ _ _ _ Hin)
        as (j & kj & Hj & -> & -> & -> & -> & -> & ->).
      exists (S j), kj. cbn [lookup list_lookup take total_size].
      repeat split; try done; lia.
    + intros Hr j kj Hj. destruct j as [|j].
      * cbn in Hj. simplify_eq. cbn [take total_size].
        rewrite !Z.add_0_r. split; apply elem_of_app; left.
        -- apply elem_of_cons. by left.
        -- apply elem_of_cons. right. apply elem_of_cons. right.
           apply elem_of_cons. by left.
      * cbn in Hj. destruct (Hall Hr j kj Hj) as [Hv He].
        cbn [take total_size].
        replace (i + Z.of_nat (S j)) with (i + 1 + Z.of_nat j) by lia.
        replace (location + (attribute_size kind + total_size (take j kinds)))
          with (location + attribute_size kind + total_size (take j kinds))
          by lia.
        split; apply elem_of_app; by right.
    + intros Hno. apply Hok. exact Hno.
Qed.

(** C3.  On a vertex array whose stride is 0 and whose attribute list is
    empty (as [Create] leaves a new one), after any sequence of
    [AddVertexAttribute] calls whose sizes sum to at most [INT_MAX], the
    stored stride is the sum of the fixed byte sizes of the kinds added
    (12 for [Position] and [Normal], 16 for [Color], 8 for [Texture]) and
    the attribute list holds the kinds in the order added.  Every
    attribute that [ActivateAttributes] then registers is registered under
    its number i in that order, at the byte offset that is the sum of the
    sizes of the attributes 0..i-1, with the total stride; when
    [ActivateAttributes] returns it has registered and enabled every
    attribute, and it returns whenever the list is not empty and the
    context reports no error. *)
Theorem stride_and_offsets (kinds : AttributeList) (v : t) h h' :
  m_stride v = 0 ->
  m_attributes v = [] ->
  total_size kinds <= INT_MAX ->
  exists v',
    AddVertexAttributes kinds (v, h) = (Ok tt, (v', h))
    /\ m_stride v' = total_size kinds
    /\ m_attributes v' = kinds
    /\ exists r calls,
         ActivateAttributes (v', h') = (r, (v', after_calls calls h'))
         /\ registers_prefix_sums kinds 0 0 (total_size kinds) calls
         /\ (r = Ok tt -> registers_all kinds 0 0 (total_size kinds) calls)
         /\ (kinds <> [] -> no_error (gl h') -> r = Ok tt).
Proof.
  intros Hstride Hattrs Hsum.
  pose proof (total_size_length kinds) as Hlen.
  exists (mk (m_id v) (mp_vb v) (mp_ib v) (total_size kinds) kinds).
  split; [|split; [done|split; [done|]]].
  { rewrite AddVertexAttributes_run; rewrite Hstride, ?Hattrs;
      unfold INT_MAX in *; [done | lia | lia]. }
  unfold ActivateAttributes, bind.
  cbn [this zoom get fst snd m_attributes m_stride].
  destruct kinds as [|kind rest].
  - exists (Throw (BufferException "No vertex attributes specified")), [].
    split; [|split; [|split]].
    + unfold throw, after_calls. rewrite app_nil_r. by destruct h' as [[] ? ?].
    + intros ? ? ? ? ? ? Hin. by apply elem_of_nil in Hin.
    + discriminate.
    + done.
  - lazy iota.
    assert (Hpos : 0 <= total_size (kind :: rest)).
    { cbn [total_size].
      pose proof (attribute_size_bounds kind).
      pose proof (total_size_length rest). lia. }
    destruct (ActivateAttributes_loop_spec (total_size (kind :: rest))
                (kind :: rest) 0 0
                (mk (m_id v) (mp_vb v) (mp_ib v) (total_size (kind :: rest))
                    (kind :: rest)) h')
      as (r & calls & Hrun & Hsound & Hall & Hok);
      try (unfold INT_MAX in *; lia).
    exists r, calls. rewrite Hrun.
    split; [done|]. split; [done|]. split; [done|]. intros _. exact Hok.
Qed.
End AttributeProperties.

(** C3 at the layout of [createVAOFromData], [Position] then [Texture],
    on a vertex array with stride 0 and no attribute. *)
Lemma stride_and_offsets_witness :
  exists v',
    AddVertexAttributes [Position; Texture]
      (example_vertex_array, example_buffers)
    = (Ok tt, (v', example_buffers))
    /\ VertexArrayObject.m_stride v' = total_size [Position; Texture]
    /\ VertexArrayObject.m_attributes v' = [Position; Texture]
    /\ exists r calls,
         VertexArrayObject.ActivateAttributes (v', example_created)
         = (r, (v', after_calls calls example_created))
         /\ registers_prefix_sums [Position; Texture] 0 0
              (total_size [Position; Texture]) calls
         /\ (r = Ok tt ->
             registers_all [Position; Texture] 0 0
               (total_size [Position; Texture]) calls)
         /\ ([Position; Texture] <> [] -> no_error (gl example_created) ->
             r = Ok tt).
Proof.
  apply (stride_and_offsets [Position; Texture] example_vertex_array
           example_buffers example_created).
  - reflexivity.
  - reflexivity.
  - by apply Z.leb_le.
Defined.

(** * Further properties *)

(** ** ShapeFactory: what the helpers write *)

Section HelperResults.
Context {F : Type}.
Implicit Types (vs : VertexList F) (coords : list (F * F)).

Lemma AssignTextureCoords_loop_post (offset : Z) coords : forall (i : Z) vs,
  0 <= offset -> 0 <= i ->
  offset + i + Z.of_nat (length coords) <= Z.of_nat (length vs) ->
  Z.of_nat (length vs) <= PTRDIFF_MAX ->
  exists vs',
    ShapeFactory.AssignTextureCoords_loop offset i coords vs = (Ok tt, vs')
    /\ length vs' = length vs
    /\ (forall j : nat, position <$> vs' !! j = position <$> vs !! j)
    /\ (forall j : nat, Z.of_nat j < offset + i -> vs' !! j = vs !! j)
    /\ (forall (k : nat) c,
          coords !! k = Some c ->
          texture <$> vs' !! Z.to_nat (offset + i + Z.of_nat k)
          = Some (glm.mk_vec2 (fst c) (snd c))).
Proof.
  unfold PTRDIFF_MAX.
  induction coords as [|c coords IH]; intros i vs Hoff Hi Hfit Hmax.
  - exists vs. repeat split; done.
  - cbn [length] in Hfit. cbn [ShapeFactory.AssignTextureCoords_loop].
    assert (Hidx : size_add (size_wrap offset) i = offset + i).
    { unfold size_add. rewrite (size_wrap_small offset), size_wrap_small; lia. }
    assert (Hnext : size_add i 1 = i + 1).
    { unfold size_add. rewrite size_wrap_small; lia. }
    rewrite Hidx, Hnext.
    destruct (vector_update_in_bounds (offset + i)
                (fun v => ShapeFactory.SetTextureCoords v (fst c) (snd c)) vs)
      as (a & Ha & Hupd); [lia|].
    unfold bind at 1. rewrite Hupd.
    set (vs1 := <[Z.to_nat (offset + i) :=
                    ShapeFactory.SetTextureCoords a (fst c) (snd c)]> vs).
    assert (Hlen1 : length vs1 = length vs) by apply length_insert.
    destruct (IH (i + 1) vs1) as (vs' & Hrun & Hlen & Hpos & Hlow & Htex);
      try lia.
    exists vs'. split; [exact Hrun|]. split; [congruence|].
    split; [|split].
    + intros j. rewrite Hpos. unfold vs1.
      destruct (decide (j = Z.to_nat (offset + i))) as [-> | Hne].
      * rewrite list_lookup_insert_eq by lia. by rewrite Ha.
      * by rewrite list_lookup_insert_ne.
    + intros j Hj. rewrite Hlow by lia. unfold vs1.
      apply list_lookup_insert_ne. lia.
    + intros k c' Hk. destruct k as [|k].
      * cbn in Hk. simplify_eq. rewrite Z.add_0_r.
        rewrite Hlow by lia. unfold vs1.
        rewrite list_lookup_insert_eq by lia. reflexivity.
      * cbn in Hk. specialize (Htex k c' Hk).
        replace (offset + i + Z.of_nat (S k))
          with (offset + (i + 1) + Z.of_nat k) by lia.
        exact Htex.
Qed.

Lemma DefineFace_loop_post (offset : Z) (positions : list (glm.vec3 F))
    (selectors : list Z) : forall (i : Z) vs,
  0 <= offset -> 0 <= i ->
  offset + i + Z.of_nat (length selectors) <= Z.of_nat (length vs) ->
  Z.of_nat (length vs) <= PTRDIFF_MAX ->
  Forall (fun k => 0 <= k < Z.of_nat (length positions)) selectors ->
  exists vs',
    ShapeFactory.DefineFace_loop offset i positions selectors vs = (Ok tt, vs')
    /\ length vs' = length vs
    /\ (forall j : nat, texture <$> vs' !! j = texture <$> vs !! j)
    /\ (forall j : nat, Z.of_nat j < offset + i -> vs' !! j = vs !! j)
    /\ (forall (k : nat) sel,
          selectors !! k = Some sel ->
          position <$> vs' !! Z.to_nat (offset + i + Z.of_nat k)
          = positions !! Z.to_nat sel).
Proof.
  unfold PTRDIFF_MAX.
  induction selectors as [|s selectors IH]; intros i vs Hoff Hi Hfit Hmax Hsel.
  - exists vs. repeat split; done.
  - cbn [length] in Hfit. cbn [ShapeFactory.DefineFace_loop].
    apply Forall_cons in Hsel as [Hs Hsel].
    assert (Hidx : size_add (size_wrap offset) i = offset + i).
    { unfold size_add. rewrite (size_wrap_small offset), size_wrap_small; lia. }
    assert (Hnext : size_add i 1 = i + 1).
    { unfold size_add. rewrite size_wrap_small; lia. }
    rewrite Hidx, Hnext.
    destruct (lookup_lt_is_Some_2 positions (Z.to_nat s)) as [p Hp]; [lia|].
    unfold bind at 1, array_get.
    rewrite decide_True by done. rewrite Hp. cbn [ret].
    destruct (vector_update_in_bounds (offset + i)
                (fun v => mk_Vertex p (texture v)) vs)
      as (a & Ha & Hupd); [lia|].
    unfold bind at 1. rewrite Hupd.
    set (vs1 := <[Z.to_nat (offset + i) := mk_Vertex p (texture a)]> vs).
    assert (Hlen1 : length vs1 = length vs) by apply length_insert.
    destruct (IH (i + 1) vs1) as (vs' & Hrun & Hlen & Htex & Hlow & Hpos);
      try lia; try done.
    exists vs'. split; [exact Hrun|]. split; [congruence|].
    split; [|split].
    + intros j. rewrite Htex. unfold vs1.
      destruct (decide (j = Z.to_nat (offset + i))) as [-> | Hne].
      * rewrite list_lookup_insert_eq by lia. by rewrite Ha.
      * by rewrite list_lookup_insert_ne.
    + intros j Hj. rewrite Hlow by lia. unfold vs1.
      apply list_lookup_insert_ne. lia.
    + intros k sel Hk. destruct k as [|k].
      * cbn in Hk. simplify_eq. rewrite Z.add_0_r.
        rewrite Hlow by lia. unfold vs1.
        rewrite list_lookup_insert_eq by lia. by rewrite Hp.
      * cbn in Hk. specialize (Hpos k sel Hk).
        replace (offset + i + Z.of_nat (S k))
          with (offset + (i + 1) + Z.of_nat k) by lia.
        exact Hpos.
Qed.

(** X1.  When the coords fit the vertex list from a non-negative offset,
    [AssignTextureCoords] returns, keeps the length of the list and the
    position of every vertex, and gives the vertex offset + k the k-th
    pair of coords as its texture coordinates. *)
Theorem AssignTextureCoords_assigns (vertices : VertexList F) (offset : Z)
    coords :
  0 <= offset <= INT_MAX ->
  Z.of_nat (length coords) <= PTRDIFF_MAX ->
  Z.of_nat (length vertices) <= PTRDIFF_MAX ->
  offset + Z.of_nat (length coords) <= Z.of_nat (length vertices) ->
  exists vertices',
    ShapeFactory.AssignTextureCoords offset coords vertices = (Ok tt, vertices')
    /\ length vertices' = length vertices
    /\ (forall j : nat,
          position <$> vertices' !! j = position <$> vertices !! j)
    /\ (forall (k : nat) c,
          coords !! k = Some c ->
          texture <$> vertices' !! (Z.to_nat offset + k)%nat
          = Some (glm.mk_vec2 (fst c) (snd c))).
Proof.
  intros Ho Hc Hv Hfit.
  destruct (bounds_check_exact offset coords vertices Ho Hc Hv) as [Hsum Hsize].
  destruct (AssignTextureCoords_loop_post offset coords 0 vertices)
    as (vs' & Hrun & Hlen & Hpos & _ & Htex); try lia.
  exists vs'. split; [|split; [done|split; [done|]]].
  - unfold ShapeFactory.AssignTextureCoords, bind, get. rewrite Hsum, Hsize.
    by rewrite decide_False by lia.
  - intros k c Hk. specialize (Htex k c Hk).
    replace (Z.to_nat (offset + 0 + Z.of_nat k))
      with (Z.to_nat offset + k)%nat in Htex by lia.
    exact Htex.
Qed.

(** X2.  When the selectors and the texture coords fit the vertex list
    from a non-negative offset and the selectors are indices of the
    position table, [DefineFace] returns, keeps the length of the list,
    gives the vertex offset + k the position the k-th selector selects
    and the k-th pair of texture coords, and leaves every vertex before
    the offset as it was. *)
Theorem DefineFace_defines (vertices : VertexList F) (offset : Z)
    (positions : list (glm.vec3 F)) (selectors : list Z) coords :
  0 <= offset <= INT_MAX ->
  Z.of_nat (length selectors) <= PTRDIFF_MAX ->
  Z.of_nat (length coords) <= PTRDIFF_MAX ->
  Z.of_nat (length vertices) <= PTRDIFF_MAX ->
  Forall (fun k => 0 <= k < Z.of_nat (length positions)) selectors ->
  offset + Z.of_nat (length selectors) <= Z.of_nat (length vertices) ->
  offset + Z.of_nat (length coords) <= Z.of_nat (length vertices) ->
  exists vertices',
    ShapeFactory.DefineFace offset positions selectors coords vertices
    = (Ok tt, vertices')
    /\ length vertices' = length vertices
    /\ (forall (k : nat) sel,
          selectors !! k = Some sel ->
          position <$> vertices' !! (Z.to_nat offset + k)%nat
          = positions !! Z.to_nat sel)
    /\ (forall (k : nat) c,
          coords !! k = Some c ->
          texture <$> vertices' !! (Z.to_nat offset + k)%nat
          = Some (glm.mk_vec2 (fst c) (snd c)))
    /\ (forall j : nat, Z.of_nat j < offset -> vertices' !! j = vertices !! j).
Proof.
  intros Ho Hs Hc Hv Hsel Hfit1 Hfit2.
  destruct (bounds_check_exact offset selectors vertices Ho Hs Hv)
    as [Hsum Hsize].
  destruct (DefineFace_loop_post offset positions selectors 0 vertices)
    as (vs1 & Hrun1 & Hlen1 & Htex1 & Hlow1 & Hpos1); try lia; try done.
  destruct (bounds_check_exact offset coords vs1 Ho Hc) as [Hsum2 Hsize2];
    [lia|].
  destruct (AssignTextureCoords_loop_post offset coords 0 vs1)
    as (vs' & Hrun & Hlen & Hpos & Hlow & Htex); try lia.
  exists vs'. split; [|split; [congruence|split; [|split]]].
  - unfold ShapeFactory.DefineFace, bind at 1, get. rewrite Hsum, Hsize.
    rewrite decide_False by lia. unfold bind at 1. rewrite Hrun1.
    unfold ShapeFactory.AssignTextureCoords, bind, get. rewrite Hsum2, Hsize2.
    by rewrite decide_False by lia.
  - intros k sel Hk. rewrite Hpos. specialize (Hpos1 k sel Hk).
    replace (Z.to_nat (offset + 0 + Z.of_nat k))
      with (Z.to_nat offset + k)%nat in Hpos1 by lia.
    exact Hpos1.
  - intros k c Hk. specialize (Htex k c Hk).
    replace (Z.to_nat (offset + 0 + Z.of_nat k))
      with (Z.to_nat offset + k)%nat in Htex by lia.
    exact Htex.
  - intros j Hj. rewrite Hlow by lia. apply Hlow1. lia.
Qed.
End HelperResults.


Lemma face_triangles_shift (b n i : Z) :
  face_triangles (b + 4 * n) i = face_triangles b (n + i).
Proof.
  unfold face_triangles. cbn [fmap list_fmap].
  repeat (f_equal; try lia).
Qed.

(** X3.  Generating the faces in two calls, the second with the offset
    advanced by four vertices for each face of the first, gives the index
    list that one call for all the faces gives. *)
Theorem GenerateFaceIndices_split (indices : IndexList) (N1 N2 b : Z) :
  0 <= N1 -> 0 <= N2 ->
  ShapeFactory.GenerateFaceIndices
    (ShapeFactory.GenerateFaceIndices indices N1 b) N2 (b + 4 * N1)
  = ShapeFactory.GenerateFaceIndices indices (N1 + N2) b.
Proof.
  intros H1 H2. unfold ShapeFactory.GenerateFaceIndices.
  rewrite !GenerateFaceIndices_loop_app, !Z2Nat.id by lia.
  rewrite <- app_assoc. f_equal.
  rewrite (seqZ_app 0 N1 N2) by lia. rewrite bind_app. f_equal.
  replace (0 + N1) with (N1 + 0) by lia.
  rewrite <- (fmap_add_seqZ N1 0 N2), list_fmap_bind.
  apply list_bind_ext; [|done]. intros i. unfold compose.
  apply face_triangles_shift.
Qed.

(** X4.  For a non-negative offset b and N faces with b + 4N <= 2^31,
    every index [GenerateFaceIndices] appends lies in [b, b + 4N): the
    triangles refer only to the 4N vertices of the N faces. *)
Theorem GenerateFaceIndices_range (indices : IndexList) (N b : Z) :
  0 <= N -> 0 <= b -> b + 4 * N <= 2 ^ 31 ->
  Forall (fun k => b <= k < b + 4 * N)
    (drop (length indices) (ShapeFactory.GenerateFaceIndices indices N b)).
Proof.
  intros HN Hb Hfit. unfold ShapeFactory.GenerateFaceIndices.
  rewrite GenerateFaceIndices_loop_app, Z2Nat.id by lia.
  rewrite drop_app_length.
  apply Forall_forall. intros k Hk.
  apply list_elem_of_bind in Hk as (i & Hk & Hi).
  apply elem_of_seqZ in Hi.
  unfold face_triangles in Hk. cbn [fmap list_fmap] in Hk.
  repeat (apply elem_of_cons in Hk as [-> | Hk];
          [rewrite uint_wrap_small; lia|]).
  by apply elem_of_nil in Hk.
Qed.

Section HelperExamples.

(** X1 at four new vertices and the texture coordinates of a quad. *)
Lemma AssignTextureCoords_assigns_witness :
  let vertices := (ShapeFactory.VertexList_new 4 : VertexList fexpr) in
  let offset := 0 in
  let coords := (ShapeFactory.QUAD_TEXTURE_COORDS : list (fexpr * fexpr)) in
  exists vertices',
    ShapeFactory.AssignTextureCoords offset coords vertices = (Ok tt, vertices')
    /\ length vertices' = length vertices
    /\ (forall j : nat,
          position <$> vertices' !! j = position <$> vertices !! j)
    /\ (forall (k : nat) c,
          coords !! k = Some c ->
          texture <$> vertices' !! (Z.to_nat offset + k)%nat
          = Some (glm.mk_vec2 (fst c) (snd c))).
Proof.
  apply (AssignTextureCoords_assigns (ShapeFactory.VertexList_new 4) 0
           ShapeFactory.QUAD_TEXTURE_COORDS); arith_hyp.
Defined.

(** X2 at the second face of the cube. *)
Lemma DefineFace_defines_witness :
  let vertices := (ShapeFactory.VertexList_new 24 : VertexList fexpr) in
  let offset := 4 in
  let positions := (CubeFactory.positions : list (glm.vec3 fexpr)) in
  let selectors := [1; 5; 6; 2] in
  let coords := (ShapeFactory.QUAD_TEXTURE_COORDS : list (fexpr * fexpr)) in
  exists vertices',
    ShapeFactory.DefineFace offset positions selectors coords vertices
    = (Ok tt, vertices')
    /\ length vertices' = length vertices
    /\ (forall (k : nat) sel,
          selectors !! k = Some sel ->
          position <$> vertices' !! (Z.to_nat offset + k)%nat
          = positions !! Z.to_nat sel)
    /\ (forall (k : nat) c,
          coords !! k = Some c ->
          texture <$> vertices' !! (Z.to_nat offset + k)%nat
          = Some (glm.mk_vec2 (fst c) (snd c)))
    /\ (forall j : nat, Z.of_nat j < offset -> vertices' !! j = vertices !! j).
Proof.
  apply (DefineFace_defines (ShapeFactory.VertexList_new 24) 4
           CubeFactory.positions [1; 5; 6; 2] ShapeFactory.QUAD_TEXTURE_COORDS);
    first [in_range | arith_hyp].
Defined.

(** X3 at the six faces of the cube, generated as two and four. *)
Lemma GenerateFaceIndices_split_witness :
  let indices := ([] : IndexList) in
  let N1 := 2 in
  let N2 := 4 in
  let b := 0 in
  ShapeFactory.GenerateFaceIndices
    (ShapeFactory.GenerateFaceIndices indices N1 b) N2 (b + 4 * N1)
  = ShapeFactory.GenerateFaceIndices indices (N1 + N2) b.
Proof.
  apply (GenerateFaceIndices_split [] 2 4 0); lia.
Defined.

(** X4 at the six faces of the cube. *)
Lemma GenerateFaceIndices_range_witness :
  let indices := ([] : IndexList) in
  let N := 6 in
  let b := 0 in
  Forall (fun k => b <= k < b + 4 * N)
    (drop (length indices) (ShapeFactory.GenerateFaceIndices indices N b)).
Proof.
  apply (GenerateFaceIndices_range [] 6 0); lia.
Defined.
End HelperExamples.

(** ** VertexBuffer and IndexBuffer: Create *)

Section BufferCreate.
Context {Blob : Type}.
Implicit Types (g : GLContext Blob) (data : option Blob).

Lemma context_after_app (cs1 cs2 : list (GLCall Blob)) g :
  context_after cs2 (context_after cs1 g) = context_after (cs1 ++ cs2) g.
Proof. unfold context_after. cbn. by rewrite app_assoc. Qed.

Lemma env_issue_run {T} (c : GLCall Blob) (b : T) g :
  env (GL.issue c) (b, g) = (Ok tt, (b, context_after [c] g)).
Proof. reflexivity. Qed.

Lemma env_check_run {T} (operation : string) (b : T) g :
  env (CheckGLError operation) (b, g)
  = (check_outcome operation (error_code g (issued g)),
     (b, context_after [GetError (error_code g (issued g))] g)).
Proof.
  unfold env, zoom. cbn [fst snd]. by rewrite CheckGLError_run.
Qed.

Lemma env_glGenBuffers_run {T} (id : Z) (b : T) g :
  env (GL.glGenBuffers id) (b, g)
  = (Ok (next_name g id), (b, context_after [GenBuffers (next_name g id)] g)).
Proof. reflexivity. Qed.

Lemma valid_arguments data size :
  data <> None -> 0 < size -> is_null data || (size <=? 0) = false.
Proof.
  intros Hd Hs. destruct data; [|done]. cbn. apply Z.leb_gt. lia.
Qed.

Lemma VertexBuffer_Create_run data size (b : VertexBuffer.t) g :
  data <> None -> 0 < size ->
  let name := next_name g (VertexBuffer.m_id b) in
  let calls := upload_calls GL_ARRAY_BUFFER name size data in
  let code := error_code g (issued g ++ calls) in
  VertexBuffer.Create data size (b, g)
  = if decide (name = 0)
    then (Throw (BufferException "Failed to generate vertex buffer"),
          (VertexBuffer.mk 0, context_after [GenBuffers 0] g))
    else (check_outcome "Vertex Buffer Creation" code,
          (VertexBuffer.mk name, context_after (calls ++ [GetError code]) g)).
Proof.
  intros Hd Hs name calls code. unfold VertexBuffer.Create.
  rewrite valid_arguments by done.
  unfold bind at 1. cbn [this zoom get fst snd].
  unfold bind at 1. rewrite env_glGenBuffers_run. fold name.
  unfold bind at 1. cbn [this zoom put fst snd].
  destruct (decide (name = 0)) as [Hz | Hnz].
  - rewrite Hz. reflexivity.
  - unfold GL.glBindBuffer, GL.glBufferData.
    unfold bind at 1. rewrite env_issue_run.
    unfold bind at 1. rewrite env_issue_run.
    rewrite env_check_run. rewrite !context_after_app. reflexivity.
Qed.

Lemma IndexBuffer_Create_run data size (b : IndexBuffer.t) g :
  data <> None -> 0 < size ->
  let name := next_name g (IndexBuffer.m_id b) in
  let calls := upload_calls GL_ELEMENT_ARRAY_BUFFER name size data in
  let code := error_code g (issued g ++ calls) in
  IndexBuffer.Create data size (b, g)
  = if decide (name = 0)
    then (Throw (BufferException "Failed to generate index buffer"),
          (IndexBuffer.mk 0 (IndexBuffer.m_IndexCount b),
           context_after [GenBuffers 0] g))
    else (check_outcome "Index Buffer Creation" code,
          (IndexBuffer.mk name
             (match code with
              | GL_NO_ERROR => int_div size 4
              | _ => IndexBuffer.m_IndexCount b
              end),
           context_after (calls ++ [GetError code]) g)).
Proof.
  intros Hd Hs name calls code. unfold IndexBuffer.Create.
  rewrite valid_arguments by done.
  unfold bind at 1. cbn [this zoom get fst snd].
  unfold bind at 1. rewrite env_glGenBuffers_run. fold name.
  unfold bind at 1. cbn [this zoom put fst snd].
  destruct (decide (name = 0)) as [Hz | Hnz].
  - rewrite Hz. reflexivity.
  - unfold GL.glBindBuffer, GL.glBufferData.
    unfold bind at 1. rewrite env_issue_run.
    unfold bind at 1. rewrite env_issue_run.
    unfold bind at 1. rewrite env_check_run. rewrite !context_after_app.
    cbn [app]. fold (upload_calls GL_ELEMENT_ARRAY_BUFFER name size data).
    fold calls. change (issued g ++ calls) with (issued g ++ calls).
    cbn [context_after issued error_code]. fold code.
    destruct code eqn:Hcode; cbn [check_outcome]; try reflexivity.
Qed.

Lemma check_outcome_Ok (operation : string) (code : GLerror) :
  check_outcome operation code = Ok tt <-> code = GL_NO_ERROR.
Proof. by destruct code. Qed.

(** X5.  For a non-null pointer and a positive size, [Create] of a vertex
    buffer returns exactly when the driver generates a non-zero name and
    reports no error after the upload.  When the name is zero the only
    call issued is the [glGenBuffers]; otherwise the buffer is generated,
    bound, given the [size] bytes with the static-draw hint and the error
    is queried, and the handle is the new name whether [Create] returns
    or throws.  In no case is a buffer deleted: the buffer that the old
    handle named stays allocated. *)
Theorem VertexBuffer_Create_cases data size (b : VertexBuffer.t) g :
  data <> None -> 0 < size ->
  let name := next_name g (VertexBuffer.m_id b) in
  let calls := upload_calls GL_ARRAY_BUFFER name size data in
  let code := error_code g (issued g ++ calls) in
  let r := fst (VertexBuffer.Create data size (b, g)) in
  let b' := fst (snd (VertexBuffer.Create data size (b, g))) in
  let g' := snd (snd (VertexBuffer.Create data size (b, g))) in
  (r = Ok tt <-> name <> 0 /\ code = GL_NO_ERROR)
  /\ (name = 0 ->
      r = Throw (BufferException "Failed to generate vertex buffer")
      /\ issued g' = issued g ++ [GenBuffers 0])
  /\ (name <> 0 ->
      r = check_outcome "Vertex Buffer Creation" code
      /\ issued g' = issued g ++ calls ++ [GetError code])
  /\ VertexBuffer.m_id b' = name
  /\ (exists new, issued g' = issued g ++ new /\ Forall (fun c => ~ is_delete c) new).
Proof.
  intros Hd Hs name calls code r b' g'. subst r b' g'.
  rewrite VertexBuffer_Create_run by done. fold name calls code.
  destruct (decide (name = 0)) as [Hz | Hnz]; cbn [fst snd].
  - split; [split; [discriminate | intros [? _]; done]|].
    split; [done|]. split; [done|]. split; [done|].
    exists [GenBuffers 0]. split; [done|].
    repeat constructor. intros [n Hn]. discriminate.
  - split; [rewrite check_outcome_Ok; tauto|].
    split; [done|]. split; [done|]. split; [done|].
    exists (calls ++ [GetError code]). split; [done|].
    unfold calls, upload_calls. cbn [app].
    repeat constructor; intros [n Hn]; discriminate.
Qed.

(** X6.  The same for an index buffer, which in addition records the
    index count: when [Create] returns, the count is size/4 truncated, so
    that 4 * count <= size < 4 * count + 4; when [Create] throws, the
    count is the one the buffer had, although the handle may be new. *)
Theorem IndexBuffer_Create_cases data size (b : IndexBuffer.t) g :
  data <> None -> 0 < size <= INT_MAX ->
  let name := next_name g (IndexBuffer.m_id b) in
  let calls := upload_calls GL_ELEMENT_ARRAY_BUFFER name size data in
  let code := error_code g (issued g ++ calls) in
  let r := fst (IndexBuffer.Create data size (b, g)) in
  let b' := fst (snd (IndexBuffer.Create data size (b, g))) in
  let g' := snd (snd (IndexBuffer.Create data size (b, g))) in
  (r = Ok tt <-> name <> 0 /\ code = GL_NO_ERROR)
  /\ (name = 0 ->
      r = Throw (BufferException "Failed to generate index buffer")
      /\ issued g' = issued g ++ [GenBuffers 0])
  /\ (name <> 0 ->
      r = check_outcome "Index Buffer Creation" code
      /\ issued g' = issued g ++ calls ++ [GetError code])
  /\ IndexBuffer.m_id b' = name
  /\ (r = Ok tt ->
      IndexBuffer.m_IndexCount b' = size ÷ 4
      /\ 4 * IndexBuffer.m_IndexCount b' <= size
         < 4 * IndexBuffer.m_IndexCount b' + 4)
  /\ (r <> Ok tt ->
      IndexBuffer.m_IndexCount b' = IndexBuffer.m_IndexCount b)
  /\ (exists new, issued g' = issued g ++ new /\ Forall (fun c => ~ is_delete c) new).
Proof.
  intros Hd [Hs Hmax] name calls code r b' g'. subst r b' g'.
  rewrite IndexBuffer_Create_run by done. fold name calls code.
  assert (Hquot : int_div size 4 = size ÷ 4).
  { unfold int_div. apply int_wrap_small. unfold INT_MIN, INT_MAX in *.
    assert (0 <= size ÷ 4 <= size); [|lia].
    split; [apply Z.quot_pos; lia | apply Z.quot_le_upper_bound; lia]. }
  destruct (decide (name = 0)) as [Hz | Hnz]; cbn [fst snd].
  - split; [split; [discriminate | intros [? _]; done]|].
    split; [done|]. split; [done|]. split; [done|].
    split; [discriminate|]. split; [done|].
    exists [GenBuffers 0]. split; [done|].
    repeat constructor. intros [n Hn]. discriminate.
  - split; [rewrite check_outcome_Ok; tauto|].
    split; [done|]. split; [done|]. split; [done|].
    split; [|split].
    + intros Hok. apply check_outcome_Ok in Hok. rewrite Hok.
      cbn [IndexBuffer.m_IndexCount]. rewrite Hquot.
      split; [done|].
      pose proof (Z.quot_rem size 4 ltac:(lia)) as Hqr.
      pose proof (Z.rem_bound_pos size 4 ltac:(lia) ltac:(lia)). lia.
    + intros Hbad. destruct code; done.
    + exists (calls ++ [GetError code]). split; [done|].
      unfold calls, upload_calls. cbn [app].
      repeat constructor; intros [n Hn]; discriminate.
Qed.

(** X7.  When [Create] has returned, [Release] deletes the buffer of the
    name [Create] generated, and no other, and leaves the handle zero:
    after the two calls the context has seen the upload calls, the error
    query and one [glDeleteBuffers] of that name. *)
Theorem Create_then_Release data size g :
  (forall (b : VertexBuffer.t) st,
     VertexBuffer.Create data size (b, g) = (Ok tt, st) ->
     let name := next_name g (VertexBuffer.m_id b) in
     name <> 0
     /\ VertexBuffer.Release st
        = (Ok tt,
           (VertexBuffer.mk 0,
            context_after
              (upload_calls GL_ARRAY_BUFFER name size data
               ++ [GetError GL_NO_ERROR; DeleteBuffers name]) g)))
  /\ (forall (b : IndexBuffer.t) st,
        IndexBuffer.Create data size (b, g) = (Ok tt, st) ->
        let name := next_name g (IndexBuffer.m_id b) in
        name <> 0
        /\ IndexBuffer.Release st
           = (Ok tt,
              (IndexBuffer.mk 0 (int_div size 4),
               context_after
                 (upload_calls GL_ELEMENT_ARRAY_BUFFER name size data
                  ++ [GetError GL_NO_ERROR; DeleteBuffers name]) g))).
Proof.
  split.
  - intros b st Hrun name.
    assert (data <> None /\ 0 < size) as [Hd Hs].
    { unfold VertexBuffer.Create in Hrun.
      destruct data; cbn [is_null orb] in *; [|done].
      destruct (size <=? 0) eqn:Hle; [done|]. apply Z.leb_gt in Hle. done. }
    rewrite VertexBuffer_Create_run in Hrun by done. fold name in Hrun.
    destruct (decide (name = 0)) as [Hz | Hnz]; [done|].
    injection Hrun as Hcode <-. apply check_outcome_Ok in Hcode.
    rewrite Hcode. split; [done|].
    unfold VertexBuffer.Release, bind at 1. cbn [this zoom get fst snd].
    cbn [VertexBuffer.m_id]. rewrite decide_True by done.
    unfold GL.glDeleteBuffers, bind. rewrite env_issue_run.
    cbn [this zoom put fst snd]. rewrite context_after_app.
    reflexivity.
  - intros b st Hrun name.
    assert (data <> None /\ 0 < size) as [Hd Hs].
    { unfold IndexBuffer.Create in Hrun.
      destruct data; cbn [is_null orb] in *; [|done].
      destruct (size <=? 0) eqn:Hle; [done|]. apply Z.leb_gt in Hle. done. }
    rewrite IndexBuffer_Create_run in Hrun by done. fold name in Hrun.
    destruct (decide (name = 0)) as [Hz | Hnz]; [done|].
    injection Hrun as Hcode <-. apply check_outcome_Ok in Hcode.
    rewrite Hcode. split; [done|].
    unfold IndexBuffer.Release, bind at 1. cbn [this zoom get fst snd].
    cbn [IndexBuffer.m_id]. rewrite decide_True by done.
    unfold GL.glDeleteBuffers, bind. rewrite env_issue_run.
    cbn [this zoom modify fst snd IndexBuffer.m_IndexCount].
    rewrite context_after_app. reflexivity.
Qed.
End BufferCreate.

Section BufferExamples.

(** X5 at a new vertex buffer and 12 bytes of data, in a context that
    reports no error. *)
Lemma VertexBuffer_Create_cases_witness :
  let data := Some [0; 1; 2] in
  let size := 12 in
  let b := VertexBuffer.mk 0 in
  let g := (quiet_context : GLContext (list Z)) in
  let name := next_name g (VertexBuffer.m_id b) in
  let calls := upload_calls GL_ARRAY_BUFFER name size data in
  let code := error_code g (issued g ++ calls) in
  let r := fst (VertexBuffer.Create data size (b, g)) in
  let b' := fst (snd (VertexBuffer.Create data size (b, g))) in
  let g' := snd (snd (VertexBuffer.Create data size (b, g))) in
  (r = Ok tt <-> name <> 0 /\ code = GL_NO_ERROR)
  /\ (name = 0 ->
      r = Throw (BufferException "Failed to generate vertex buffer")
      /\ issued g' = issued g ++ [GenBuffers 0])
  /\ (name <> 0 ->
      r = check_outcome "Vertex Buffer Creation" code
      /\ issued g' = issued g ++ calls ++ [GetError code])
  /\ VertexBuffer.m_id b' = name
  /\ (exists new, issued g' = issued g ++ new /\ Forall (fun c => ~ is_delete c) new).
Proof.
  apply (VertexBuffer_Create_cases (Some [0; 1; 2]) 12 (VertexBuffer.mk 0)
           quiet_context); [done | lia].
Defined.

(** X6 at a new index buffer and the 12 bytes of three indices. *)
Lemma IndexBuffer_Create_cases_witness :
  let data := Some [0; 1; 2] in
  let size := 12 in
  let b := IndexBuffer.mk 0 0 in
  let g := (quiet_context : GLContext (list Z)) in
  let name := next_name g (IndexBuffer.m_id b) in
  let calls := upload_calls GL_ELEMENT_ARRAY_BUFFER name size data in
  let code := error_code g (issued g ++ calls) in
  let r := fst (IndexBuffer.Create data size (b, g)) in
  let b' := fst (snd (IndexBuffer.Create data size (b, g))) in
  let g' := snd (snd (IndexBuffer.Create data size (b, g))) in
  (r = Ok tt <-> name <> 0 /\ code = GL_NO_ERROR)
  /\ (name = 0 ->
      r = Throw (BufferException "Failed to generate index buffer")
      /\ issued g' = issued g ++ [GenBuffers 0])
  /\ (name <> 0 ->
      r = check_outcome "Index Buffer Creation" code
      /\ issued g' = issued g ++ calls ++ [GetError code])
  /\ IndexBuffer.m_id b' = name
  /\ (r = Ok tt ->
      IndexBuffer.m_IndexCount b' = size ÷ 4
      /\ 4 * IndexBuffer.m_IndexCount b' <= size
         < 4 * IndexBuffer.m_IndexCount b' + 4)
  /\ (r <> Ok tt ->
      IndexBuffer.m_IndexCount b' = IndexBuffer.m_IndexCount b)
  /\ (exists new, issued g' = issued g ++ new /\ Forall (fun c => ~ is_delete c) new).
Proof.
  apply (IndexBuffer_Create_cases (Some [0; 1; 2]) 12 (IndexBuffer.mk 0 0)
           quiet_context); [done | arith_hyp].
Defined.

(** X7 at a new vertex buffer and 12 bytes of data. *)
Lemma Create_then_Release_witness :
  let g := (quiet_context : GLContext (list Z)) in
  let st := snd (VertexBuffer.Create (Some [0; 1; 2]) 12 (VertexBuffer.mk 0, g)) in
  let name := next_name g 0 in
  name <> 0
  /\ VertexBuffer.Release st
     = (Ok tt,
        (VertexBuffer.mk 0,
         context_after
           (upload_calls GL_ARRAY_BUFFER name 12 (Some [0; 1; 2])
            ++ [GetError GL_NO_ERROR; DeleteBuffers name]) g)).
Proof.
  apply (proj1 (Create_then_Release (Some [0; 1; 2]) 12 quiet_context)
           (VertexBuffer.mk 0)).
  reflexivity.
Defined.
End BufferExamples.

(** ** VertexArrayObject: the outcomes of the methods *)

Section VertexArrayOutcomes.
Context {Blob : Type}.
Implicit Types (g : GLContext Blob) (h : Buffers Blob).
Import VertexArrayObject.

Lemma call_vb_run {A} (l : positive) (b : VertexBuffer.t)
    (m : M (VertexBuffer.t * GLContext Blob) A) h :
  vertex_buffers h !! l = Some b ->
  call_vb (Some l) m h
  = (fst (m (b, gl h)),
     mk_Buffers (snd (snd (m (b, gl h))))
       (<[l := fst (snd (m (b, gl h)))]> (vertex_buffers h)) (index_buffers h)).
Proof.
  intros Hb. unfold call_vb, zoom. rewrite Hb.
  by destruct (m (b, gl h)) as [r [b' g']].
Qed.

Lemma call_ib_run {A} (l : positive) (b : IndexBuffer.t)
    (m : M (IndexBuffer.t * GLContext Blob) A) h :
  index_buffers h !! l = Some b ->
  call_ib (Some l) m h
  = (fst (m (b, gl h)),
     mk_Buffers (snd (snd (m (b, gl h)))) (vertex_buffers h)
       (<[l := fst (snd (m (b, gl h)))]> (index_buffers h))).
Proof.
  intros Hb. unfold call_ib, zoom. rewrite Hb.
  by destruct (m (b, gl h)) as [r [b' g']].
Qed.

Lemma call_vb_dangling {A} (p : shared_ptr)
    (m : M (VertexBuffer.t * GLContext Blob) A) h :
  vertex_buffer_at p h = None -> call_vb p m h = (Undefined, h).
Proof.
  destruct p as [l|]; [|done]. cbn. intros Hb.
  unfold call_vb, zoom. by rewrite Hb.
Qed.

Lemma call_ib_dangling {A} (p : shared_ptr)
    (m : M (IndexBuffer.t * GLContext Blob) A) h :
  index_buffer_at p h = None -> call_ib p m h = (Undefined, h).
Proof.
  destruct p as [l|]; [|done]. cbn. intros Hb.
  unfold call_ib, zoom. by rewrite Hb.
Qed.

(** A buffer method that only issues the call [c]. *)
Lemma call_vb_issue (p : shared_ptr) (c : GLCall Blob) h :
  call_vb p (env (GL.issue c)) h
  = match vertex_buffer_at p h with
    | Some _ => (Ok tt, after_calls [c] h)
    | None => (Undefined, h)
    end.
Proof.
  destruct (vertex_buffer_at p h) as [b|] eqn:Hb;
    [|by apply call_vb_dangling].
  destruct p as [l|]; [|done]. cbn in Hb.
  rewrite (call_vb_run l b) by done. cbn [env zoom GL.issue modify fst snd].
  by rewrite insert_id.
Qed.

Lemma call_ib_issue (p : shared_ptr) (c : GLCall Blob) h :
  call_ib p (env (GL.issue c)) h
  = match index_buffer_at p h with
    | Some _ => (Ok tt, after_calls [c] h)
    | None => (Undefined, h)
    end.
Proof.
  destruct (index_buffer_at p h) as [b|] eqn:Hb;
    [|by apply call_ib_dangling].
  destruct p as [l|]; [|done]. cbn in Hb.
  rewrite (call_ib_run l b) by done. cbn [env zoom GL.issue modify fst snd].
  by rewrite insert_id.
Qed.

Lemma VertexArray_Unbind_run (v : t) h :
  Unbind (v, h)
  = match index_buffer_at (mp_ib v) h, vertex_buffer_at (mp_vb v) h with
    | Some _, Some _ => (Ok tt, (v, after_calls unbind_calls h))
    | Some _, None =>
        (Undefined,
         (v, after_calls [BindVertexArray 0;
                          BindBuffer GL_ELEMENT_ARRAY_BUFFER 0] h))
    | None, _ => (Undefined, (v, after_calls [BindVertexArray 0] h))
    end.
Proof.
  unfold Unbind, GL.glBindVertexArray. unfold bind at 1. rewrite gl_issue_run.
  unfold bind at 1. cbn [this zoom get fst snd].
  unfold bind, env, zoom. cbn [fst snd].
  unfold IndexBuffer.Unbind, VertexBuffer.Unbind, GL.glBindBuffer.
  rewrite call_ib_issue.
  change (index_buffer_at (mp_ib v) (after_calls [BindVertexArray 0] h))
    with (index_buffer_at (mp_ib v) h).
  destruct (index_buffer_at (mp_ib v) h) as [bi|]; [|done].
  cbn [fst snd]. rewrite call_vb_issue, after_calls_app.
  change (vertex_buffer_at (mp_vb v) (after_calls _ h))
    with (vertex_buffer_at (mp_vb v) h).
  destruct (vertex_buffer_at (mp_vb v) h) as [bv|]; [|done].
  by rewrite after_calls_app.
Qed.

(** X8.  [Unbind] of a vertex array calls [Unbind] through both buffer
    pointers without a test: it returns exactly when the index buffer
    pointer and the vertex buffer pointer both point to a buffer object,
    and then it has bound the vertex array 0, the element array buffer 0
    and the array buffer 0, in this order, and changed no object; with a
    null or dangling pointer its behaviour is undefined.  It never
    throws. *)
Theorem VertexArray_Unbind_outcome (v : t) h :
  (fst (Unbind (v, h)) = Ok tt
   <-> is_Some (index_buffer_at (mp_ib v) h)
       /\ is_Some (vertex_buffer_at (mp_vb v) h))
  /\ (fst (Unbind (v, h)) = Ok tt ->
      snd (Unbind (v, h)) = (v, after_calls unbind_calls h))
  /\ (fst (Unbind (v, h)) <> Ok tt -> fst (Unbind (v, h)) = Undefined)
  /\ vertex_buffers (snd (snd (Unbind (v, h)))) = vertex_buffers h
  /\ index_buffers (snd (snd (Unbind (v, h)))) = index_buffers h.
Proof.
  rewrite VertexArray_Unbind_run.
  destruct (index_buffer_at (mp_ib v) h) as [bi|],
    (vertex_buffer_at (mp_vb v) h) as [bv|]; cbn [fst snd];
    (split; [split; [try done; by eauto | by intros [[? ?] [? ?]]]|]);
    repeat split; done.
Qed.

Lemma check_outcome_Throw (operation : string) (code : GLerror) :
  code <> GL_NO_ERROR ->
  check_outcome operation code
  = Throw (GrafException
             (String.append operation
                (String.append " failed: " (error_message code)))).
Proof. by destruct code. Qed.

Lemma VertexArray_Bind_run (v : t) h :
  Bind (v, h) = (Ok tt, (v, after_calls [BindVertexArray (m_id v)] h)).
Proof. reflexivity. Qed.

Lemma VertexBuffer_Bind_run (b : VertexBuffer.t) g :
  VertexBuffer.Bind (b, g)
  = (Ok tt, (b, context_after [BindBuffer GL_ARRAY_BUFFER (VertexBuffer.m_id b)] g)).
Proof. reflexivity. Qed.

Lemma IndexBuffer_Bind_run (b : IndexBuffer.t) g :
  IndexBuffer.Bind (b, g)
  = (Ok tt,
     (b, context_after
           [BindBuffer GL_ELEMENT_ARRAY_BUFFER (IndexBuffer.m_id b)] g)).
Proof. reflexivity. Qed.

Lemma SetVertexBuffer_run (l : positive) (b : VertexBuffer.t) (v : t) h :
  vertex_buffers h !! l = Some b ->
  let calls := [BindVertexArray (m_id v);
                BindBuffer GL_ARRAY_BUFFER (VertexBuffer.m_id b)] in
  let code := error_code (gl h) (issued (gl h) ++ calls) in
  let v' := mk (m_id v) (Some l) (mp_ib v) (m_stride v) (m_attributes v) in
  SetVertexBuffer (Some l) (v, h)
  = match code with
    | GL_NO_ERROR => (Ok tt, (v', after_calls (calls ++ [GetError code]) h))
    | _ =>
        match index_buffer_at (mp_ib v) h with
        | Some _ =>
            (Throw (BufferException
                      (String.append "Failed to set vertex buffer: "
                         (String.append "Vertex buffer binding"
                            (String.append " failed: " (error_message code))))),
             (v', after_calls (calls ++ GetError code :: unbind_calls) h))
        | None =>
            (Undefined,
             (v', after_calls (calls ++ [GetError code; BindVertexArray 0]) h))
        end
    end.
Proof.
  intros Hb calls code v'.
  unfold SetVertexBuffer. cbn [is_null].
  unfold bind at 1. cbn [this zoom modify fst snd]. fold v'.
  assert (Hbody :
    (Bind ;;;
     (let* v0 := this get in env (call_vb (mp_vb v0) VertexBuffer.Bind)) ;;;
     gl_ (CheckGLError "Vertex buffer binding")) (v', h)
    = (check_outcome "Vertex buffer binding" code,
       (v', after_calls (calls ++ [GetError code]) h))).
  { unfold bind at 1. rewrite VertexArray_Bind_run.
    unfold bind at 1. unfold bind at 1. cbn [this zoom get fst snd].
    unfold env at 1, zoom. cbn [fst snd mp_vb v'].
    rewrite (call_vb_run l b) by done. rewrite VertexBuffer_Bind_run.
    cbn [fst snd]. rewrite insert_id by done.
    rewrite gl_check_run. cbn [gl issued after_calls].
    unfold after_calls, context_after, code, calls.
    cbn [gl issued gen_name error_code vertex_buffers index_buffers m_id v'].
    rewrite <- !app_assoc. reflexivity. }
  unfold try_catch. rewrite Hbody.
  assert (code = GL_NO_ERROR \/ code <> GL_NO_ERROR) as [Hc | Hc]
    by (destruct code; auto).
  - rewrite Hc. reflexivity.
  - rewrite check_outcome_Throw by done. cbn [is_GrafException].
    unfold bind. rewrite VertexArray_Unbind_run. cbn [mp_ib mp_vb v'].
    change (index_buffer_at (mp_ib v) (after_calls _ h))
      with (index_buffer_at (mp_ib v) h).
    change (vertex_buffer_at (Some l) (after_calls _ h))
      with (vertex_buffers h !! l). rewrite Hb.
    destruct (index_buffer_at (mp_ib v) h) as [bi|];
      rewrite after_calls_app, <- app_assoc; by destruct code.
Qed.

Lemma SetIndexBuffer_run (l : positive) (b : IndexBuffer.t) (v : t) h :
  index_buffers h !! l = Some b ->
  let calls := [BindVertexArray (m_id v);
                BindBuffer GL_ELEMENT_ARRAY_BUFFER (IndexBuffer.m_id b)] in
  let code := error_code (gl h) (issued (gl h) ++ calls) in
  let v' := mk (m_id v) (mp_vb v) (Some l) (m_stride v) (m_attributes v) in
  SetIndexBuffer (Some l) (v, h)
  = match code with
    | GL_NO_ERROR => (Ok tt, (v', after_calls (calls ++ [GetError code]) h))
    | _ =>
        match vertex_buffer_at (mp_vb v) h with
        | Some _ =>
            (Throw (BufferException
                      (String.append "Failed to set index buffer: "
                         (String.append "Index buffer binding"
                            (String.append " failed: " (error_message code))))),
             (v', after_calls (calls ++ GetError code :: unbind_calls) h))
        | None =>
            (Undefined,
             (v', after_calls
                    (calls ++ [GetError code; BindVertexArray 0;
                               BindBuffer GL_ELEMENT_ARRAY_BUFFER 0]) h))
        end
    end.
Proof.
  intros Hb calls code v'.
  unfold SetIndexBuffer. cbn [is_null].
  unfold bind at 1. cbn [this zoom modify fst snd]. fold v'.
  assert (Hbody :
    (Bind ;;;
     (let* v0 := this get in env (call_ib (mp_ib v0) IndexBuffer.Bind)) ;;;
     gl_ (CheckGLError "Index buffer binding")) (v', h)
    = (check_outcome "Index buffer binding" code,
       (v', after_calls (calls ++ [GetError code]) h))).
  { unfold bind at 1. rewrite VertexArray_Bind_run.
    unfold bind at 1. unfold bind at 1. cbn [this zoom get fst snd].
    unfold env at 1, zoom. cbn [fst snd mp_ib v'].
    rewrite (call_ib_run l b) by done. rewrite IndexBuffer_Bind_run.
    cbn [fst snd]. rewrite insert_id by done.
    rewrite gl_check_run. cbn [gl issued after_calls].
    unfold after_calls, context_after, code, calls.
    cbn [gl issued gen_name error_code vertex_buffers index_buffers m_id v'].
    rewrite <- !app_assoc. reflexivity. }
  unfold try_catch. rewrite Hbody.
  assert (code = GL_NO_ERROR \/ code <> GL_NO_ERROR) as [Hc | Hc]
    by (destruct code; auto).
  - rewrite Hc. reflexivity.
  - rewrite check_outcome_Throw by done. cbn [is_GrafException].
    unfold bind. rewrite VertexArray_Unbind_run. cbn [mp_ib mp_vb v'].
    change (vertex_buffer_at (mp_vb v) (after_calls _ h))
      with (vertex_buffer_at (mp_vb v) h).
    change (index_buffer_at (Some l) (after_calls _ h))
      with (index_buffers h !! l). rewrite Hb.
    destruct (vertex_buffer_at (mp_vb v) h) as [bv|];
      rewrite after_calls_app, <- app_assoc; by destruct code.
Qed.

Lemma SetVertexBuffer_dangling (l : positive) (v : t) h :
  vertex_buffers h !! l = None ->
  SetVertexBuffer (Some l) (v, h)
  = (Undefined,
     (mk (m_id v) (Some l) (mp_ib v) (m_stride v) (m_attributes v),
      after_calls [BindVertexArray (m_id v)] h)).
Proof.
  intros Hb. unfold SetVertexBuffer. cbn [is_null].
  unfold bind at 1. cbn [this zoom modify fst snd].
  unfold try_catch. unfold bind at 1. rewrite VertexArray_Bind_run.
  unfold bind at 1. unfold bind at 1. cbn [this zoom get fst snd].
  unfold env at 1, zoom. cbn [fst snd mp_vb].
  by rewrite call_vb_dangling.
Qed.

Lemma SetIndexBuffer_dangling (l : positive) (v : t) h :
  index_buffers h !! l = None ->
  SetIndexBuffer (Some l) (v, h)
  = (Undefined,
     (mk (m_id v) (mp_vb v) (Some l) (m_stride v) (m_attributes v),
      after_calls [BindVertexArray (m_id v)] h)).
Proof.
  intros Hb. unfold SetIndexBuffer. cbn [is_null].
  unfold bind at 1. cbn [this zoom modify fst snd].
  unfold try_catch. unfold bind at 1. rewrite VertexArray_Bind_run.
  unfold bind at 1. unfold bind at 1. cbn [this zoom get fst snd].
  unfold env at 1, zoom. cbn [fst snd mp_ib].
  by rewrite call_ib_dangling.
Qed.

(** X9.  [SetVertexBuffer] with a null pointer throws and changes
    nothing.  With a pointer to a buffer object it stores the pointer,
    binds the vertex array and the buffer and queries the error; it
    returns when no error is reported.  When an error is reported the
    handler calls [Unbind], which goes through the index buffer pointer
    of the vertex array: if that pointer points to a buffer, the three
    unbinding calls are issued and the invalid-state exception is thrown
    with the text of the error after "Failed to set vertex buffer: "; if
    it is null (as in a new vertex array) or dangling, the behaviour is
    undefined.  The new pointer stays stored in every case, and no buffer
    object is changed. *)
Theorem SetVertexBuffer_outcome (p : shared_ptr) (v : t) h :
  match p with
  | None =>
      SetVertexBuffer p (v, h)
      = (Throw (BufferException "Null vertex buffer"), (v, h))
  | Some l =>
      let v' := mk (m_id v) p (mp_ib v) (m_stride v) (m_attributes v) in
      match vertex_buffers h !! l with
      | None =>
          SetVertexBuffer p (v, h)
          = (Undefined, (v', after_calls [BindVertexArray (m_id v)] h))
      | Some b =>
          let calls := [BindVertexArray (m_id v);
                        BindBuffer GL_ARRAY_BUFFER (VertexBuffer.m_id b)] in
          let code := error_code (gl h) (issued (gl h) ++ calls) in
          SetVertexBuffer p (v, h)
          = match code with
            | GL_NO_ERROR =>
                (Ok tt, (v', after_calls (calls ++ [GetError code]) h))
            | _ =>
                match index_buffer_at (mp_ib v) h with
                | Some _ =>
                    (Throw (BufferException
                       (String.append
                          "Failed to set vertex buffer: Vertex buffer binding failed: "
                          (error_message code))),
                     (v', after_calls
                            (calls ++ GetError code :: unbind_calls) h))
                | None =>
                    (Undefined,
                     (v', after_calls
                            (calls ++ [GetError code; BindVertexArray 0]) h))
                end
            end
      end
  end.
Proof.
  destruct p as [l|]; [|done]. cbv zeta.
  destruct (vertex_buffers h !! l) as [b|] eqn:Hb.
  - by rewrite (SetVertexBuffer_run l b).
  - by apply SetVertexBuffer_dangling.
Qed.

(** X10.  The same for [SetIndexBuffer]; here the handler reaches the
    new index buffer first, so that on a reported error the behaviour is
    undefined when the vertex buffer pointer of the vertex array is null
    or dangling, after the vertex array and the element array buffer have
    been unbound. *)
Theorem SetIndexBuffer_outcome (p : shared_ptr) (v : t) h :
  match p with
  | None =>
      SetIndexBuffer p (v, h)
      = (Throw (BufferException "Null index buffer"), (v, h))
  | Some l =>
      let v' := mk (m_id v) (mp_vb v) p (m_stride v) (m_attributes v) in
      match index_buffers h !! l with
      | None =>
          SetIndexBuffer p (v, h)
          = (Undefined, (v', after_calls [BindVertexArray (m_id v)] h))
      | Some b =>
          let calls := [BindVertexArray (m_id v);
                        BindBuffer GL_ELEMENT_ARRAY_BUFFER
                          (IndexBuffer.m_id b)] in
          let code := error_code (gl h) (issued (gl h) ++ calls) in
          SetIndexBuffer p (v, h)
          = match code with
            | GL_NO_ERROR =>
                (Ok tt, (v', after_calls (calls ++ [GetError code]) h))
            | _ =>
                match vertex_buffer_at (mp_vb v) h with
                | Some _ =>
                    (Throw (BufferException
                       (String.append
                          "Failed to set index buffer: Index buffer binding failed: "
                          (error_message code))),
                     (v', after_calls
                            (calls ++ GetError code :: unbind_calls) h))
                | None =>
                    (Undefined,
                     (v', after_calls
                            (calls ++ [GetError code; BindVertexArray 0;
                                       BindBuffer GL_ELEMENT_ARRAY_BUFFER 0])
                            h))
                end
            end
      end
  end.
Proof.
  destruct p as [l|]; [|done]. cbv zeta.
  destruct (index_buffers h !! l) as [b|] eqn:Hb.
  - by rewrite (SetIndexBuffer_run l b).
  - by apply SetIndexBuffer_dangling.
Qed.

Lemma VertexBuffer_Release_run (b : VertexBuffer.t) g :
  VertexBuffer.Release (b, g)
  = (Ok tt,
     (VertexBuffer.mk 0,
      context_after
        (if decide (VertexBuffer.m_id b <> 0)
         then [DeleteBuffers (VertexBuffer.m_id b)] else []) g)).
Proof.
  destruct b as [id]. unfold VertexBuffer.Release, bind.
  cbn [this zoom get fst snd VertexBuffer.m_id].
  destruct (decide (id <> 0)) as [Hid | Hid]; [reflexivity|].
  apply dec_stable in Hid. subst id.
  unfold ret, context_after. rewrite app_nil_r. by destruct g.
Qed.

Lemma VertexArray_Release_run (l : positive) (b : VertexBuffer.t) (v : t) h :
  mp_vb v = Some l -> vertex_buffers h !! l = Some b ->
  Release (v, h)
  = (Ok tt,
     (v, mk_Buffers
           (context_after
              (DeleteVertexArrays (m_id v)
               :: if decide (VertexBuffer.m_id b <> 0)
                  then [DeleteBuffers (VertexBuffer.m_id b)] else [])
              (gl h))
           (<[l := VertexBuffer.mk 0]> (vertex_buffers h))
           (index_buffers h))).
Proof.
  intros Hp Hb. unfold Release, GL.glDeleteVertexArrays.
  unfold bind at 1. cbn [this zoom get fst snd].
  unfold bind. rewrite gl_issue_run, Hp.
  unfold env, zoom. cbn [fst snd].
  rewrite (call_vb_run l b) by done. rewrite VertexBuffer_Release_run.
  cbn [fst snd gl after_calls vertex_buffers index_buffers].
  unfold context_after. cbn [issued gen_name error_code].
  by rewrite <- app_assoc.
Qed.

(** X11.  [Release] of a vertex array whose vertex buffer pointer points
    to a buffer deletes the vertex array and then releases the vertex
    buffer: the buffer object is deleted when its handle is not zero and
    its handle becomes zero.  The index buffer is not released: no index
    buffer object changes and no other call is issued.  The handle of
    the vertex array is not reset, so that a second [Release] issues the
    same [glDeleteVertexArrays] again, and only that. *)
Theorem VertexArray_Release (l : positive) (b : VertexBuffer.t) (v : t) h :
  mp_vb v = Some l -> vertex_buffers h !! l = Some b ->
  let h1 := snd (snd (Release (v, h))) in
  Release (v, h) = (Ok tt, (v, h1))
  /\ issued (gl h1)
     = issued (gl h) ++ DeleteVertexArrays (m_id v)
         :: (if decide (VertexBuffer.m_id b <> 0)
             then [DeleteBuffers (VertexBuffer.m_id b)] else [])
  /\ vertex_buffers h1 = <[l := VertexBuffer.mk 0]> (vertex_buffers h)
  /\ index_buffers h1 = index_buffers h
  /\ Release (v, h1)
     = (Ok tt, (v, after_calls [DeleteVertexArrays (m_id v)] h1)).
Proof.
  intros Hp Hb h1. subst h1. rewrite (VertexArray_Release_run l b) by done.
  cbn [fst snd]. repeat split.
  rewrite (VertexArray_Release_run l (VertexBuffer.mk 0)); [|done|].
  - cbn [gl vertex_buffers index_buffers VertexBuffer.m_id].
    rewrite decide_False by (intros Hne; by apply Hne).
    by rewrite insert_insert_eq.
  - cbn. by rewrite lookup_insert_eq.
Qed.

(** X12.  [Release] of a vertex array without vertex buffer (a null or
    dangling pointer, as in a new vertex array) has deleted the vertex
    array when it reaches the undefined call through the pointer. *)
Theorem VertexArray_Release_without_buffer (v : t) h :
  vertex_buffer_at (mp_vb v) h = None ->
  Release (v, h)
  = (Undefined, (v, after_calls [DeleteVertexArrays (m_id v)] h)).
Proof.
  intros Hb. unfold Release, GL.glDeleteVertexArrays.
  unfold bind at 1. cbn [this zoom get fst snd].
  unfold bind. rewrite gl_issue_run.
  unfold env, zoom. cbn [fst snd].
  by rewrite call_vb_dangling.
Qed.

Lemma gl_glGenVertexArrays_run (id : Z) (v : t) h :
  gl_ (GL.glGenVertexArrays id) (v, h)
  = (Ok (next_name (gl h) id),
     (v, after_calls [GenVertexArrays (next_name (gl h) id)] h)).
Proof. reflexivity. Qed.

Lemma VertexArray_Create_run (v : t) h :
  let name := next_name (gl h) (m_id v) in
  let code := error_code (gl h) (issued (gl h) ++ [GenVertexArrays name]) in
  Create (v, h)
  = if decide (name = 0)
    then (Throw (BufferException "Failed to generate Vertex Array Object"),
          (mk 0 (mp_vb v) (mp_ib v) (m_stride v) (m_attributes v),
           after_calls [GenVertexArrays 0] h))
    else (check_outcome "VAO generation" code,
          (mk name (mp_vb v) (mp_ib v)
             (match code with GL_NO_ERROR => 0 | _ => m_stride v end)
             (m_attributes v),
           after_calls [GenVertexArrays name; GetError code] h)).
Proof.
  intros name code. unfold Create.
  unfold bind at 1. cbn [this zoom get fst snd].
  unfold bind at 1. rewrite gl_glGenVertexArrays_run. fold name.
  unfold bind at 1. cbn [this zoom put fst snd].
  destruct (decide (name = 0)) as [Hz | Hnz].
  - rewrite Hz. reflexivity.
  - unfold bind. rewrite gl_check_run, after_calls_app. fold code.
    change (error_code (gl (after_calls _ h)) (issued (gl (after_calls _ h))))
      with code.
    by destruct code.
Qed.

(** X13.  [Create] of a vertex array returns exactly when the driver
    generates a non-zero name and reports no error.  It then has set the
    stride to zero but kept the attribute list and the buffer pointers:
    for a vertex array that already has attributes, the stride is no
    longer the sum of their sizes.  When [Create] throws, the stride is
    the old one; the handle is the generated name in every case, and the
    vertex array the old handle named is not deleted. *)
Theorem VertexArray_Create_cases (v : t) h :
  let name := next_name (gl h) (m_id v) in
  let code := error_code (gl h) (issued (gl h) ++ [GenVertexArrays name]) in
  let r := fst (Create (v, h)) in
  let v1 := fst (snd (Create (v, h))) in
  let h1 := snd (snd (Create (v, h))) in
  (r = Ok tt <-> name <> 0 /\ code = GL_NO_ERROR)
  /\ m_id v1 = name
  /\ mp_vb v1 = mp_vb v /\ mp_ib v1 = mp_ib v
  /\ m_attributes v1 = m_attributes v
  /\ (r = Ok tt -> m_stride v1 = 0)
  /\ (r = Ok tt -> m_attributes v <> [] ->
      m_stride v1 <> total_size (m_attributes v1))
  /\ (r <> Ok tt -> m_stride v1 = m_stride v)
  /\ h1 = after_calls
            (GenVertexArrays name
             :: if decide (name = 0) then [] else [GetError code]) h.
Proof.
  intros name code r v1 h1. subst r v1 h1. rewrite VertexArray_Create_run.
  fold name code.
  destruct (decide (name = 0)) as [Hz | Hnz]; cbn [fst snd].
  - rewrite Hz. repeat split; try done. by intros [? _].
  - cbn [m_id mp_vb mp_ib m_stride m_attributes].
    split; [rewrite check_outcome_Ok; tauto|].
    repeat split; try done.
    + intros Hok. apply check_outcome_Ok in Hok. by rewrite Hok.
    + intros Hok Hne. apply check_outcome_Ok in Hok. rewrite Hok.
      destruct (m_attributes v) as [|kind rest]; [done|].
      cbn [total_size].
      pose proof (attribute_size_bounds kind).
      pose proof (total_size_length rest). lia.
    + intros Hbad. destruct code; done.
Qed.
End VertexArrayOutcomes.

Section VertexArrayExamples.
Import VertexArrayObject.

(** X11 at a vertex array whose vertex buffer has the handle 7. *)
Lemma VertexArray_Release_witness :
  let l := 1%positive in
  let b := VertexBuffer.mk 7 in
  let v := example_bound_array in
  let h := example_bound_buffers in
  let h1 := snd (snd (Release (v, h))) in
  Release (v, h) = (Ok tt, (v, h1))
  /\ issued (gl h1)
     = issued (gl h) ++ DeleteVertexArrays (m_id v)
         :: (if decide (VertexBuffer.m_id b <> 0)
             then [DeleteBuffers (VertexBuffer.m_id b)] else [])
  /\ vertex_buffers h1 = <[l := VertexBuffer.mk 0]> (vertex_buffers h)
  /\ index_buffers h1 = index_buffers h
  /\ Release (v, h1)
     = (Ok tt, (v, after_calls [DeleteVertexArrays (m_id v)] h1)).
Proof.
  apply (VertexArray_Release 1 (VertexBuffer.mk 7) example_bound_array
           example_bound_buffers); reflexivity.
Defined.

(** X12 at a vertex array without buffers. *)
Lemma VertexArray_Release_without_buffer_witness :
  let v := example_vertex_array in
  let h := example_buffers in
  Release (v, h)
  = (Undefined, (v, after_calls [DeleteVertexArrays (m_id v)] h)).
Proof.
  apply (VertexArray_Release_without_buffer example_vertex_array
           example_buffers); reflexivity.
Defined.
End VertexArrayExamples.

(** ** VertexArrayObject: what the methods leave alone *)

Section Frame.
Context {S X : Type} (f : S -> X).

Lemma preserves_bind {A B} (m : M S A) (k : A -> M S B) :
  preserves f m -> (forall a, preserves f (k a)) -> preserves f (bind m k).
Proof.
  intros Hm Hk s. unfold bind. specialize (Hm s).
  destruct (m s) as [[a | e |] s1]; cbn [snd] in *; try done.
  by rewrite Hk.
Qed.

Lemma preserves_try_catch {A} (c : exn -> bool) (m : M S A)
    (hdl : exn -> M S A) :
  preserves f m -> (forall e, preserves f (hdl e)) ->
  preserves f (try_catch c m hdl).
Proof.
  intros Hm Hh s. unfold try_catch. specialize (Hm s).
  destruct (m s) as [[a | e |] s1]; cbn [snd] in *; try done.
  destruct (c e); [|done]. by rewrite Hh.
Qed.

Lemma preserves_throw {A} (e : exn) : preserves f (throw (A := A) e).
Proof. by intros s. Qed.

Lemma preserves_ret {A} (a : A) : preserves f (ret a).
Proof. by intros s. Qed.
End Frame.

Section VertexArrayFrame.
Context {Blob : Type}.
Import VertexArrayObject.
Abbreviation VSt := (t * Buffers Blob)%type.

Lemma preserves_this_get {X} (f : VSt -> X) : preserves f (this get).
Proof. by intros [v h]. Qed.

Lemma objects_this {A} (m : M t A) :
  preserves (buffer_objects (Blob := Blob)) (this m).
Proof. intros [v h]. unfold this, zoom. cbn [fst snd]. by destruct (m v). Qed.

Lemma objects_gl {A} (m : M (GLContext Blob) A) :
  preserves buffer_objects (gl_ m).
Proof.
  intros [v h]. unfold gl_, env, glcall, zoom. cbn [fst snd].
  by destruct (m (gl h)).
Qed.

Lemma self_env {A} (m : M (Buffers Blob) A) : preserves fst (env (T := t) m).
Proof. intros [v h]. unfold env, zoom. cbn [fst snd]. by destruct (m h). Qed.

(** A buffer method that changes no field of the buffer. *)
Lemma objects_call_vb {A} (p : shared_ptr)
    (m : M (VertexBuffer.t * GLContext Blob) A) :
  preserves fst m -> preserves buffer_objects (env (T := t) (call_vb p m)).
Proof.
  intros Hm [v h]. unfold env, zoom. cbn [fst snd].
  destruct p as [l|]; [|done]. unfold call_vb, zoom.
  destruct (vertex_buffers h !! l) as [b|] eqn:Hb; [|done].
  specialize (Hm (b, gl h)).
  destruct (m (b, gl h)) as [r [b' g']]. cbn [fst snd] in *. subst b'.
  unfold buffer_objects. cbn. by rewrite insert_id.
Qed.

Lemma objects_call_ib {A} (p : shared_ptr)
    (m : M (IndexBuffer.t * GLContext Blob) A) :
  preserves fst m -> preserves buffer_objects (env (T := t) (call_ib p m)).
Proof.
  intros Hm [v h]. unfold env, zoom. cbn [fst snd].
  destruct p as [l|]; [|done]. unfold call_ib, zoom.
  destruct (index_buffers h !! l) as [b|] eqn:Hb; [|done].
  specialize (Hm (b, gl h)).
  destruct (m (b, gl h)) as [r [b' g']]. cbn [fst snd] in *. subst b'.
  unfold buffer_objects. cbn. by rewrite insert_id.
Qed.

Lemma self_loop (stride : Z) (kinds : AttributeList) : forall i location,
  preserves fst (ActivateAttributes_loop (Blob := Blob) stride i location kinds).
Proof.
  induction kinds as [|kind kinds IH]; intros i location.
  - apply preserves_ret.
  - cbn [ActivateAttributes_loop].
    repeat (apply preserves_bind; [apply self_env | intros _]). apply IH.
Qed.

Lemma objects_loop (stride : Z) (kinds : AttributeList) : forall i location,
  preserves buffer_objects
    (ActivateAttributes_loop (Blob := Blob) stride i location kinds).
Proof.
  induction kinds as [|kind kinds IH]; intros i location.
  - apply preserves_ret.
  - cbn [ActivateAttributes_loop].
    repeat (apply preserves_bind; [apply objects_gl | intros _]). apply IH.
Qed.

Ltac frame :=
  repeat first
    [ apply preserves_ret | apply preserves_throw | apply preserves_this_get
    | apply objects_gl | apply objects_this | apply self_env
    | apply objects_call_vb; by intros [? ?]
    | apply objects_call_ib; by intros [? ?]
    | apply objects_loop | apply self_loop
    | apply preserves_try_catch; [|intros ?]
    | apply preserves_bind; [|intros ?] ].

(** X14.  What the methods of a vertex array leave alone, whatever their
    result (return, exception or undefined behaviour): every method but
    [Release] leaves every vertex buffer object and every index buffer
    object as it is; [Release] leaves every index buffer object as it is;
    and [Bind], [Unbind], [Draw], [ActivateAttributes] and [Release]
    change no field of the vertex array itself. *)
Theorem VertexArray_frame :
  (preserves buffer_objects (Create (Blob := Blob))
   /\ preserves buffer_objects (Bind (Blob := Blob))
   /\ preserves buffer_objects (Unbind (Blob := Blob))
   /\ (forall p, preserves buffer_objects (SetVertexBuffer (Blob := Blob) p))
   /\ (forall p, preserves buffer_objects (SetIndexBuffer (Blob := Blob) p))
   /\ preserves buffer_objects (Draw (Blob := Blob))
   /\ (forall type,
         preserves buffer_objects (AddVertexAttribute (Blob := Blob) type))
   /\ preserves buffer_objects (ActivateAttributes (Blob := Blob)))
  /\ preserves (fun s => index_buffers (snd s)) (Release (Blob := Blob))
  /\ (preserves fst (Bind (Blob := Blob))
      /\ preserves fst (Unbind (Blob := Blob))
      /\ preserves fst (Draw (Blob := Blob))
      /\ preserves fst (ActivateAttributes (Blob := Blob))
      /\ preserves fst (Release (Blob := Blob))).
Proof.
  assert (Hunbind : preserves buffer_objects (Unbind (Blob := Blob))).
  { unfold Unbind. frame. }
  assert (Hbind : preserves buffer_objects (Bind (Blob := Blob))).
  { unfold Bind. frame. }
  split; [|split].
  - split; [|split; [done|split; [done|split; [|split; [|split; [|split]]]]]].
    + unfold Create. apply preserves_bind; [frame | intros v0].
      apply preserves_bind; [frame | intros id].
      apply preserves_bind; [frame | intros _].
      destruct (decide (id = 0)); frame.
    + intros p. unfold SetVertexBuffer. destruct (is_null p); frame; done.
    + intros p. unfold SetIndexBuffer. destruct (is_null p); frame; done.
    + unfold Draw. apply preserves_bind; [frame | intros v0].
      destruct (is_null (mp_ib v0)); frame.
    + intros type. unfold AddVertexAttribute. frame.
    + unfold ActivateAttributes. apply preserves_bind; [frame | intros v0].
      destruct (m_attributes v0); frame.
  - intros [v h]. unfold Release, bind, GL.glDeleteVertexArrays.
    cbn [this zoom get fst snd]. rewrite gl_issue_run.
    unfold env, zoom. cbn [fst snd].
    destruct (mp_vb v) as [l|]; [|done]. unfold call_vb, zoom.
    cbn [after_calls vertex_buffers].
    destruct (vertex_buffers h !! l) as [b|]; [|done].
    by destruct (VertexBuffer.Release _) as [r [b' g']].
  - split; [|split; [|split; [|split]]].
    + unfold Bind. frame.
    + unfold Unbind. frame.
    + unfold Draw. apply preserves_bind; [frame | intros v0].
      destruct (is_null (mp_ib v0)); frame.
    + unfold ActivateAttributes. apply preserves_bind; [frame | intros v0].
      destruct (m_attributes v0); frame.
    + unfold Release. frame.
Qed.
End VertexArrayFrame.

(** ** ShapeFactory: createVAOFromData *)

Lemma bind_Ok_inv {S A B} (m : M S A) (k : A -> M S B) (s s' : S) (b : B) :
  bind m k s = (Ok b, s') ->
  exists a s1, m s = (Ok a, s1) /\ k a s1 = (Ok b, s').
Proof.
  unfold bind. destruct (m s) as [[a | e |] s1]; try done. by eauto.
Qed.

Section CreateVAO.
Context {F : Type}.
Implicit Types (w : World F) (h : Buffers (Data F)).
Import VertexArrayObject.

Lemma call_va_run {A} (l : positive) (v : t)
    (m : M (t * Buffers (Data F)) A) w :
  vertex_arrays w !! l = Some v ->
  call_va (Some l) m w
  = (fst (m (v, buffers w)),
     mk_World (snd (snd (m (v, buffers w))))
       (<[l := fst (snd (m (v, buffers w)))]> (vertex_arrays w))).
Proof.
  intros Hv. unfold call_va, zoom. rewrite Hv.
  by destruct (m (v, buffers w)) as [r [v' h']].
Qed.

Lemma in_buffers_run {A} (m : M (Buffers (Data F)) A) w :
  in_buffers m w
  = (fst (m (buffers w)), mk_World (snd (m (buffers w))) (vertex_arrays w)).
Proof. unfold in_buffers, zoom. by destruct (m (buffers w)). Qed.

Lemma VertexBuffer_Create_returns data size (b : VertexBuffer.t)
    (g : GLContext (Data F)) st :
  VertexBuffer.Create data size (b, g) = (Ok tt, st) ->
  let name := next_name g (VertexBuffer.m_id b) in
  0 < size /\ name <> 0
  /\ st = (VertexBuffer.mk name,
           context_after
             (upload_calls GL_ARRAY_BUFFER name size data
              ++ [GetError GL_NO_ERROR]) g).
Proof.
  intros Hrun name.
  assert (data <> None /\ 0 < size) as [Hd Hs].
  { unfold VertexBuffer.Create in Hrun.
    destruct data; cbn [is_null orb] in *; [|done].
    destruct (size <=? 0) eqn:Hle; [done|]. apply Z.leb_gt in Hle. done. }
  rewrite VertexBuffer_Create_run in Hrun by done. fold name in Hrun.
  destruct (decide (name = 0)) as [Hz | Hnz]; [done|].
  injection Hrun as Hcode <-. apply check_outcome_Ok in Hcode.
  by rewrite Hcode.
Qed.

Lemma IndexBuffer_Create_returns data size (b : IndexBuffer.t)
    (g : GLContext (Data F)) st :
  IndexBuffer.Create data size (b, g) = (Ok tt, st) ->
  let name := next_name g (IndexBuffer.m_id b) in
  0 < size /\ name <> 0
  /\ st = (IndexBuffer.mk name (int_div size 4),
           context_after
             (upload_calls GL_ELEMENT_ARRAY_BUFFER name size data
              ++ [GetError GL_NO_ERROR]) g).
Proof.
  intros Hrun name.
  assert (data <> None /\ 0 < size) as [Hd Hs].
  { unfold IndexBuffer.Create in Hrun.
    destruct data; cbn [is_null orb] in *; [|done].
    destruct (size <=? 0) eqn:Hle; [done|]. apply Z.leb_gt in Hle. done. }
  rewrite IndexBuffer_Create_run in Hrun by done. fold name in Hrun.
  destruct (decide (name = 0)) as [Hz | Hnz]; [done|].
  injection Hrun as Hcode <-. apply check_outcome_Ok in Hcode.
  by rewrite Hcode.
Qed.

Lemma fresh_vertex_array w :
  vertex_arrays w !! fresh (dom (vertex_arrays w)) = None.
Proof. apply not_elem_of_dom, is_fresh. Qed.

Lemma fresh_vertex_buffer h :
  vertex_buffers h !! fresh (dom (vertex_buffers h)) = None.
Proof. apply not_elem_of_dom, is_fresh. Qed.

Lemma fresh_index_buffer h :
  index_buffers h !! fresh (dom (index_buffers h)) = None.
Proof. apply not_elem_of_dom, is_fresh. Qed.

Lemma make_shared_VertexArrayObject_run w :
  make_shared_VertexArrayObject w
  = (Ok (Some (fresh (dom (vertex_arrays w)))),
     mk_World (buffers w)
       (<[fresh (dom (vertex_arrays w)) := mk 0 None None 0 []]>
          (vertex_arrays w))).
Proof. reflexivity. Qed.

Lemma make_shared_VertexBuffer_run w :
  make_shared_VertexBuffer w
  = (Ok (Some (fresh (dom (vertex_buffers (buffers w))))),
     mk_World
       (mk_Buffers (gl (buffers w))
          (<[fresh (dom (vertex_buffers (buffers w))) := VertexBuffer.mk 0]>
             (vertex_buffers (buffers w)))
          (index_buffers (buffers w)))
       (vertex_arrays w)).
Proof. reflexivity. Qed.

Lemma make_shared_IndexBuffer_run w :
  make_shared_IndexBuffer w
  = (Ok (Some (fresh (dom (index_buffers (buffers w))))),
     mk_World
       (mk_Buffers (gl (buffers w)) (vertex_buffers (buffers w))
          (<[fresh (dom (index_buffers (buffers w))) := IndexBuffer.mk 0 0]>
             (index_buffers (buffers w))))
       (vertex_arrays w)).
Proof. reflexivity. Qed.

Lemma createVAOFromData_empty_run (vertices : VertexList F)
    (indices : IndexList) w :
  vertices = [] \/ indices = [] ->
  exists vas vbs ibs,
    ShapeFactory.createVAOFromData vertices indices w
    = (Throw (BufferException
                "Empty vertex or index data in createVAOFromData"),
       mk_World (mk_Buffers (gl (buffers w)) vbs ibs) vas).
Proof.
  intros Hempty.
  assert (Hguard : vector_empty vertices || vector_empty indices = true).
  { destruct Hempty as [-> | ->]; [done|]. by destruct vertices. }
  unfold ShapeFactory.createVAOFromData.
  unfold bind at 1. rewrite make_shared_VertexArrayObject_run.
  unfold bind at 1. rewrite make_shared_VertexBuffer_run.
  unfold bind at 1. rewrite make_shared_IndexBuffer_run.
  rewrite Hguard. unfold throw. by eauto.
Qed.

(** X15.  [createVAOFromData] with an empty vertex list or an empty index
    list throws the invalid-state exception of empty data before any
    OpenGL call: the context is the one it was. *)
Theorem createVAOFromData_empty (vertices : VertexList F) (indices : IndexList)
    w :
  vertices = [] \/ indices = [] ->
  let r := ShapeFactory.createVAOFromData vertices indices w in
  fst r = Throw (BufferException
                   "Empty vertex or index data in createVAOFromData")
  /\ gl (buffers (snd r)) = gl (buffers w).
Proof.
  intros Hempty.
  destruct (createVAOFromData_empty_run vertices indices w Hempty)
    as (vas & vbs & ibs & Hrun).
  cbv zeta. by rewrite Hrun.
Qed.

Lemma call_va_Ok_inv {A} (l : positive) (m : M (t * Buffers (Data F)) A)
    w w' (a : A) :
  call_va (Some l) m w = (Ok a, w') ->
  exists v v' h',
    vertex_arrays w !! l = Some v
    /\ m (v, buffers w) = (Ok a, (v', h'))
    /\ w' = mk_World h' (<[l := v']> (vertex_arrays w)).
Proof.
  unfold call_va, zoom.
  destruct (vertex_arrays w !! l) as [v|]; [|done].
  destruct (m (v, buffers w)) as [r [v' h']] eqn:Hm.
  intros Hrun. simplify_eq. by eauto 6.
Qed.

Lemma VertexArray_Create_returns (v v' : t) h h' :
  Create (v, h) = (Ok tt, (v', h')) ->
  let name := next_name (gl h) (m_id v) in
  name <> 0
  /\ v' = mk name (mp_vb v) (mp_ib v) 0 (m_attributes v)
  /\ h' = after_calls [GenVertexArrays name; GetError GL_NO_ERROR] h.
Proof.
  rewrite VertexArray_Create_run. intros Hrun name. fold name in Hrun.
  destruct (decide (name = 0)) as [Hz | Hnz]; [done|].
  injection Hrun as Hcode <- <-. apply check_outcome_Ok in Hcode.
  by rewrite Hcode.
Qed.

Lemma SetVertexBuffer_returns (l : positive) (b : VertexBuffer.t) (v v' : t) h h' :
  vertex_buffers h !! l = Some b ->
  SetVertexBuffer (Some l) (v, h) = (Ok tt, (v', h')) ->
  v' = mk (m_id v) (Some l) (mp_ib v) (m_stride v) (m_attributes v)
  /\ h' = after_calls
            [BindVertexArray (m_id v);
             BindBuffer GL_ARRAY_BUFFER (VertexBuffer.m_id b);
             GetError GL_NO_ERROR] h.
Proof.
  intros Hb. rewrite (SetVertexBuffer_run l b) by done.
  destruct (error_code _ _) eqn:Hcode;
    try (destruct (index_buffer_at _ _); done).
  intros Hrun. by simplify_eq.
Qed.

Lemma SetIndexBuffer_returns (l : positive) (b : IndexBuffer.t) (v v' : t) h h' :
  index_buffers h !! l = Some b ->
  SetIndexBuffer (Some l) (v, h) = (Ok tt, (v', h')) ->
  v' = mk (m_id v) (mp_vb v) (Some l) (m_stride v) (m_attributes v)
  /\ h' = after_calls
            [BindVertexArray (m_id v);
             BindBuffer GL_ELEMENT_ARRAY_BUFFER (IndexBuffer.m_id b);
             GetError GL_NO_ERROR] h.
Proof.
  intros Hb. rewrite (SetIndexBuffer_run l b) by done.
  destruct (error_code _ _) eqn:Hcode;
    try (destruct (vertex_buffer_at _ _); done).
  intros Hrun. by simplify_eq.
Qed.

Lemma ActivateAttributes_calls (v : t) h :
  m_stride v = 20 -> m_attributes v = [Position; Texture] ->
  exists r calls,
    ActivateAttributes (v, h) = (r, (v, after_calls calls h))
    /\ (no_error (gl h) -> r = Ok tt).
Proof.
  intros Hs Ha. unfold ActivateAttributes, bind.
  cbn [this zoom get fst snd]. rewrite Ha, Hs.
  destruct (ActivateAttributes_loop_spec 20 [Position; Texture] 0 0 v h)
    as (r & calls & Hrun & _ & _ & Hok);
    try (unfold INT_MAX; cbn; lia).
  exists r, calls. by rewrite Hrun.
Qed.


Lemma VertexArray_Unbind_returns (v v' : t) h h' :
  Unbind (v, h) = (Ok tt, (v', h')) ->
  v' = v /\ h' = after_calls unbind_calls h.
Proof.
  rewrite VertexArray_Unbind_run.
  destruct (index_buffer_at _ _); [|done].
  destruct (vertex_buffer_at _ _); [|done].
  intros Hrun. by simplify_eq.
Qed.

Lemma createVAOFromData_state (vertices : VertexList F)
    (indices : IndexList) w w' (p : shared_ptr) :
  ShapeFactory.createVAOFromData vertices indices w = (Ok p, w') ->
  let l := fresh (dom (vertex_arrays w)) in
  let lv := fresh (dom (vertex_buffers (buffers w))) in
  let li := fresh (dom (index_buffers (buffers w))) in
  vertices <> [] /\ indices <> []
  /\ exists na nv ni : Z,
       na <> 0 /\ nv <> 0 /\ ni <> 0
       /\ p = Some l
       /\ vertex_arrays w'
          = <[l := mk na (Some lv) (Some li) 20 [Position; Texture]]>
              (vertex_arrays w)
       /\ vertex_buffers (buffers w')
          = <[lv := VertexBuffer.mk nv]> (vertex_buffers (buffers w))
       /\ index_buffers (buffers w')
          = <[li := IndexBuffer.mk ni
                      (int_div (int_wrap (size_wrap (4 * vector_size indices)))
                         4)]>
              (index_buffers (buffers w))
       /\ gen_name (gl (buffers w')) = gen_name (gl (buffers w))
       /\ error_code (gl (buffers w')) = error_code (gl (buffers w)).
Proof.
  unfold ShapeFactory.createVAOFromData.
  unfold bind at 1. rewrite make_shared_VertexArrayObject_run.
  unfold bind at 1. rewrite make_shared_VertexBuffer_run.
  unfold bind at 1. rewrite make_shared_IndexBuffer_run.
  cbn [buffers vertex_arrays gl vertex_buffers index_buffers].
  set (l := fresh (dom (vertex_arrays w))).
  set (lv := fresh (dom (vertex_buffers (buffers w)))).
  set (li := fresh (dom (index_buffers (buffers w)))).
  destruct (vector_empty vertices || vector_empty indices) eqn:Hguard;
    [done|].
  apply orb_false_iff in Hguard as [Hv Hi].
  intros Hrun; intros.
  split; [by destruct vertices|]. split; [by destruct indices|].
  apply bind_Ok_inv in Hrun as ([] & w1 & Hvb & Hrun).
  rewrite in_buffers_run in Hvb. cbn [buffers vertex_arrays] in Hvb.
  rewrite (call_vb_run lv (VertexBuffer.mk 0)) in Hvb
    by (cbn; by rewrite lookup_insert_eq).
  cbn [gl vertex_buffers index_buffers fst snd] in Hvb.
  destruct (VertexBuffer.Create _ _ _) as [rv stv] eqn:Hcv.
  cbn [fst snd] in Hvb. injection Hvb as -> <-.
  apply VertexBuffer_Create_returns in Hcv as (Hsv & Hnv & ->).
  cbn [fst snd VertexBuffer.m_id] in *.
  apply bind_Ok_inv in Hrun as ([] & w2 & Hib & Hrun).
  rewrite in_buffers_run in Hib. cbn [buffers vertex_arrays] in Hib.
  rewrite (call_ib_run li (IndexBuffer.mk 0 0)) in Hib
    by (cbn; by rewrite lookup_insert_eq).
  cbn [gl vertex_buffers index_buffers fst snd] in Hib.
  destruct (IndexBuffer.Create _ _ _) as [ri sti] eqn:Hci.
  cbn [fst snd] in Hib. injection Hib as -> <-.
  apply IndexBuffer_Create_returns in Hci as (Hsi & Hni & ->).
  cbn [fst snd IndexBuffer.m_id IndexBuffer.m_IndexCount] in *.
  rewrite !insert_insert_eq in Hrun.
  cbn [is_null orb] in Hrun.
  apply try_catch_Ok_inv in Hrun; [|by intros].
  apply bind_Ok_inv in Hrun as ([] & w3 & Hstep & Hrun).
  apply call_va_Ok_inv in Hstep as (v0 & v1 & h1 & Hv0 & Hstep & ->).
  cbn [vertex_arrays buffers] in Hv0, Hstep.
  rewrite lookup_insert_eq in Hv0. injection Hv0 as <-.
  apply VertexArray_Create_returns in Hstep as (Hna & -> & ->).
  cbn [m_id mp_vb mp_ib m_attributes gl] in *.
  apply bind_Ok_inv in Hrun as ([] & w4 & Hstep & Hrun).
  apply call_va_Ok_inv in Hstep as (v0 & v1 & h1 & Hv0 & Hstep & ->).
  cbn [vertex_arrays buffers] in Hv0, Hstep.
  rewrite lookup_insert_eq in Hv0. injection Hv0 as <-.
  eapply SetVertexBuffer_returns in Hstep; [|apply lookup_insert_eq].
  destruct Hstep as [-> ->].
  cbn [m_id mp_vb mp_ib m_attributes m_stride VertexBuffer.m_id] in *.
  apply bind_Ok_inv in Hrun as ([] & w5 & Hstep & Hrun).
  apply call_va_Ok_inv in Hstep as (v0 & v1 & h1 & Hv0 & Hstep & ->).
  cbn [vertex_arrays buffers] in Hv0, Hstep.
  rewrite lookup_insert_eq in Hv0. injection Hv0 as <-.
  eapply SetIndexBuffer_returns in Hstep; [|apply lookup_insert_eq].
  destruct Hstep as [-> ->].
  cbn [m_id mp_vb mp_ib m_attributes m_stride IndexBuffer.m_id] in *.
  apply bind_Ok_inv in Hrun as ([] & w6 & Hstep & Hrun).
  apply call_va_Ok_inv in Hstep as (v0 & v1 & h1 & Hv0 & Hstep & ->).
  cbn [vertex_arrays buffers] in Hv0, Hstep.
  rewrite lookup_insert_eq in Hv0. injection Hv0 as <-.
  injection Hstep as <- <-.
  apply bind_Ok_inv in Hrun as ([] & w7 & Hstep & Hrun).
  apply call_va_Ok_inv in Hstep as (v0 & v1 & h1 & Hv0 & Hstep & ->).
  cbn [vertex_arrays buffers] in Hv0, Hstep.
  rewrite lookup_insert_eq in Hv0. injection Hv0 as <-.
  injection Hstep as <- <-.
  apply bind_Ok_inv in Hrun as ([] & w8 & Hstep & Hrun).
  apply call_va_Ok_inv in Hstep as (v0 & v1 & h1 & Hv0 & Hstep & ->).
  cbn [vertex_arrays buffers] in Hv0, Hstep.
  rewrite lookup_insert_eq in Hv0. injection Hv0 as <-.
  match type of Hstep with
  | ActivateAttributes (?v, ?h) = _ =>
      destruct (ActivateAttributes_calls v h) as (r & calls & Hact & _);
        [by vm_compute | done |]
  end.
  rewrite Hact in Hstep. injection Hstep as -> <- <-.
  apply bind_Ok_inv in Hrun as ([] & w9 & Hstep & Hrun).
  apply call_va_Ok_inv in Hstep as (v0 & v2 & h2 & Hv0 & Hstep & ->).
  cbn [vertex_arrays buffers] in Hv0, Hstep.
  rewrite lookup_insert_eq in Hv0. injection Hv0 as <-.
  apply VertexArray_Unbind_returns in Hstep as [-> ->].
  injection Hrun as <- <-.
  cbn [vertex_arrays buffers after_calls vertex_buffers index_buffers gl].
  rewrite !insert_insert_eq.
  eexists _, _, _. split; [exact Hna|]. split; [exact Hnv|].
  split; [exact Hni|]. repeat split; reflexivity.
Qed.

Lemma index_count_fits (indices : IndexList) :
  4 * Z.of_nat (length indices) <= INT_MAX ->
  int_div (int_wrap (size_wrap (4 * vector_size indices))) 4
  = Z.of_nat (length indices).
Proof.
  intros Hfit. unfold vector_size.
  rewrite (size_wrap_small (Z.of_nat (length indices)))
    by (unfold INT_MAX in Hfit; lia).
  rewrite size_wrap_small by (unfold INT_MAX in Hfit; lia).
  rewrite int_wrap_small by (unfold INT_MIN, INT_MAX in *; lia).
  unfold int_div. rewrite Z.mul_comm, Z.quot_mul by lia.
  apply int_wrap_small. unfold INT_MIN, INT_MAX in *. lia.
Qed.

(** [Draw] on the vertex array [createVAOFromData] has returned. *)
Lemma Draw_created (vertices : VertexList F) (indices : IndexList) w w'
    (p : shared_ptr) :
  ShapeFactory.createVAOFromData vertices indices w = (Ok p, w') ->
  4 * Z.of_nat (length indices) <= INT_MAX ->
  exists (l : positive) (v : t),
    p = Some l /\ vertex_arrays w !! l = None
    /\ vertex_arrays w' !! l = Some v
    /\ Draw (v, buffers w')
       = (check_outcome "Draw call"
            (error_code (gl (buffers w'))
               (issued (gl (buffers w'))
                ++ [DrawElements GL_TRIANGLES (Z.of_nat (length indices))
                      GL_UNSIGNED_INT 0])),
          (v, after_calls
                [DrawElements GL_TRIANGLES (Z.of_nat (length indices))
                   GL_UNSIGNED_INT 0;
                 GetError
                   (error_code (gl (buffers w'))
                      (issued (gl (buffers w'))
                       ++ [DrawElements GL_TRIANGLES
                             (Z.of_nat (length indices)) GL_UNSIGNED_INT 0]))]
                (buffers w'))).
Proof.
  intros Hrun Hfit.
  destruct (createVAOFromData_state vertices indices w w' p Hrun)
    as (_ & _ & na & nv & ni & _ & _ & _ & -> & Hvas & _ & Hibs & _ & _).
  rewrite (index_count_fits indices Hfit) in Hibs.
  eexists _, _. split; [reflexivity|]. split; [apply fresh_vertex_array|].
  split; [rewrite Hvas; apply lookup_insert_eq|].
  eapply (Draw_run _ (IndexBuffer.mk ni (Z.of_nat (length indices))));
    [reflexivity|].
  rewrite Hibs. apply lookup_insert_eq.
Qed.

(** X16.  Whenever [createVAOFromData] returns, the two lists were not
    empty and the result points to a new vertex array object with a
    non-zero handle, the stride 20 and the attributes [Position] and
    [Texture], whose buffer pointers point to a new vertex buffer and a
    new index buffer with non-zero handles; the objects that existed are
    as they were.  When the byte size of the indices fits an [int], the
    index buffer counts as many indices as the list has, and [Draw] on
    the vertex array draws that many. *)
Theorem createVAOFromData_returns (vertices : VertexList F)
    (indices : IndexList) w w' (p : shared_ptr) :
  ShapeFactory.createVAOFromData vertices indices w = (Ok p, w') ->
  vertices <> [] /\ indices <> []
  /\ exists (l lv li : positive) (v : t) (bv : VertexBuffer.t)
            (bi : IndexBuffer.t),
       p = Some l
       /\ vertex_arrays w !! l = None
       /\ vertex_arrays w' = <[l := v]> (vertex_arrays w)
       /\ m_id v <> 0 /\ m_stride v = 20
       /\ m_attributes v = [Position; Texture]
       /\ mp_vb v = Some lv /\ mp_ib v = Some li
       /\ vertex_buffers (buffers w) !! lv = None
       /\ vertex_buffers (buffers w')
          = <[lv := bv]> (vertex_buffers (buffers w))
       /\ VertexBuffer.m_id bv <> 0
       /\ index_buffers (buffers w) !! li = None
       /\ index_buffers (buffers w')
          = <[li := bi]> (index_buffers (buffers w))
       /\ IndexBuffer.m_id bi <> 0
       /\ gen_name (gl (buffers w')) = gen_name (gl (buffers w))
       /\ error_code (gl (buffers w')) = error_code (gl (buffers w))
       /\ (4 * Z.of_nat (length indices) <= INT_MAX ->
           IndexBuffer.m_IndexCount bi = Z.of_nat (length indices)
           /\ let draw := DrawElements GL_TRIANGLES
                            (Z.of_nat (length indices)) GL_UNSIGNED_INT 0 in
              let code := error_code (gl (buffers w'))
                            (issued (gl (buffers w')) ++ [draw]) in
              Draw (v, buffers w')
              = (check_outcome "Draw call" code,
                 (v, after_calls [draw; GetError code] (buffers w')))).
Proof.
  intros Hrun.
  destruct (createVAOFromData_state vertices indices w w' p Hrun)
    as (Hv & Hi & na & nv & ni & Hna & Hnv & Hni & -> & Hvas & Hvbs & Hibs
        & Hgen & Herr).
  split; [done|]. split; [done|].
  eexists _, _, _, _, (VertexBuffer.mk nv), (IndexBuffer.mk ni _).
  split; [reflexivity|]. split; [apply fresh_vertex_array|].
  split; [exact Hvas|]. cbn [m_id m_stride m_attributes mp_vb mp_ib].
  split; [done|]. split; [done|]. split; [done|]. split; [done|].
  split; [done|]. split; [apply fresh_vertex_buffer|]. split; [exact Hvbs|].
  split; [done|]. split; [apply fresh_index_buffer|]. split; [exact Hibs|].
  split; [done|]. split; [done|]. split; [done|].
  intros Hfit. cbn [IndexBuffer.m_IndexCount].
  split; [by apply index_count_fits|]. cbv zeta.
  eapply (Draw_run _ (IndexBuffer.mk ni (Z.of_nat (length indices))));
    [reflexivity|].
  rewrite Hibs, (index_count_fits indices Hfit). apply lookup_insert_eq.
Qed.



Lemma createVAOFromData_quiet_run (vertices : VertexList F)
    (indices : IndexList) w :
  vertices <> [] -> indices <> [] ->
  20 * Z.of_nat (length vertices) <= INT_MAX ->
  4 * Z.of_nat (length indices) <= INT_MAX ->
  generates_names (gl (buffers w)) -> no_error (gl (buffers w)) ->
  exists p w',
    ShapeFactory.createVAOFromData vertices indices w = (Ok p, w').
Proof.
  intros Hv Hi Hfv Hfi Hgen Hno.
  assert (Hsv : 0 < int_wrap (size_wrap (20 * vector_size vertices))).
  { unfold vector_size.
    rewrite (size_wrap_small (Z.of_nat (length vertices)))
      by (unfold INT_MAX in *; lia).
    rewrite size_wrap_small by (unfold INT_MAX in *; lia).
    rewrite int_wrap_small by (unfold INT_MIN, INT_MAX in *; lia).
    destruct vertices; [done | cbn [length]; lia]. }
  assert (Hsi : 0 < int_wrap (size_wrap (4 * vector_size indices))).
  { unfold vector_size.
    rewrite (size_wrap_small (Z.of_nat (length indices)))
      by (unfold INT_MAX in *; lia).
    rewrite size_wrap_small by (unfold INT_MAX in *; lia).
    rewrite int_wrap_small by (unfold INT_MIN, INT_MAX in *; lia).
    destruct indices; [done | cbn [length]; lia]. }
  unfold ShapeFactory.createVAOFromData.
  unfold bind at 1. rewrite make_shared_VertexArrayObject_run.
  unfold bind at 1. rewrite make_shared_VertexBuffer_run.
  unfold bind at 1. rewrite make_shared_IndexBuffer_run.
  cbn [buffers vertex_arrays gl vertex_buffers index_buffers].
  set (l := fresh (dom (vertex_arrays w))).
  set (lv := fresh (dom (vertex_buffers (buffers w)))).
  set (li := fresh (dom (index_buffers (buffers w)))).
  replace (vector_empty vertices || vector_empty indices) with false
    by (by destruct vertices, indices).
  unfold bind at 1. rewrite in_buffers_run. cbn [buffers vertex_arrays].
  rewrite (call_vb_run lv (VertexBuffer.mk 0)) by apply lookup_insert_eq.
  cbn [gl vertex_buffers index_buffers].
  rewrite VertexBuffer_Create_run by done.
  rewrite decide_False by apply Hgen. rewrite Hno.
  cbn [fst snd check_outcome].
  unfold bind at 1. rewrite in_buffers_run. cbn [buffers vertex_arrays].
  rewrite (call_ib_run li (IndexBuffer.mk 0 0)) by apply lookup_insert_eq.
  cbn [gl vertex_buffers index_buffers].
  rewrite IndexBuffer_Create_run by done.
  rewrite decide_False by apply Hgen.
  cbn [context_after error_code]. rewrite Hno.
  cbn [fst snd check_outcome is_null orb].
  rewrite !insert_insert_eq.
  unfold try_catch.
  unfold bind at 1. rewrite (call_va_run l _) by apply lookup_insert_eq.
  cbn [buffers vertex_arrays]. rewrite VertexArray_Create_run.
  rewrite decide_False by apply Hgen.
  cbn [gl context_after error_code]. rewrite Hno.
  cbn [fst snd check_outcome m_id mp_vb mp_ib m_stride m_attributes].
  rewrite !insert_insert_eq.
  unfold bind at 1. rewrite (call_va_run l _) by apply lookup_insert_eq.
  cbn [buffers vertex_arrays].
  rewrite (SetVertexBuffer_run lv (VertexBuffer.mk _))
    by apply lookup_insert_eq.
  cbn [gl after_calls context_after error_code]. rewrite Hno.
  cbn [fst snd m_id mp_vb mp_ib m_stride m_attributes].
  rewrite !insert_insert_eq.
  unfold bind at 1. rewrite (call_va_run l _) by apply lookup_insert_eq.
  cbn [buffers vertex_arrays].
  rewrite (SetIndexBuffer_run li (IndexBuffer.mk _ _))
    by apply lookup_insert_eq.
  cbn [gl after_calls context_after error_code]. rewrite Hno.
  cbn [fst snd m_id mp_vb mp_ib m_stride m_attributes].
  rewrite !insert_insert_eq.
  unfold bind at 1. rewrite (call_va_run l _) by apply lookup_insert_eq.
  cbn [buffers vertex_arrays AddVertexAttribute this zoom modify fst snd
       m_id mp_vb mp_ib m_stride m_attributes app].
  rewrite !insert_insert_eq.
  unfold bind at 1. rewrite (call_va_run l _) by apply lookup_insert_eq.
  cbn [buffers vertex_arrays AddVertexAttribute this zoom modify fst snd
       m_id mp_vb mp_ib m_stride m_attributes app].
  rewrite !insert_insert_eq.
  unfold bind at 1. rewrite (call_va_run l _) by apply lookup_insert_eq.
  cbn [buffers vertex_arrays].
  match goal with
  | |- context [ActivateAttributes (?v, ?h)] =>
      destruct (ActivateAttributes_calls v h) as (r & calls & -> & Hok);
        [by vm_compute | done |];
      rewrite (Hok Hno)
  end.
  cbn [fst snd]. rewrite !insert_insert_eq.
  unfold bind at 1. rewrite (call_va_run l _) by apply lookup_insert_eq.
  cbn [buffers vertex_arrays]. rewrite VertexArray_Unbind_run.
  cbn [mp_vb mp_ib index_buffer_at vertex_buffer_at after_calls
       vertex_buffers index_buffers].
  rewrite !lookup_insert_eq. cbn [fst snd ret]. by eauto.
Qed.

(** X17.  In a context whose driver generates non-zero names and reports
    no error, [createVAOFromData] returns for all lists that are not
    empty and whose byte sizes (20 for a vertex, 4 for an index) fit an
    [int]: the result points to a new vertex array, and [Draw] on it
    returns after one draw call for as many indices as the list has. *)
Theorem createVAOFromData_quiet (vertices : VertexList F)
    (indices : IndexList) w :
  vertices <> [] -> indices <> [] ->
  20 * Z.of_nat (length vertices) <= INT_MAX ->
  4 * Z.of_nat (length indices) <= INT_MAX ->
  generates_names (gl (buffers w)) -> no_error (gl (buffers w)) ->
  exists (l : positive) (v : t) w',
    ShapeFactory.createVAOFromData vertices indices w = (Ok (Some l), w')
    /\ vertex_arrays w !! l = None
    /\ vertex_arrays w' !! l = Some v
    /\ Draw (v, buffers w')
       = (Ok tt,
          (v, after_calls
                [DrawElements GL_TRIANGLES (Z.of_nat (length indices))
                   GL_UNSIGNED_INT 0;
                 GetError GL_NO_ERROR] (buffers w'))).
Proof.
  intros Hv Hi Hfv Hfi Hgen Hno.
  destruct (createVAOFromData_quiet_run vertices indices w)
    as (p & w' & Hrun); try done.
  destruct (createVAOFromData_state vertices indices w w' p Hrun)
    as (_ & _ & na & nv & ni & _ & _ & _ & _ & _ & _ & _ & _ & Herr).
  destruct (Draw_created vertices indices w w' p Hrun Hfi)
    as (l & v & -> & Hnew & Hlook & Hdraw).
  exists l, v, w'. split; [done|]. split; [done|]. split; [done|].
  rewrite Hdraw, Herr, Hno. reflexivity.
Qed.
End CreateVAO.

Section CreateVAOExamples.
Import VertexArrayObject.

(** X15 at an empty vertex list. *)
Lemma createVAOFromData_empty_witness :
  let vertices := ([] : VertexList fexpr) in
  let indices := [0] in
  let w := (initial_world : World fexpr) in
  let r := ShapeFactory.createVAOFromData vertices indices w in
  fst r = Throw (BufferException
                   "Empty vertex or index data in createVAOFromData")
  /\ gl (buffers (snd r)) = gl (buffers w).
Proof.
  apply (createVAOFromData_empty [] [0] initial_world). by left.
Defined.

(** X16 at the three vertices and the indices of one triangle, in a
    context that reports no error. *)
Lemma createVAOFromData_returns_witness :
  let vertices := example_triangle in
  let indices := [0; 1; 2] in
  let w := (initial_world : World fexpr) in
  let w' := after_triangle in
  let p := Some 1%positive in
  vertices <> [] /\ indices <> []
  /\ exists (l lv li : positive) (v : t) (bv : VertexBuffer.t)
            (bi : IndexBuffer.t),
       p = Some l
       /\ vertex_arrays w !! l = None
       /\ vertex_arrays w' = <[l := v]> (vertex_arrays w)
       /\ m_id v <> 0 /\ m_stride v = 20
       /\ m_attributes v = [Position; Texture]
       /\ mp_vb v = Some lv /\ mp_ib v = Some li
       /\ vertex_buffers (buffers w) !! lv = None
       /\ vertex_buffers (buffers w')
          = <[lv := bv]> (vertex_buffers (buffers w))
       /\ VertexBuffer.m_id bv <> 0
       /\ index_buffers (buffers w) !! li = None
       /\ index_buffers (buffers w')
          = <[li := bi]> (index_buffers (buffers w))
       /\ IndexBuffer.m_id bi <> 0
       /\ gen_name (gl (buffers w')) = gen_name (gl (buffers w))
       /\ error_code (gl (buffers w')) = error_code (gl (buffers w))
       /\ (4 * Z.of_nat (length indices) <= INT_MAX ->
           IndexBuffer.m_IndexCount bi = Z.of_nat (length indices)
           /\ let draw := DrawElements GL_TRIANGLES
                            (Z.of_nat (length indices)) GL_UNSIGNED_INT 0 in
              let code := error_code (gl (buffers w'))
                            (issued (gl (buffers w')) ++ [draw]) in
              Draw (v, buffers w')
              = (check_outcome "Draw call" code,
                 (v, after_calls [draw; GetError code] (buffers w')))).
Proof.
  apply (createVAOFromData_returns example_triangle [0; 1; 2] initial_world
           after_triangle (Some 1%positive)).
  vm_compute; reflexivity.
Defined.

(** X17 at the three vertices and the indices of one triangle. *)
Lemma createVAOFromData_quiet_witness :
  let vertices := example_triangle in
  let indices := [0; 1; 2] in
  let w := (steady_world : World fexpr) in
  exists (l : positive) (v : t) w',
    ShapeFactory.createVAOFromData vertices indices w = (Ok (Some l), w')
    /\ vertex_arrays w !! l = None
    /\ vertex_arrays w' !! l = Some v
    /\ Draw (v, buffers w')
       = (Ok tt,
          (v, after_calls
                [DrawElements GL_TRIANGLES (Z.of_nat (length indices))
                   GL_UNSIGNED_INT 0;
                 GetError GL_NO_ERROR] (buffers w'))).
Proof.
  apply (createVAOFromData_quiet example_triangle [0; 1; 2] steady_world);
    [done | done | arith_hyp | arith_hyp | by intros history id | by intros history].
Defined.
End CreateVAOExamples.

(** ** CircleFactory: every angle step *)

Section Circle.
Context {F : Type} `{FloatOps F}.

Lemma index_loop_spec (n : nat) : forall (i : Z) (indices : IndexList),
  0 <= i -> i + Z.of_nat n + 1 <= INT_MAX ->
  CircleFactory.index_loop n i indices
  = indices ++ (seqZ i (Z.of_nat n) ≫= fan_triangle).
Proof.
  unfold INT_MAX.
  induction n as [|n IH]; intros i indices Hi Hfit.
  - cbn. by rewrite app_nil_r.
  - cbn [CircleFactory.index_loop]. unfold int_add.
    rewrite !int_wrap_small by (unfold INT_MIN, INT_MAX; lia).
    rewrite !uint_wrap_small by lia.
    rewrite IH by lia. rewrite <- app_assoc. f_equal.
    rewrite (seqZ_cons i) by lia. rewrite bind_cons.
    replace (Z.succ i) with (i + 1) by lia.
    replace (Z.pred (Z.of_nat (S n))) with (Z.of_nat n) by lia.
    reflexivity.
Qed.

(** The vertex and the pair of texture coordinates the first loop
    computes for the index [i]. *)
Lemma vertex_loop_spec (m_angles : Z) (n : nat) :
  forall (i : Z) (vs1 vs2 : VertexList F) (ts1 ts2 : list (F * F)),
  0 <= i -> Z.of_nat (length vs1) = i -> Z.of_nat (length ts1) = i ->
  length vs2 = n -> length ts2 = n ->
  0 <= m_angles -> m_angles * (i + Z.of_nat n) <= INT_MAX ->
  i + Z.of_nat n <= INT_MAX ->
  CircleFactory.vertex_loop n i m_angles (vs1 ++ vs2, ts1 ++ ts2)
  = (Ok tt,
     (vs1 ++ zip_with (fun j v => mk_Vertex (position (fan_vertex m_angles j))
                                   (texture v)) (seqZ i (Z.of_nat n)) vs2,
      ts1 ++ ((fun j => (glm.s (texture (fan_vertex m_angles j)),
                         glm.t (texture (fan_vertex m_angles j))))
              <$> seqZ i (Z.of_nat n)))).
Proof.
  unfold INT_MAX.
  induction n as [|n IH]; intros i vs1 vs2 ts1 ts2 Hi Hv1 Ht1 Hv2 Ht2 Hm Hfit Hn.
  - destruct vs2; [|done]. destruct ts2; [|done]. reflexivity.
  - destruct vs2 as [|v vs2]; [done|]. destruct ts2 as [|t ts2]; [done|].
    cbn [length] in *.
    cbn [CircleFactory.vertex_loop].
    assert (Hmul : int_mul m_angles i = m_angles * i).
    { unfold int_mul. apply int_wrap_small. unfold INT_MIN, INT_MAX. nia. }
    rewrite Hmul. unfold int_add.
    rewrite (int_wrap_small (i + 1)) by (unfold INT_MIN, INT_MAX; lia).
    rewrite size_wrap_small by lia.
    unfold bind at 1. unfold on_fst, this, zoom. cbn [fst snd].
    unfold vector_update at 1, bind at 1, vector_get.
    rewrite decide_True by (rewrite length_app; cbn [length]; lia).
    rewrite list_lookup_middle by lia. cbn [modify].
    unfold bind at 1. unfold on_snd, env, zoom. cbn [fst snd].
    unfold vector_update at 1, bind at 1, vector_get.
    rewrite decide_True by (rewrite length_app; cbn [length]; lia).
    rewrite list_lookup_middle by lia. cbn [modify].
    rewrite !insert_app_r_alt by lia.
    replace (Z.to_nat i - length vs1)%nat with 0%nat by lia.
    replace (Z.to_nat i - length ts1)%nat with 0%nat by lia.
    cbn [insert list_insert].
    rewrite (cons_middle _ vs1), (cons_middle _ ts1), !app_assoc.
    rewrite IH; try lia;
      try (rewrite length_app; cbn [length]; lia).
    rewrite (seqZ_cons i) by lia. cbn [zip_with fmap list_fmap].
    replace (Z.pred (Z.of_nat (S n))) with (Z.of_nat n) by lia.
    replace (Z.succ i) with (i + 1) by lia.
    rewrite <- !app_assoc. reflexivity.
Qed.

Lemma quot_360_bounds (m_angles : Z) :
  1 <= m_angles <= 360 -> 1 <= 360 ÷ m_angles <= 360.
Proof.
  intros Hm. split.
  - apply Z.quot_le_lower_bound; lia.
  - apply Z.quot_le_upper_bound; lia.
Qed.

Lemma circle_geometry_run (m_angles : Z) {S} (s : S) :
  1 <= m_angles <= 360 ->
  CircleFactory.geometry m_angles s
  = (Ok (fan_vertex m_angles <$> seqZ 0 (360 ÷ m_angles),
         seqZ 0 (360 ÷ m_angles - 2) ≫= fan_triangle), s).
Proof.
  intros Hm. pose proof (quot_360_bounds m_angles Hm) as Hn.
  assert (Hmn : m_angles * (360 ÷ m_angles) <= 360)
    by (apply Z.mul_quot_le; lia).
  unfold CircleFactory.geometry.
  rewrite decide_False by lia.
  unfold int_div. rewrite int_wrap_small by (unfold INT_MIN, INT_MAX; lia).
  set (n := 360 ÷ m_angles) in *.
  rewrite decide_False by lia.
  unfold int_sub. rewrite int_wrap_small by (unfold INT_MIN, INT_MAX; lia).
  unfold bind at 1, local.
  unfold bind at 1.
  pose proof (vertex_loop_spec m_angles (Z.to_nat n) 0 [] 
                (ShapeFactory.VertexList_new n) []
                (replicate (Z.to_nat n) (f_lit 0, f_lit 0))) as Hloop.
  cbn [app length] in Hloop. rewrite Hloop; clear Hloop;
    try (unfold INT_MAX; lia);
    try (unfold ShapeFactory.VertexList_new; by rewrite length_replicate).
  rewrite Z2Nat.id by lia.
  unfold bind at 1. unfold on_snd, env, zoom, get. cbn [fst snd].
  unfold on_fst, this, zoom. cbn [fst snd].
  set (vs1 := zip_with _ _ _).
  set (ts := _ <$> seqZ 0 n).
  assert (Hlv : length vs1 = Z.to_nat n).
  { unfold vs1, ShapeFactory.VertexList_new.
    rewrite length_zip_with, length_seqZ, length_replicate. lia. }
  assert (Hlt : length ts = Z.to_nat n).
  { unfold ts. rewrite length_fmap, length_seqZ. lia. }
  destruct (bounds_check_exact 0 ts vs1) as [Hsum Hsize];
    try (unfold INT_MAX, PTRDIFF_MAX; lia).
  destruct (AssignTextureCoords_loop_post 0 ts 0 vs1)
    as (vs' & Hrun & Hlen & Hpos & _ & Htex);
    try (unfold PTRDIFF_MAX; lia).
  unfold ShapeFactory.AssignTextureCoords, bind at 1, get.
  rewrite Hsum, Hsize. rewrite decide_False by lia. rewrite Hrun.
  cbn [fst snd ret].
  rewrite index_loop_spec by (unfold INT_MAX; lia).
  cbn [app].
  replace (seqZ 0 (Z.of_nat (Z.to_nat (n - 2)))) with (seqZ 0 (n - 2))
    by (unfold seqZ; by rewrite Nat2Z.id).
  unfold ret. do 3 f_equal.
  apply list_eq. intros j.
  rewrite list_lookup_fmap.
  destruct (decide (j < Z.to_nat n)%nat) as [Hj | Hj].
  - rewrite lookup_seqZ_lt by lia. cbn [fmap option_fmap option_map].
    destruct (lookup_lt_is_Some_2 vs' j) as [v' Hv']; [lia|].
    specialize (Hpos j). rewrite Hv' in Hpos.
    specialize (Htex j (glm.s (texture (fan_vertex m_angles (Z.of_nat j))),
                        glm.t (texture (fan_vertex m_angles (Z.of_nat j))))).
    replace (Z.to_nat (0 + 0 + Z.of_nat j)) with j in Htex by lia.
    rewrite Hv' in Htex.
    assert (Hts : ts !! j
                  = Some (glm.s (texture (fan_vertex m_angles (Z.of_nat j))),
                          glm.t (texture (fan_vertex m_angles (Z.of_nat j))))).
    { unfold ts. rewrite list_lookup_fmap, lookup_seqZ_lt by lia.
      cbn. by rewrite Z.add_0_l. }
    specialize (Htex Hts).
    assert (Hvs1 : vs1 !! j
                   = Some (mk_Vertex
                             (position (fan_vertex m_angles (Z.of_nat j)))
                             (texture ShapeFactory.Vertex_zero))).
    { unfold vs1. rewrite lookup_zip_with.
      rewrite lookup_seqZ_lt by lia. unfold ShapeFactory.VertexList_new.
      rewrite lookup_replicate_2 by lia. cbn. by rewrite Z.add_0_l. }
    rewrite Hvs1 in Hpos. cbn in Hpos, Htex.
    rewrite Z.add_0_l. f_equal. destruct v' as [p t]. cbn in *.
    by simplify_eq.
  - rewrite lookup_ge_None_2 by lia.
    rewrite lookup_seqZ_ge by lia. done.
Qed.

(** X18.  For every angle step from 1 to 360 degrees the circle factory
    builds 360/step vertices (the quotient truncated), the vertex i from
    the angle step * i, and the triangle fan (0, k+2, k+1) for k from 0
    to 360/step - 3; every index is less than the number of vertices, and
    there are 3 * (360/step - 2) indices when there are at least two
    vertices. *)
Theorem circle_fan (m_angles : Z) {S} (s : S) :
  1 <= m_angles <= 360 ->
  let n := 360 ÷ m_angles in
  let vertices := fan_vertex m_angles <$> seqZ 0 n in
  let indices := seqZ 0 (n - 2) ≫= fan_triangle in
  CircleFactory.geometry m_angles s = (Ok (vertices, indices), s)
  /\ Z.of_nat (length vertices) = n
  /\ (2 <= n -> Z.of_nat (length indices) = 3 * (n - 2))
  /\ Forall (fun k => 0 <= k < n) indices.
Proof.
  intros Hm n vertices indices.
  pose proof (quot_360_bounds m_angles Hm) as Hn. fold n in Hn.
  split; [by apply circle_geometry_run|]. split; [|split].
  - unfold vertices. rewrite length_fmap, length_seqZ. lia.
  - intros H2. unfold indices.
    assert (Hlen : forall (l : list Z),
              length (l ≫= fan_triangle) = (3 * length l)%nat).
    { induction l as [|k l IH]; [done|].
      rewrite bind_cons, length_app, IH. cbn [fan_triangle length]. lia. }
    rewrite Hlen, length_seqZ. lia.
  - apply Forall_forall. intros k Hk.
    apply list_elem_of_bind in Hk as (i & Hk & Hi).
    apply elem_of_seqZ in Hi. unfold fan_triangle in Hk.
    repeat (apply elem_of_cons in Hk as [-> | Hk]; [lia|]).
    by apply elem_of_nil in Hk.
Qed.

Lemma circle_geometry_none (m_angles : Z) {S} (s : S) :
  INT_MIN <= m_angles <= INT_MAX ->
  m_angles < -360 \/ 360 < m_angles ->
  CircleFactory.geometry m_angles s = (Ok ([], []), s).
Proof.
  intros Hint Hm. unfold CircleFactory.geometry.
  rewrite decide_False by lia.
  assert (Hq : 360 ÷ m_angles = 0).
  { destruct Hm as [Hm | Hm]; [|apply Z.quot_small; lia].
    rewrite <- (Z.opp_involutive m_angles), Z.quot_opp_r by lia.
    rewrite Z.quot_small by lia. done. }
  unfold int_div. rewrite Hq. reflexivity.
Qed.

(** X19.  The cases of [createShape] of the circle factory by the angle
    step.  With the step 0 the division is undefined.  With a step from
    -360 to -1 the number of vertices is negative and the constructor of
    the vertex list throws [std::length_error]; nothing is created.  With
    a step above 120 or below -360 there are fewer than three vertices
    and no triangle, and [createVAOFromData] throws the exception of
    empty data before any OpenGL call.  Only with a step from 1 to 120
    are a vertex list and an index list that are not empty passed to
    [createVAOFromData]. *)
Theorem circle_createShape_cases (m_angles : Z) (w : World F) :
  INT_MIN <= m_angles <= INT_MAX ->
  (m_angles = 0 -> CircleFactory.createShape m_angles w = (Undefined, w))
  /\ (-360 <= m_angles < 0 ->
      CircleFactory.createShape m_angles w
      = (Throw (StdException "std::length_error"), w))
  /\ (m_angles < -360 \/ 120 < m_angles ->
      fst (CircleFactory.createShape m_angles w)
      = Throw (BufferException
                 "Empty vertex or index data in createVAOFromData")
      /\ gl (buffers (snd (CircleFactory.createShape m_angles w)))
         = gl (buffers w))
  /\ (1 <= m_angles <= 120 ->
      let vertices := fan_vertex m_angles <$> seqZ 0 (360 ÷ m_angles) in
      let indices := seqZ 0 (360 ÷ m_angles - 2) ≫= fan_triangle in
      CircleFactory.createShape m_angles w
      = ShapeFactory.createVAOFromData vertices indices w
      /\ vertices <> [] /\ indices <> []).
Proof.
  intros Hint. split; [|split; [|split]].
  - intros ->. reflexivity.
  - intros Hm. unfold CircleFactory.createShape, CircleFactory.geometry, bind.
    rewrite decide_False by lia.
    assert (Hq : -360 <= 360 ÷ m_angles < 0).
    { rewrite <- (Z.opp_involutive m_angles), Z.quot_opp_r by lia.
      assert (1 <= 360 ÷ - m_angles <= 360); [|lia].
      apply quot_360_bounds. lia. }
    unfold int_div. rewrite int_wrap_small by (unfold INT_MIN, INT_MAX; lia).
    by rewrite decide_True by lia.
  - intros Hm. unfold CircleFactory.createShape, bind.
    destruct (decide (m_angles < -360 \/ 360 < m_angles)) as [Hout | Hin].
    + rewrite circle_geometry_none by done. cbn [fst snd].
      destruct (createVAOFromData_empty_run (F := F) [] [] w)
        as (vas & vbs & ibs & ->); [by left|]. done.
    + rewrite circle_geometry_run by lia. cbn [fst snd].
      assert (H2 : 360 ÷ m_angles < 3).
      { apply Z.quot_lt_upper_bound; lia. }
      destruct (createVAOFromData_empty_run
                  (fan_vertex m_angles <$> seqZ 0 (360 ÷ m_angles))
                  (seqZ 0 (360 ÷ m_angles - 2) ≫= fan_triangle) w)
        as (vas & vbs & ibs & ->); [|done].
      right. unfold seqZ.
      by replace (Z.to_nat (360 ÷ m_angles - 2)) with 0%nat by lia.
  - intros Hm vertices indices.
    assert (H3 : 3 <= 360 ÷ m_angles).
    { apply Z.quot_le_lower_bound; lia. }
    split; [|split].
    + unfold CircleFactory.createShape, bind.
      by rewrite circle_geometry_run by lia.
    + unfold vertices. rewrite (seqZ_cons 0) by lia. done.
    + unfold indices. rewrite (seqZ_cons 0) by lia. done.
Qed.
End Circle.

Section CircleExamples.

(** X18 at the angle step 90: four vertices and two triangles. *)
Lemma circle_fan_witness :
  let m_angles := 90 in
  let s := tt in
  let n := 360 ÷ m_angles in
  let vertices := @fan_vertex fexpr _ m_angles <$> seqZ 0 n in
  let indices := seqZ 0 (n - 2) ≫= fan_triangle in
  CircleFactory.geometry m_angles s = (Ok (vertices, indices), s)
  /\ Z.of_nat (length vertices) = n
  /\ (2 <= n -> Z.of_nat (length indices) = 3 * (n - 2))
  /\ Forall (fun k => 0 <= k < n) indices.
Proof.
  apply (circle_fan (F := fexpr) 90 tt). lia.
Defined.

(** X19 at the angle step 10 of the manager. *)
Lemma circle_createShape_cases_witness :
  let m_angles := 10 in
  let w := (initial_world : World fexpr) in
  (m_angles = 0 -> CircleFactory.createShape m_angles w = (Undefined, w))
  /\ (-360 <= m_angles < 0 ->
      CircleFactory.createShape m_angles w
      = (Throw (StdException "std::length_error"), w))
  /\ (m_angles < -360 \/ 120 < m_angles ->
      fst (CircleFactory.createShape m_angles w)
      = Throw (BufferException
                 "Empty vertex or index data in createVAOFromData")
      /\ gl (buffers (snd (CircleFactory.createShape m_angles w)))
         = gl (buffers w))
  /\ (1 <= m_angles <= 120 ->
      let vertices := fan_vertex m_angles <$> seqZ 0 (360 ÷ m_angles) in
      let indices := seqZ 0 (360 ÷ m_angles - 2) ≫= fan_triangle in
      CircleFactory.createShape m_angles w
      = ShapeFactory.createVAOFromData vertices indices w
      /\ vertices <> [] /\ indices <> []).
Proof.
  apply (circle_createShape_cases 10 initial_world). arith_hyp.
Defined.
End CircleExamples.

(** ** ShapeFactoryManager: the cache and the five shapes *)

Section ManagerFrame.
Context {F : Type} `{FloatOps F}.
Import ShapeFactoryManager.

(** X20.  [createShape] of the manager never changes the registered
    factories and never removes or replaces an entry of the cache: the
    cache changes only at the requested shape type, and only when the
    call returns, by the entry for the pointer returned.  A call that
    throws (unknown type, or an exception of the factory) leaves the
    cache as it was, so that the next call for the type calls the factory
    again. *)
Theorem createShape_frame (m : t) (w : World F) (kind : Z) :
  let r := fst (createShape kind (m, w)) in
  let m1 := fst (snd (createShape kind (m, w))) in
  factories m1 = factories m
  /\ (forall k p, shapeCache m !! k = Some p -> shapeCache m1 !! k = Some p)
  /\ (forall k, k <> kind -> shapeCache m1 !! k = shapeCache m !! k)
  /\ (forall p, r = Ok p -> shapeCache m1 !! kind = Some p)
  /\ ((forall p, r <> Ok p) -> shapeCache m1 = shapeCache m).
Proof.
  cbv zeta.
  destruct (shapeCache m !! kind) as [cached|] eqn:Hc.
  { rewrite (createShape_cached m w kind cached Hc). cbn [fst snd].
    repeat split; try done.
    intros p Hp. by simplify_eq. }
  destruct (factories m !! kind) as [f|] eqn:Hf.
  2: { rewrite (createShape_unknown m w kind Hc Hf). cbn [fst snd].
       repeat split; done. }
  rewrite (createShape_fresh m w kind f Hc Hf).
  destruct (Factory_createShape f w) as [[shape | e |] w']; cbn [fst snd].
  - cbn [factories shapeCache]. split; [done|]. split; [|split; [|split]].
    + intros k p Hk. rewrite lookup_insert_ne; [done|]. congruence.
    + intros k Hk. by rewrite lookup_insert_ne.
    + intros p Hp. simplify_eq. apply lookup_insert_eq.
    + intros Hno. by destruct (Hno shape).
  - repeat split; done.
  - repeat split; done.
Qed.

Lemma passes_createShape (geometry : forall S, M S (VertexList F * IndexList))
    (create : M (World F) shared_ptr) vertices indices (w : World F) :
  passes geometry create vertices indices ->
  create w = ShapeFactory.createVAOFromData vertices indices w.
Proof. intros [_ Hc]. apply Hc. Qed.

Lemma Factory_createShape_new (kind : Z) (w : World F) :
  0 <= kind <= 4 ->
  exists f (vertices : VertexList F) (indices : IndexList),
    factories new !! kind = Some f
    /\ Factory_createShape f w
       = ShapeFactory.createVAOFromData vertices indices w
    /\ vertices <> [] /\ indices <> []
    /\ 20 * Z.of_nat (length vertices) <= INT_MAX
    /\ Z.of_nat (length indices) = index_count kind.
Proof.
  intros Hk.
  assert (kind = 0 \/ kind = 1 \/ kind = 2 \/ kind = 3 \/ kind = 4)
    as [-> | [-> | [-> | [-> | ->]]]] by lia.
  - eexists (CircleFactory 10), _, _. split; [reflexivity|]. split.
    { apply (passes_createShape (fun S => CircleFactory.geometry (S := S) 10)).
      compute_geometry passes_intro. }
    repeat split; try done; by apply Z.leb_le.
  - eexists SquareFactory, _, _. split; [reflexivity|]. split.
    { apply (passes_createShape (@SquareFactory.geometry F _)).
      compute_geometry passes_intro. }
    repeat split; try done; by apply Z.leb_le.
  - eexists CubeFactory, _, _. split; [reflexivity|]. split.
    { apply (passes_createShape (@CubeFactory.geometry F _)).
      compute_geometry passes_intro. }
    repeat split; try done; by apply Z.leb_le.
  - eexists PyramidFactory, _, _. split; [reflexivity|]. split.
    { apply (passes_createShape (@PyramidFactory.geometry F _)).
      compute_geometry passes_intro. }
    repeat split; try done; by apply Z.leb_le.
  - eexists FrustumFactory, _, _. split; [reflexivity|]. split.
    { apply (passes_createShape (@FrustumFactory.geometry F _)).
      compute_geometry passes_intro. }
    repeat split; try done; by apply Z.leb_le.
Qed.

(** X21.  In a context whose driver generates non-zero names and reports
    no error, the manager the constructor builds creates a shape for each
    of the five shape types 0 to 4: [createShape] returns a pointer to a
    new vertex array, which it caches, and [Draw] on that vertex array
    draws 102 indices for the circle, 6 for the square, 36 for the cube,
    18 for the pyramid and 36 for the frustum.  For every other value of
    the shape type [createShape] throws the unknown-shape exception. *)
Theorem manager_creates (w : World F) (kind : Z) :
  generates_names (gl (buffers w)) -> no_error (gl (buffers w)) ->
  (0 <= kind <= 4 ->
   exists (l : positive) (v : VertexArrayObject.t) m1 w1,
     createShape kind (new, w) = (Ok (Some l), (m1, w1))
     /\ shapeCache m1 !! kind = Some (Some l)
     /\ vertex_arrays w !! l = None
     /\ vertex_arrays w1 !! l = Some v
     /\ VertexArrayObject.Draw (v, buffers w1)
        = (Ok tt,
           (v, after_calls
                 [DrawElements GL_TRIANGLES (index_count kind)
                    GL_UNSIGNED_INT 0;
                  GetError GL_NO_ERROR] (buffers w1))))
  /\ (~ 0 <= kind <= 4 ->
      createShape kind (new, w)
      = (Throw (GrafException "Unknown shape type"), (new, w))).
Proof.
  intros Hgen Hno. split.
  - intros Hk.
    destruct (Factory_createShape_new kind w Hk)
      as (f & vertices & indices & Hf & Hcreate & Hv & Hi & Hfv & Hcount).
    assert (Hfi : 4 * Z.of_nat (length indices) <= INT_MAX).
    { rewrite Hcount. unfold index_count.
      repeat case_decide; by apply Z.leb_le. }
    destruct (createVAOFromData_quiet_run vertices indices w)
      as (p & w1 & Hrun); try done.
    destruct (createVAOFromData_state vertices indices w w1 p Hrun)
      as (_ & _ & na & nv & ni & _ & _ & _ & _ & _ & _ & _ & _ & Herr).
    destruct (Draw_created vertices indices w w1 p Hrun Hfi)
      as (l & v & -> & Hnew & Hlook & Hdraw).
    exists l, v. eexists _, w1.
    rewrite (createShape_fresh new w kind f) by done.
    rewrite Hcreate, Hrun. split; [reflexivity|].
    split; [apply lookup_insert_eq|]. split; [done|]. split; [done|].
    rewrite Hdraw, Hcount, Herr, Hno. reflexivity.
  - intros Hk. apply createShape_unknown; [done|].
    unfold new. cbn [factories].
    unfold ShapeTypes.Frustum, ShapeTypes.Pyramid, ShapeTypes.Cube,
      ShapeTypes.Circle, ShapeTypes.Square.
    rewrite !lookup_insert_ne by lia. apply lookup_empty.
Qed.
End ManagerFrame.

Section ManagerExamples.
Import ShapeFactoryManager.

(** X21 at the cube. *)
Lemma manager_creates_witness :
  let w := (steady_world : World fexpr) in
  let kind := ShapeTypes.Cube in
  (0 <= kind <= 4 ->
   exists (l : positive) (v : VertexArrayObject.t) m1 w1,
     createShape kind (new, w) = (Ok (Some l), (m1, w1))
     /\ shapeCache m1 !! kind = Some (Some l)
     /\ vertex_arrays w !! l = None
     /\ vertex_arrays w1 !! l = Some v
     /\ VertexArrayObject.Draw (v, buffers w1)
        = (Ok tt,
           (v, after_calls
                 [DrawElements GL_TRIANGLES (index_count kind)
                    GL_UNSIGNED_INT 0;
                  GetError GL_NO_ERROR] (buffers w1))))
  /\ (~ 0 <= kind <= 4 ->
      createShape kind (new, w)
      = (Throw (GrafException "Unknown shape type"), (new, w))).
Proof.
  apply (manager_creates steady_world ShapeTypes.Cube);
    [by intros history id | by intros history].
Defined.
End ManagerExamples.

(** ** The keyboard function *)

Section KeyboardProperties.
Context {F : Type} `{FloatOps F} `{FloatSub F}.
Implicit Types (objects : list (ObjectData.t F)) (o : ObjectData.t F).
Import GLFW.

Lemma set_shape_same o : Main.set_shape (ObjectData.shape o) o = o.
Proof. by destruct o. Qed.

Lemma active_run objects (i : Z) o :
  0 <= i -> Z.of_nat (length objects) <= PTRDIFF_MAX ->
  objects !! Z.to_nat i = Some o ->
  Main.active (objects, i) = (Ok o, (objects, i)).
Proof.
  unfold PTRDIFF_MAX. intros Hi Hmax Ho.
  pose proof (lookup_lt_Some _ _ _ Ho) as Hlt.
  unfold Main.active, bind, on_snd, on_fst, env, this, zoom, get.
  cbn [fst snd]. rewrite size_wrap_small by lia.
  unfold vector_get. rewrite decide_True by lia. by rewrite Ho.
Qed.

Lemma update_active_run objects (i : Z) o (f : ObjectData.t F -> ObjectData.t F) :
  0 <= i -> Z.of_nat (length objects) <= PTRDIFF_MAX ->
  objects !! Z.to_nat i = Some o ->
  Main.update_active f (objects, i)
  = (Ok tt, (<[Z.to_nat i := f o]> objects, i)).
Proof.
  unfold PTRDIFF_MAX. intros Hi Hmax Ho.
  pose proof (lookup_lt_Some _ _ _ Ho) as Hlt.
  unfold Main.update_active, bind, on_snd, on_fst, env, this, zoom, get.
  cbn [fst snd]. rewrite size_wrap_small by lia.
  unfold vector_update, bind, vector_get.
  rewrite decide_True by lia. by rewrite Ho.
Qed.

Lemma size_wrap_out_of_range objects (i : Z) :
  INT_MIN <= i <= INT_MAX -> Z.of_nat (length objects) <= PTRDIFF_MAX ->
  ~ 0 <= i < Z.of_nat (length objects) ->
  ~ 0 <= size_wrap i < Z.of_nat (length objects).
Proof.
  unfold INT_MIN, INT_MAX, PTRDIFF_MAX, size_wrap. intros Hi Hmax Hout.
  destruct (decide (0 <= i)) as [Hpos | Hneg].
  - rewrite Z.mod_small by lia. lia.
  - replace i with (i + 2 ^ 64 - 1 * 2 ^ 64) by lia.
    rewrite Zminus_mod, Z_mod_mult, Z.sub_0_r, Zmod_mod.
    rewrite Z.mod_small by lia. lia.
Qed.

Lemma active_undefined objects (i : Z) :
  INT_MIN <= i <= INT_MAX -> Z.of_nat (length objects) <= PTRDIFF_MAX ->
  ~ 0 <= i < Z.of_nat (length objects) ->
  Main.active (objects, i) = (Undefined, (objects, i)).
Proof.
  intros Hi Hmax Hout.
  unfold Main.active, bind, on_snd, on_fst, env, this, zoom, get.
  cbn [fst snd]. unfold vector_get.
  by rewrite decide_False by by apply size_wrap_out_of_range.
Qed.

Lemma update_active_undefined objects (i : Z)
    (f : ObjectData.t F -> ObjectData.t F) :
  INT_MIN <= i <= INT_MAX -> Z.of_nat (length objects) <= PTRDIFF_MAX ->
  ~ 0 <= i < Z.of_nat (length objects) ->
  Main.update_active f (objects, i) = (Undefined, (objects, i)).
Proof.
  intros Hi Hmax Hout.
  unfold Main.update_active, bind, on_snd, on_fst, env, this, zoom, get.
  cbn [fst snd]. unfold vector_update, bind, vector_get.
  by rewrite decide_False by by apply size_wrap_out_of_range.
Qed.

Lemma select_run (key : Z) objects (i : Z) :
  Main.when (bool_decide (key >= GLFW_KEY_0) && bool_decide (key <= GLFW_KEY_8))
    (on_snd (put (int_sub key GLFW_KEY_0))) (objects, i)
  = (Ok tt, (objects, selected key GLFW_PRESS i)).
Proof.
  unfold selected, Main.when, GLFW_KEY_0, GLFW_KEY_8.
  destruct (decide (key >= 48)) as [Hk0 | Hk0];
    [rewrite (bool_decide_eq_true_2 _ Hk0)
    | rewrite (bool_decide_eq_false_2 _ Hk0)]; cbn [andb].
  2: { by rewrite decide_False by lia. }
  destruct (decide (key <= 56)) as [Hk8 | Hk8];
    [rewrite (bool_decide_eq_true_2 _ Hk8)
    | rewrite (bool_decide_eq_false_2 _ Hk8)].
  2: { by rewrite decide_False by lia. }
  rewrite decide_True by (split; [done | lia]).
  unfold int_sub. rewrite int_wrap_small by (unfold INT_MIN, INT_MAX; lia).
  reflexivity.
Qed.

Lemma space_run objects (i : Z) o :
  0 <= i -> Z.of_nat (length objects) <= PTRDIFF_MAX ->
  objects !! Z.to_nat i = Some o ->
  (let* o := Main.active in
   if decide (ObjectData.shape o = ShapeTypes.Cube)
   then Main.update_active (Main.set_shape ShapeTypes.Square)
   else
     let* o := Main.active in
     if decide (ObjectData.shape o = ShapeTypes.Square)
     then Main.update_active (Main.set_shape ShapeTypes.Circle)
     else
       let* o := Main.active in
       if decide (ObjectData.shape o = ShapeTypes.Circle)
       then Main.update_active (Main.set_shape ShapeTypes.Pyramid)
       else
         let* o := Main.active in
         if decide (ObjectData.shape o = ShapeTypes.Pyramid)
         then Main.update_active (Main.set_shape ShapeTypes.Frustum)
         else
           let* o := Main.active in
           if decide (ObjectData.shape o = ShapeTypes.Frustum)
           then Main.update_active (Main.set_shape ShapeTypes.Cube)
           else ret tt) (objects, i)
  = (Ok tt,
     (<[Z.to_nat i := Main.set_shape (next_shape (ObjectData.shape o)) o]>
        objects, i)).
Proof.
  intros Hi Hmax Ho. unfold next_shape.
  repeat (unfold bind at 1; rewrite (active_run objects i o) by done;
          destruct (decide (ObjectData.shape o = _));
          [by apply update_active_run|]).
  rewrite set_shape_same, list_insert_id by done. reflexivity.
Qed.

Lemma keyboard_run (key scancode : Z) objects (i : Z) o :
  let i' := selected key GLFW_PRESS i in
  0 <= i' -> Z.of_nat (length objects) <= PTRDIFF_MAX ->
  objects !! Z.to_nat i' = Some o ->
  Main.keyboard key scancode GLFW_PRESS (objects, i)
  = (Ok tt, (<[Z.to_nat i' := key_effect key o]> objects, i')).
Proof.
  intros i' Hi Hmax Ho. unfold Main.keyboard.
  rewrite bool_decide_eq_true_2 by done. unfold Main.when at 1.
  unfold bind at 1. rewrite select_run. fold i'.
  unfold key_effect.
  assert (Hlen : forall f,
            length (<[Z.to_nat i' := f]> objects) = length objects)
    by (intros; apply length_insert).
  assert (Hskip : forall (k : Z) (m : M (list (ObjectData.t F) * Z) unit) st,
            key <> k -> Main.when (bool_decide (key = k)) m st = (Ok tt, st)).
  { intros k m st Hk. by rewrite bool_decide_eq_false_2. }
  assert (Hfire : forall (k : Z) (m : M (list (ObjectData.t F) * Z) unit) st,
            key = k -> Main.when (bool_decide (key = k)) m st = m st).
  { intros k m st Hk. by rewrite bool_decide_eq_true_2. }
  destruct (decide (key = GLFW_KEY_UP)) as [Hup | Hup].
  { unfold bind at 1. rewrite Hfire, (update_active_run objects i' o) by done.
    subst key.
    repeat (unfold bind at 1; rewrite Hskip by (compute; lia)).
    by rewrite ?Hskip by (compute; lia). }
  unfold bind at 1. rewrite Hskip by done.
  destruct (decide (key = GLFW_KEY_DOWN)) as [Hdown | Hdown].
  { unfold bind at 1. rewrite Hfire, (update_active_run objects i' o) by done.
    subst key.
    repeat (unfold bind at 1; rewrite Hskip by (compute; lia)).
    by rewrite ?Hskip by (compute; lia). }
  unfold bind at 1. rewrite Hskip by done.
  destruct (decide (key = GLFW_KEY_LEFT)) as [Hleft | Hleft].
  { unfold bind at 1. rewrite Hfire, (update_active_run objects i' o) by done.
    subst key.
    repeat (unfold bind at 1; rewrite Hskip by (compute; lia)).
    by rewrite ?Hskip by (compute; lia). }
  unfold bind at 1. rewrite Hskip by done.
  destruct (decide (key = GLFW_KEY_RIGHT)) as [Hright | Hright].
  { unfold bind at 1. rewrite Hfire, (update_active_run objects i' o) by done.
    subst key. by rewrite ?Hskip by (compute; lia). }
  unfold bind at 1. rewrite Hskip by done.
  destruct (decide (key = GLFW_KEY_SPACE)) as [Hspace | Hspace].
  { rewrite Hfire by done. by apply space_run. }
  rewrite Hskip by done. by rewrite list_insert_id.
Qed.

Lemma keyboard_released (key scancode action : Z) objects (i : Z) :
  action <> GLFW_PRESS ->
  Main.keyboard key scancode action (objects, i) = (Ok tt, (objects, i)).
Proof.
  intros Ha. unfold Main.keyboard. by rewrite bool_decide_eq_false_2.
Qed.

Lemma selected_bounds (key action i : Z) :
  0 <= i <= 8 -> 0 <= selected key action i <= 8.
Proof.
  unfold selected, GLFW_KEY_0, GLFW_KEY_8. intros Hi.
  case_decide; lia.
Qed.

(** X22.  The keyboard function with an active index from 0 to 8 leaves
    an active index from 0 to 8: the digit keys 0 to 8, when pressed,
    select the object of their digit, and no other event changes the
    index.  When the selected index is an index of the object list, the
    function returns; an event that is not a press changes nothing, and a
    press changes at most the selected object: the arrow keys move it by
    0.1 along y or x, the space key gives it the next shape type, and
    every other key leaves it as it is. *)
Theorem keyboard_defined (key scancode action : Z) objects (i : Z) :
  0 <= i <= 8 ->
  Z.of_nat (length objects) <= PTRDIFF_MAX ->
  selected key action i < Z.of_nat (length objects) ->
  let i' := selected key action i in
  0 <= i' <= 8
  /\ exists o,
       objects !! Z.to_nat i' = Some o
       /\ Main.keyboard key scancode action (objects, i)
          = (Ok tt,
             (if decide (action = GLFW_PRESS)
              then <[Z.to_nat i' := key_effect key o]> objects
              else objects, i')).
Proof.
  intros Hi Hmax Hsel i'.
  pose proof (selected_bounds key action i Hi) as Hi'. fold i' in Hi'.
  split; [done|].
  destruct (lookup_lt_is_Some_2 objects (Z.to_nat i')) as [o Ho];
    [unfold i'; lia|].
  exists o. split; [done|].
  destruct (decide (action = GLFW_PRESS)) as [-> | Ha].
  - apply keyboard_run; [lia | done | done].
  - rewrite keyboard_released by done. unfold i', selected.
    rewrite decide_False; [done|]. by intros [? _].
Qed.

(** X23.  When the active index is not an index of the object list (a
    list of fewer objects than the index requires can come from the
    object file), pressing an arrow key or the space key reaches
    [objects[activeIndex]] outside the list: the behaviour is
    undefined. *)
Theorem keyboard_out_of_bounds (key scancode : Z) objects (i : Z) :
  INT_MIN <= i <= INT_MAX ->
  Z.of_nat (length objects) <= PTRDIFF_MAX ->
  ~ 0 <= i < Z.of_nat (length objects) ->
  reaches_active key ->
  Main.keyboard key scancode GLFW_PRESS (objects, i)
  = (Undefined, (objects, i)).
Proof.
  intros Hi Hmax Hout Hkey. unfold Main.keyboard.
  rewrite bool_decide_eq_true_2 by done. unfold Main.when at 1.
  unfold bind at 1. rewrite select_run.
  assert (Hsel : selected key GLFW_PRESS i = i).
  { unfold selected. rewrite decide_False; [done|].
    unfold reaches_active, GLFW_KEY_UP, GLFW_KEY_DOWN, GLFW_KEY_LEFT,
      GLFW_KEY_RIGHT, GLFW_KEY_SPACE, GLFW_KEY_0, GLFW_KEY_8 in *. lia. }
  rewrite Hsel.
  assert (Hskip : forall (k : Z) (m : M (list (ObjectData.t F) * Z) unit) st,
            key <> k -> Main.when (bool_decide (key = k)) m st = (Ok tt, st)).
  { intros k m st Hk. by rewrite bool_decide_eq_false_2. }
  assert (Hfire : forall (k : Z) (m : M (list (ObjectData.t F) * Z) unit) st,
            key = k -> Main.when (bool_decide (key = k)) m st = m st).
  { intros k m st Hk. by rewrite bool_decide_eq_true_2. }
  destruct Hkey as [-> | [-> | [-> | [-> | ->]]]].
  - unfold bind at 1. rewrite Hfire by done.
    by rewrite update_active_undefined.
  - unfold bind at 1. rewrite Hskip by (compute; lia).
    unfold bind at 1. rewrite Hfire by done.
    by rewrite update_active_undefined.
  - do 2 (unfold bind at 1; rewrite Hskip by (compute; lia)).
    unfold bind at 1. rewrite Hfire by done.
    by rewrite update_active_undefined.
  - do 3 (unfold bind at 1; rewrite Hskip by (compute; lia)).
    unfold bind at 1. rewrite Hfire by done.
    by rewrite update_active_undefined.
  - do 4 (unfold bind at 1; rewrite Hskip by (compute; lia)).
    rewrite Hfire by done. unfold bind at 1.
    by rewrite active_undefined.
Qed.

Lemma next_shape_other (s : Z) : ~ 0 <= s <= 4 -> next_shape s = s.
Proof.
  intros Hs. unfold next_shape, ShapeTypes.Cube, ShapeTypes.Square,
    ShapeTypes.Circle, ShapeTypes.Pyramid, ShapeTypes.Frustum.
  repeat case_decide; lia.
Qed.

Lemma next_shape_cycle (s : Z) : Nat.iter 5 next_shape s = s.
Proof.
  destruct (decide (0 <= s <= 4)) as [Hs | Hs].
  - assert (s = 0 \/ s = 1 \/ s = 2 \/ s = 3 \/ s = 4)
      as [-> | [-> | [-> | [-> | ->]]]] by lia; by vm_compute.
  - cbv [Nat.iter nat_rect]. by rewrite !(next_shape_other s) by done.
Qed.

Lemma presses_space (n : nat) : forall objects (i : Z) o,
  0 <= i -> Z.of_nat (length objects) <= PTRDIFF_MAX ->
  objects !! Z.to_nat i = Some o ->
  presses n GLFW_KEY_SPACE (objects, i)
  = (Ok tt,
     (<[Z.to_nat i :=
          Main.set_shape (Nat.iter n next_shape (ObjectData.shape o)) o]>
        objects, i)).
Proof.
  induction n as [|n IH]; intros objects i o Hi Hmax Ho.
  - cbn [presses]. cbv [Nat.iter nat_rect].
    by rewrite set_shape_same, list_insert_id.
  - cbn [presses]. unfold bind.
    assert (Hsel : selected GLFW_KEY_SPACE GLFW_PRESS i = i) by done.
    pose proof (keyboard_run GLFW_KEY_SPACE 0 objects i o) as Hrun.
    cbv zeta in Hrun. rewrite Hsel in Hrun. rewrite Hrun by done.
    pose proof (lookup_lt_Some _ _ _ Ho) as Hlt.
    rewrite (IH _ i (key_effect GLFW_KEY_SPACE o)); try done.
    + rewrite list_insert_insert_eq, Nat.iter_succ_r. reflexivity.
    + by rewrite length_insert.
    + by rewrite list_lookup_insert_eq.
Qed.

(** X24.  Each press of the space key gives the active object the next
    shape type of the cycle cube, square, circle, pyramid, frustum, cube,
    and changes nothing else; an object whose shape type is none of the
    five keeps it.  After five presses the object list is the one it
    was, and fewer presses (one to four) leave an object of one of the
    five types with a different type. *)
Theorem space_cycles_shapes (n : nat) objects (i : Z) o :
  0 <= i -> Z.of_nat (length objects) <= PTRDIFF_MAX ->
  objects !! Z.to_nat i = Some o ->
  presses n GLFW_KEY_SPACE (objects, i)
  = (Ok tt,
     (<[Z.to_nat i :=
          Main.set_shape (Nat.iter n next_shape (ObjectData.shape o)) o]>
        objects, i))
  /\ presses 5 GLFW_KEY_SPACE (objects, i) = (Ok tt, (objects, i))
  /\ (0 <= ObjectData.shape o <= 4 -> (1 <= n <= 4)%nat ->
      Nat.iter n next_shape (ObjectData.shape o) <> ObjectData.shape o)
  /\ (~ 0 <= ObjectData.shape o <= 4 ->
      Nat.iter n next_shape (ObjectData.shape o) = ObjectData.shape o).
Proof.
  intros Hi Hmax Ho. split; [by apply presses_space|]. split; [|split].
  - rewrite (presses_space 5 objects i o) by done.
    by rewrite next_shape_cycle, set_shape_same, list_insert_id.
  - intros Hs Hn.
    assert (ObjectData.shape o = 0 \/ ObjectData.shape o = 1
            \/ ObjectData.shape o = 2 \/ ObjectData.shape o = 3
            \/ ObjectData.shape o = 4) as Hcases by lia.
    assert (n = 1 \/ n = 2 \/ n = 3 \/ n = 4)%nat as Hns by lia.
    destruct Hcases as [-> | [-> | [-> | [-> | ->]]]];
      destruct Hns as [-> | [-> | [-> | ->]]]; by vm_compute.
  - intros Hs. induction n as [|n IH]; [done|].
    rewrite Nat.iter_succ, IH. by apply next_shape_other.
Qed.
End KeyboardProperties.

Section KeyboardExamples.
Import GLFW.
#[local] Existing Instance real_FloatOps.
#[local] Existing Instance real_FloatSub.

(** X22 at the nine objects of the demo and the key that moves the
    active object up. *)
Lemma keyboard_defined_witness :
  let key := GLFW_KEY_UP in
  let scancode := 0 in
  let action := GLFW_PRESS in
  let objects := example_objects in
  let i := 4 in
  let i' := selected key action i in
  0 <= i' <= 8
  /\ exists o,
       objects !! Z.to_nat i' = Some o
       /\ Main.keyboard key scancode action (objects, i)
          = (Ok tt,
             (if decide (action = GLFW_PRESS)
              then <[Z.to_nat i' := key_effect key o]> objects
              else objects, i')).
Proof.
  apply (keyboard_defined GLFW_KEY_UP 0 GLFW_PRESS example_objects 4);
    arith_hyp.
Defined.

(** X23 at a list of three objects and the initial active index 4. *)
Lemma keyboard_out_of_bounds_witness :
  let key := GLFW_KEY_UP in
  let scancode := 0 in
  let objects := take 3 example_objects in
  let i := 4 in
  Main.keyboard key scancode GLFW_PRESS (objects, i)
  = (Undefined, (objects, i)).
Proof.
  apply (keyboard_out_of_bounds GLFW_KEY_UP 0 (take 3 example_objects) 4);
    [arith_hyp | arith_hyp | by intros [_ Hlt] | by left].
Defined.

(** X24 at two presses on the nine cubes of the demo. *)
Lemma space_cycles_shapes_witness :
  let n := 2%nat in
  let objects := example_objects in
  let i := 4 in
  let o := example_object in
  presses n GLFW_KEY_SPACE (objects, i)
  = (Ok tt,
     (<[Z.to_nat i :=
          Main.set_shape (Nat.iter n next_shape (ObjectData.shape o)) o]>
        objects, i))
  /\ presses 5 GLFW_KEY_SPACE (objects, i) = (Ok tt, (objects, i))
  /\ (0 <= ObjectData.shape o <= 4 -> (1 <= n <= 4)%nat ->
      Nat.iter n next_shape (ObjectData.shape o) <> ObjectData.shape o)
  /\ (~ 0 <= ObjectData.shape o <= 4 ->
      Nat.iter n next_shape (ObjectData.shape o) = ObjectData.shape o).
Proof.
  apply (space_cycles_shapes 2 example_objects 4 example_object);
    [lia | arith_hyp | reflexivity].
Defined.
End KeyboardExamples.
